(** * gprofiler: the perf orchestrator and the NodeJS attach protocol

    A shallow embedding of [gprofiler/profilers/perf.py] and
    [gprofiler/profilers/node.py].  Python code with side effects is written
    in a state-and-exception monad [M]; every call that leaves the
    interpreter (subprocesses, signals, files, the HTTP and websocket
    clients, psutil, the namespace helpers) appends an [event] to the trace
    and takes its answer from a [World], whose oracles see the whole history
    of events so far.  Quantifying over every [World] covers every behaviour
    of the environment. *)

From Stdlib Require Import ZArith List String Ascii Bool Lia DecimalString.
From Stdlib Require Strings.Byte.
Import ListNotations.
#[local] Set Warnings "-register-all".
Local Open Scope string_scope.
Local Open Scope list_scope.

(** ** Python values *)

Module Py.

(** [str(n)] for an [int]. *)
Definition str_int (n : Z) : string := NilZero.string_of_int (Z.to_int n).

(** [needle in hay] on [str]. *)
Fixpoint str_in (needle hay : string) : bool :=
  if String.prefix needle hay then true
  else match hay with
       | EmptyString => false
       | String _ rest => str_in needle rest
       end.

Definition startswith_sep (b : string) : bool :=
  match b with
  | String c _ => Ascii.eqb c "/"
  | EmptyString => false
  end.

Fixpoint endswith_sep (p : string) : bool :=
  match p with
  | EmptyString => false
  | String c EmptyString => Ascii.eqb c "/"
  | String _ rest => endswith_sep rest
  end.

(** One round of the loop of [posixpath.join]. *)
Definition join_step (path b : string) : string :=
  if startswith_sep b then b
  else if (String.eqb path "" || endswith_sep path)%bool then path ++ b
  else path ++ "/" ++ b.

(** [os.path.join(a, *p)] on a POSIX system. *)
Definition os_path_join (a : string) (p : list string) : string :=
  fold_left join_step p a.

(** [s[1:]]. *)
Definition drop_first (s : string) : string :=
  match s with
  | EmptyString => EmptyString
  | String _ rest => rest
  end.

(** [s.split(".")[0]]: the text before the first dot. *)
Fixpoint before_dot (s : string) : string :=
  match s with
  | EmptyString => EmptyString
  | String c rest => if Ascii.eqb c "." then EmptyString else String c (before_dot rest)
  end.

(** What [json.loads] returns.  A finite float is [m * 2^e]; [NaN] and the
    infinities, which [json.loads] accepts, are [JNonFinite]. *)
Inductive json : Type :=
| JNull
| JBool (b : bool)
| JInt (n : Z)
| JFloat (m e : Z)
| JNonFinite
| JStr (s : string)
| JList (items : list json)
| JDict (items : list (string * json)).

Fixpoint dict_get (k : string) (items : list (string * json)) : option json :=
  match items with
  | [] => None
  | (k', v) :: rest => if String.eqb k k' then Some v else dict_get k rest
  end.

(** [n == v] for an [int] n: [bool] is a subclass of [int], and an [int]
    equals a [float] of the same numeric value. *)
Definition eq_int (n : Z) (v : json) : bool :=
  match v with
  | JInt m => Z.eqb n m
  | JBool b => Z.eqb n (if b then 1 else 0)
  | JFloat m e => if (0 <=? e)%Z then Z.eqb n (m * 2 ^ e) else Z.eqb (n * 2 ^ (- e)) m
  | _ => false
  end.

(** [v == s] for a [str] s. *)
Definition eq_str (v : json) (s : string) : bool :=
  match v with
  | JStr t => String.eqb t s
  | _ => false
  end.

(** The exceptions the two modules raise, catch or let through.
    [BaseExceptionOnly] stands for [KeyboardInterrupt], [SystemExit] and the
    like: instances of [BaseException] that are not instances of
    [Exception]. *)
Inductive exn : Type :=
| AssertionError (msg : string) (args : list json)
| TimeoutError
| StopEventSetException
| NoSuchProcess (pid : Z)
| FileNotFoundError
| NodeDebuggerUrlNotFound
| NodeDebuggerUnexpectedResponse
| JSONDecodeError
| KeyError (key : string)
| TypeError
| AttributeError
| UnicodeDecodeError
| StructError
| OtherException (name : string)
| BaseExceptionOnly (name : string).

Definition is_Exception (e : exn) : bool :=
  match e with
  | BaseExceptionOnly _ => false
  | _ => true
  end.

Definition is_TimeoutError (e : exn) : bool :=
  match e with TimeoutError => true | _ => false end.

Definition is_NoSuchProcess (e : exn) : bool :=
  match e with NoSuchProcess _ => true | _ => false end.

Definition is_FileNotFoundError (e : exn) : bool :=
  match e with FileNotFoundError => true | _ => false end.

Definition is_KeyError (e : exn) : bool :=
  match e with KeyError _ => true | _ => false end.

Definition is_NodeDebuggerUrlNotFound (e : exn) : bool :=
  match e with NodeDebuggerUrlNotFound => true | _ => false end.

Definition is_AssertionError (e : exn) : bool :=
  match e with AssertionError _ _ => true | _ => false end.

Inductive outcome (A : Type) : Type :=
| Ok (a : A)
| Raise (e : exn).
Arguments Ok {A} a.
Arguments Raise {A} e.

(** [v[k]] for a [str] k: only a [dict] can be indexed by a string. *)
Definition getitem (v : json) (k : string) : outcome json :=
  match v with
  | JDict items =>
      match dict_get k items with
      | Some x => Ok x
      | None => Raise (KeyError k)
      end
  | _ => Raise TypeError
  end.

(** [v.keys()]: only a [dict] has the method. *)
Definition keys (v : json) : outcome (list string) :=
  match v with
  | JDict items => Ok (map fst items)
  | _ => Raise AttributeError
  end.

(** [functools.lru_cache(maxsize)]: the cache as a list, most recently used
    first.  A hit moves the entry to the front; a miss that returns normally
    is stored, and the least recently used entry is dropped when the cache
    is full.  A call that raises stores nothing. *)
Section Lru.
Context {K V : Type} (eqb : K -> K -> bool).

Fixpoint lru_find (k : K) (c : list (K * V)) : option V :=
  match c with
  | [] => None
  | (k', v) :: rest => if eqb k k' then Some v else lru_find k rest
  end.

Fixpoint lru_remove (k : K) (c : list (K * V)) : list (K * V) :=
  match c with
  | [] => []
  | (k', v) :: rest => if eqb k k' then rest else (k', v) :: lru_remove k rest
  end.

Definition lru_hit (k : K) (v : V) (c : list (K * V)) : list (K * V) :=
  (k, v) :: lru_remove k c.

Definition lru_store (maxsize : nat) (k : K) (v : V) (c : list (K * V)) : list (K * V) :=
  firstn maxsize ((k, v) :: c).
End Lru.

End Py.
Export Py.

(** ** The interpreter's state, the environment and the monad *)

Module Runtime.

Definition bytes : Type := list Byte.byte.

(** A reference to a [PerfProcess] object. *)
Definition ref : Type := nat.

Inductive stream : Type := Stdout | Stderr.

(** A pipe of a subprocess, named by the subprocess that owns it. *)
Inductive pipe : Type := Pipe (owner : nat) (which : stream).

(** A [subprocess.Popen] handle.  [stdout] and [stderr] are [None] when the
    stream was not captured. *)
Record Popen : Type := mkPopen {
  popen_id : nat;
  stdout : option pipe;
  stderr : option pipe
}.

(** A [psutil.Process]: equality and hashing go by pid and creation time. *)
Record Process : Type := mkProcess {
  pid : Z;
  create_time : Z
}.

Definition Process_eqb (p q : Process) : bool :=
  (Z.eqb (pid p) (pid q) && Z.eqb (create_time p) (create_time q))%bool.

(** A [websocket.WebSocket], named by the connection that made it. *)
Definition WebSocket : Type := nat.

Inductive signal : Type := SIGUSR1 | SIGUSR2.

Inductive level : Type := DEBUG | INFO | WARNING | CRITICAL.

(** A value interpolated into a log message or an assertion message. *)
Inductive logarg : Type :=
| LStr (s : string)
| LInt (n : Z)
| LBytes (b : bytes)
| LJson (v : json)
| LExn (e : exn).

(** The double quote, for the JavaScript expressions sent to the target. *)
Definition dquote : string := String (Ascii.ascii_of_nat 34) EmptyString.

(** A metadata collector: an object of class [GolangPerfMetadata] or of
    class [NodePerfMetadata], with its identity.  A [SystemProfiler] builds
    one of each. *)
Inductive PerfMetadata : Type :=
| a_GolangPerfMetadata (id : nat)
| a_NodePerfMetadata (id : nat).

Definition AppMetadata : Type := list (string * json).

(** [StackToSampleCount]: a folded stack and its number of samples. *)
Definition StackToSampleCount : Type := list (string * nat).

(** What [requests.get] returns: [json_body] is [None] when [.json()]
    cannot decode the body. *)
Record Response : Type := mkResponse {
  status_code : Z;
  content_type : option string;
  text : string;
  json_body : option json
}.

(** A websocket message, as [json.loads] reads it. *)
Inductive received : Type :=
| NotJson (raw : string)
| Json (v : json).

(** What happened during [Event.wait(timeout)]. *)
Inductive wait_result : Type := AlreadySet | SetDuringWait | TimedOut.

(** A call that leaves the interpreter.  A log record keeps the f-string
    with every replacement field written [{}] and the interpolated values
    beside it. *)
Inductive event : Type :=
| Log (lvl : level) (fmt : string) (args : list logarg)
| StartProcess (cmd : list string)
| Started (p : nat)
| WaitEvent (timeout : Z) (path : string)
| Kill (p : nat)
| Terminate (p : nat)
| Wait (p : nat)
| SendSignal (p : nat) (sig : signal)
| PipeRead (p : pipe)
| PipeRead1 (p : pipe) (n : Z)
| WaitForFileByPrefix (prefix : string) (timeout : Z)
| RunProcess (cmd : list string)
| Unlink (path : string)
| StopEventWait (timeout : Z)
| IsProcessRunning (p : Process)
| PgrepExe (pattern : string)
| PsutilProcess (pid : Z)
| ReadElfSymbol (path sym : string) (size : Z)
| ReadElfVa (path : string) (addr len : Z)
| IsProcessBasenameMatching (p : Process) (pattern : string)
| GetMetadata (c : PerfMetadata) (p : Process)
| GetExeVersion (p : Process) (timeout : Z)
| ResourcePath (rel : string)
| ReadText (path : string)
| OsKill (pid : Z) (sig : signal)
| RequestsGet (url : string) (timeout : Z)
| Sleep (seconds : Z)
| CreateConnection (url : json)
| Connected (sock : WebSocket)
| SetTimeout (sock : WebSocket) (seconds : Z)
| SockSend (sock : WebSocket) (request : json)
| SockRecv (sock : WebSocket)
| GetProcRootPath (p : Process)
| ResolveProcRootLinks (proc_root path : string)
| PathExists (path : string)
| Copytree (src dst : string)
| AddPermissionDir (path : string) (mode_file mode_dir : Z)
| OsRemove (path : string)
| IsMusl (p : Process)
| GetProcessNspid (pid : Z)
| Readlink (path : string)
| RunInNs (nstypes : list string) (pid : Z).

(** The environment.  The first fields are constants and pure functions of
    modules that are not part of the two files; every other field answers one
    kind of call, given the trace up to and including that call. *)
Record World : Type := mkWorld {
  perf_path : string;
  TEMPORARY_STORAGE_PATH : string;
  utf8_decode : bytes -> option string;
  ans_merge_global_perfs :
    option string -> option string -> outcome (list (Z * StackToSampleCount));
  ans_ProfilerBase_init : Z -> Z -> string -> outcome (Z * Z * string);
  ans_start_process : list event -> outcome (bool * bool);
  ans_wait_event : list event -> outcome unit;
  ans_read : list event -> bytes;
  ans_wait_for_file_by_prefix : list event -> outcome string;
  ans_run_process : list event -> outcome bytes;
  ans_unlink : list event -> outcome unit;
  ans_stop_event_wait : list event -> wait_result;
  ans_is_process_running : list event -> bool;
  ans_pgrep_exe : list event -> outcome (list Process);
  ans_psutil_Process : list event -> outcome Z;
  ans_read_elf_symbol : list event -> outcome (option bytes);
  ans_read_elf_va : list event -> outcome (option bytes);
  ans_is_process_basename_matching : list event -> outcome bool;
  ans_get_metadata : list event -> outcome (option AppMetadata);
  ans_get_exe_version : list event -> outcome string;
  ans_resource_path : list event -> outcome string;
  ans_read_text : list event -> outcome string;
  ans_os_kill : list event -> outcome unit;
  ans_requests_get : list event -> outcome Response;
  ans_create_connection : list event -> outcome unit;
  ans_settimeout : list event -> outcome unit;
  ans_send : list event -> outcome unit;
  ans_recv : list event -> outcome received;
  ans_get_proc_root_path : list event -> outcome string;
  ans_resolve_proc_root_links : list event -> outcome string;
  ans_path_exists : list event -> bool;
  ans_copytree : list event -> outcome unit;
  ans_add_permission_dir : list event -> outcome unit;
  ans_os_remove : list event -> outcome unit;
  ans_is_musl : list event -> outcome bool;
  ans_get_process_nspid : list event -> outcome Z;
  ans_readlink : list event -> outcome string;
  ans_run_in_ns : list event -> outcome unit
}.

(** A [PerfProcess] object. *)
Record PerfProcess : Type := mkPerfProcess {
  _frequency : Z;
  _output_path : string;
  _type : string;
  _inject_jit : bool;
  _extra_args : list string;
  _process : option Popen
}.

Definition set_process (o : PerfProcess) (p : option Popen) : PerfProcess :=
  mkPerfProcess (_frequency o) (_output_path o) (_type o) (_inject_jit o) (_extra_args o) p.

(** The mutable state: the trace, the [PerfProcess] objects by reference
    (references below [next_ref] are allocated), the [_node_processes] list
    of the [SystemProfiler], the three [lru_cache]s, and the number of
    collector objects created so far.  The cache of the method
    [_get_golang_version] is one cache of the class, whose keys are the
    pairs of the collector object and the process. *)
Record state : Type := mkState {
  trace : list event;
  heap : ref -> PerfProcess;
  next_ref : ref;
  _node_processes : list Process;
  cache_dso_git_rev : list (unit * string);
  cache_dest_inside_container : list ((bool * string) * string);
  cache_golang_version : list ((nat * Process) * option string);
  next_collector : nat
}.

Definition set_trace (t : list event) (s : state) : state :=
  mkState t (heap s) (next_ref s) (_node_processes s) (cache_dso_git_rev s)
    (cache_dest_inside_container s) (cache_golang_version s) (next_collector s).

Definition set_heap (h : ref -> PerfProcess) (n : ref) (s : state) : state :=
  mkState (trace s) h n (_node_processes s) (cache_dso_git_rev s)
    (cache_dest_inside_container s) (cache_golang_version s) (next_collector s).

Definition set_node_processes (l : list Process) (s : state) : state :=
  mkState (trace s) (heap s) (next_ref s) l (cache_dso_git_rev s)
    (cache_dest_inside_container s) (cache_golang_version s) (next_collector s).

Definition set_cache_dso_git_rev (c : list (unit * string)) (s : state) : state :=
  mkState (trace s) (heap s) (next_ref s) (_node_processes s) c
    (cache_dest_inside_container s) (cache_golang_version s) (next_collector s).

Definition set_cache_dest_inside_container
  (c : list ((bool * string) * string)) (s : state) : state :=
  mkState (trace s) (heap s) (next_ref s) (_node_processes s) (cache_dso_git_rev s)
    c (cache_golang_version s) (next_collector s).

Definition set_cache_golang_version
  (c : list ((nat * Process) * option string)) (s : state) : state :=
  mkState (trace s) (heap s) (next_ref s) (_node_processes s) (cache_dso_git_rev s)
    (cache_dest_inside_container s) c (next_collector s).

Definition set_next_collector (n : nat) (s : state) : state :=
  mkState (trace s) (heap s) (next_ref s) (_node_processes s) (cache_dso_git_rev s)
    (cache_dest_inside_container s) (cache_golang_version s) n.

Definition M (A : Type) : Type := state -> outcome A * state.

Definition ret {A : Type} (a : A) : M A := fun s => (Ok a, s).

Definition raise {A : Type} (e : exn) : M A := fun s => (Raise e, s).

Definition bind {A B : Type} (m : M A) (k : A -> M B) : M B :=
  fun s =>
    match m s with
    | (Ok a, s') => k a s'
    | (Raise e, s') => (Raise e, s')
    end.

(** A pure computation that may raise. *)
Definition lift {A : Type} (o : outcome A) : M A := fun s => (o, s).

(** [try: m  except <class> as e: handler e]: the handler runs on the
    exceptions the class test accepts; the others pass through. *)
Definition try_except {A : Type} (m : M A) (catches : exn -> bool) (handler : exn -> M A) : M A :=
  fun s =>
    match m s with
    | (Ok a, s') => (Ok a, s')
    | (Raise e, s') => if catches e then handler e s' else (Raise e, s')
    end.

(** [try: m  finally: f]: [f] always runs; when it raises, its exception
    replaces the outcome of [m]. *)
Definition try_finally {A : Type} (m : M A) (f : M unit) : M A :=
  fun s =>
    match m s with
    | (r, s') =>
        match f s' with
        | (Ok _, s'') => (r, s'')
        | (Raise e, s'') => (Raise e, s'')
        end
    end.

(** [assert c, msg]: the message is an f-string, kept as its text with
    every replacement field written [{}] and the interpolated values. *)
Definition py_assert (c : bool) (msg : string) (args : list json) : M unit :=
  if c then ret tt else raise (AssertionError msg args).

(** [try: m  except <class> as e: handler e  else: orelse]. *)
Definition try_except_else {A B : Type}
  (m : M A) (catches : exn -> bool) (handler : exn -> M B) (orelse : A -> M B) : M B :=
  fun s =>
    match m s with
    | (Ok a, s') => orelse a s'
    | (Raise e, s') => if catches e then handler e s' else (Raise e, s')
    end.

(** A function under [functools.lru_cache(maxsize)], its cache kept in the
    state behind [get] and [set]. *)
Definition lru_cache {K V : Type} (eqb : K -> K -> bool) (maxsize : nat)
  (get : state -> list (K * V)) (set : list (K * V) -> state -> state)
  (f : K -> M V) (k : K) : M V :=
  fun s =>
    match lru_find eqb k (get s) with
    | Some v => (Ok v, set (lru_hit eqb k v (get s)) s)
    | None =>
        match f k s with
        | (Ok v, s') => (Ok v, set (lru_store maxsize k v (get s')) s')
        | (Raise e, s') => (Raise e, s')
        end
    end.

(** A call with no answer. *)
Definition emit (ev : event) : M unit :=
  fun s => (Ok tt, set_trace (trace s ++ [ev]) s).

(** A call whose answer is a value. *)
Definition ask {A : Type} (ev : event) (oracle : list event -> A) : M A :=
  fun s => let t := trace s ++ [ev] in (Ok (oracle t), set_trace t s).

(** A call that returns or raises. *)
Definition call {A : Type} (ev : event) (oracle : list event -> outcome A) : M A :=
  fun s => let t := trace s ++ [ev] in (oracle t, set_trace t s).

Definition get_state : M state := fun s => (Ok s, s).

Definition modify (f : state -> state) : M unit := fun s => (Ok tt, f s).

Declare Scope py_scope.
Delimit Scope py_scope with py.
Notation "x <- m ;; k" := (bind m (fun x => k))
  (at level 61, m at next level, right associativity) : py_scope.
Notation "m ;;; k" := (bind m (fun _ => k))
  (at level 61, right associativity) : py_scope.

End Runtime.
Export Runtime.
Local Open Scope py_scope.

(** ** Calls into modules outside the two files *)

Module Extern.

(** [gprofiler.utils.process.start_process]: the new subprocess is named by
    the position of the call in the trace. *)
Definition start_process (w : World) (cmd : list string) : M Popen :=
  s <- get_state ;;
  let id := List.length (trace s) in
  pipes <- call (StartProcess cmd) (ans_start_process w) ;;
  emit (Started id) ;;;
  ret (mkPopen id
         (if fst pipes then Some (Pipe id Stdout) else None)
         (if snd pipes then Some (Pipe id Stderr) else None)).

(** [gprofiler.utils.wait_event(timeout, stop_event, lambda: os.path.exists(path))]. *)
Definition wait_event (w : World) (timeout : Z) (path : string) : M unit :=
  call (WaitEvent timeout path) (ans_wait_event w).

Definition read (w : World) (p : pipe) : M bytes :=
  ask (PipeRead p) (ans_read w).

Definition read1 (w : World) (p : pipe) (n : Z) : M bytes :=
  ask (PipeRead1 p n) (ans_read w).

Definition wait_for_file_by_prefix (w : World) (prefix : string) (timeout : Z) : M string :=
  call (WaitForFileByPrefix prefix timeout) (ans_wait_for_file_by_prefix w).

(** [gprofiler.utils.process.run_process]: the standard output of the
    finished process. *)
Definition run_process (w : World) (cmd : list string) : M bytes :=
  call (RunProcess cmd) (ans_run_process w).

Definition unlink (w : World) (path : string) : M unit :=
  call (Unlink path) (ans_unlink w).

(** [bytes.decode("utf8")]. *)
Definition decode (w : World) (b : bytes) : M string :=
  match utf8_decode w b with
  | Some s => ret s
  | None => raise UnicodeDecodeError
  end.

(** [stop_event.wait(timeout)]: [True] when the flag is set on entry or
    becomes set before the timeout. *)
Definition stop_event_wait (w : World) (timeout : Z) : M bool :=
  r <- ask (StopEventWait timeout) (ans_stop_event_wait w) ;;
  ret (match r with
       | AlreadySet | SetDuringWait => true
       | TimedOut => false
       end).

Definition is_process_running (w : World) (p : Process) : M bool :=
  ask (IsProcessRunning p) (ans_is_process_running w).

Definition pgrep_exe (w : World) (pattern : string) : M (list Process) :=
  call (PgrepExe pattern) (ans_pgrep_exe w).

(** [psutil.Process(pid)]. *)
Definition psutil_Process (w : World) (pid : Z) : M Process :=
  t <- call (PsutilProcess pid) (ans_psutil_Process w) ;;
  ret (mkProcess pid t).

Definition read_elf_symbol (w : World) (path sym : string) (size : Z) : M (option bytes) :=
  call (ReadElfSymbol path sym size) (ans_read_elf_symbol w).

Definition read_elf_va (w : World) (path : string) (addr len : Z) : M (option bytes) :=
  call (ReadElfVa path addr len) (ans_read_elf_va w).

Definition is_process_basename_matching (w : World) (p : Process) (pattern : string) : M bool :=
  call (IsProcessBasenameMatching p pattern) (ans_is_process_basename_matching w).

(** [ApplicationMetadata.get_metadata], which the collectors inherit. *)
Definition get_metadata (w : World) (c : PerfMetadata) (p : Process) : M (option AppMetadata) :=
  call (GetMetadata c p) (ans_get_metadata w).

Definition get_exe_version (w : World) (p : Process) (timeout : Z) : M string :=
  call (GetExeVersion p timeout) (ans_get_exe_version w).

Definition resource_path (w : World) (rel : string) : M string :=
  call (ResourcePath rel) (ans_resource_path w).

(** [Path(path).read_text()]. *)
Definition read_text (w : World) (path : string) : M string :=
  call (ReadText path) (ans_read_text w).

Definition os_kill (w : World) (pid : Z) (sig : signal) : M unit :=
  call (OsKill pid sig) (ans_os_kill w).

Definition requests_get (w : World) (url : string) (timeout : Z) : M Response :=
  call (RequestsGet url timeout) (ans_requests_get w).

(** [websocket.create_connection]: the new socket is named by the position
    of the call in the trace. *)
Definition create_connection (w : World) (url : json) : M WebSocket :=
  s <- get_state ;;
  let id := List.length (trace s) in
  call (CreateConnection url) (ans_create_connection w) ;;;
  emit (Connected id) ;;;
  ret id.

Definition settimeout (w : World) (sock : WebSocket) (seconds : Z) : M unit :=
  call (SetTimeout sock seconds) (ans_settimeout w).

(** [sock.send(json.dumps(request))]. *)
Definition send (w : World) (sock : WebSocket) (request : json) : M unit :=
  call (SockSend sock request) (ans_send w).

Definition recv (w : World) (sock : WebSocket) : M received :=
  call (SockRecv sock) (ans_recv w).

Definition get_proc_root_path (w : World) (p : Process) : M string :=
  call (GetProcRootPath p) (ans_get_proc_root_path w).

Definition resolve_proc_root_links (w : World) (proc_root path : string) : M string :=
  call (ResolveProcRootLinks proc_root path) (ans_resolve_proc_root_links w).

Definition os_path_exists (w : World) (path : string) : M bool :=
  ask (PathExists path) (ans_path_exists w).

Definition copytree (w : World) (src dst : string) : M unit :=
  call (Copytree src dst) (ans_copytree w).

Definition add_permission_dir (w : World) (path : string) (mode_file mode_dir : Z) : M unit :=
  call (AddPermissionDir path mode_file mode_dir) (ans_add_permission_dir w).

Definition os_remove (w : World) (path : string) : M unit :=
  call (OsRemove path) (ans_os_remove w).

Definition is_musl (w : World) (p : Process) : M bool :=
  call (IsMusl p) (ans_is_musl w).

Definition get_process_nspid (w : World) (pid : Z) : M Z :=
  call (GetProcessNspid pid) (ans_get_process_nspid w).

Definition os_readlink (w : World) (path : string) : M string :=
  call (Readlink path) (ans_readlink w).

(** [granulate_utils.linux.ns.run_in_ns(nstypes, callback, pid,
    passthrough_exception=True)]: enters the namespaces, runs the callback
    there and passes its exception through. *)
Definition run_in_ns {A : Type} (w : World) (nstypes : list string) (callback : M A) (pid : Z) : M A :=
  call (RunInNs nstypes pid) (ans_run_in_ns w) ;;;
  callback.

(** [struct.unpack("QQ", data)] on a little-endian machine (the profiler
    supports x86_64 and aarch64). *)
Definition le_uint (b : bytes) : Z :=
  fold_right (fun x acc => (Z.of_N (Byte.to_N x) + 256 * acc)%Z) 0%Z b.

Definition struct_unpack_QQ (data : bytes) : outcome (Z * Z) :=
  if Nat.eqb (List.length data) 16
  then Ok (le_uint (firstn 8 data), le_uint (skipn 8 data))
  else Raise StructError.

(** [retry.retry(exceptions, tries, delay)] with the defaults [backoff=1]
    and [jitter=0]: the loop of [retry.api.__retry_internal].  When [tries]
    is 0 the loop body never runs and the call returns [None]. *)
Fixpoint retry {A : Type} (none : A) (catches : exn -> bool) (tries : nat) (delay : Z)
  (f : M A) : M A :=
  match tries with
  | O => ret none
  | S remaining =>
      try_except f catches
        (fun e =>
           match remaining with
           | O => raise e
           | S _ =>
               emit (Log WARNING "{}, retrying in {} seconds..." [LExn e; LInt delay]) ;;;
               emit (Sleep delay) ;;;
               retry none catches remaining delay f
           end)
  end.

End Extern.

(** ** gprofiler/profilers/node.py *)

Module node.
Import Extern.

Definition _get_node_major_version (w : World) (process : Process) : M string :=
  node_version <- get_exe_version w process 3 ;;
  ret (before_dot (drop_first node_version)).

(** The body of [_get_dso_git_rev], without its cache. *)
Definition _get_dso_git_rev_body (w : World) (_ : unit) : M string :=
  libc_dso_version_file <- resource_path w (os_path_join "node" ["module"; "glibc"; "version"]) ;;
  musl_dso_version_file <- resource_path w (os_path_join "node" ["module"; "musl"; "version"]) ;;
  libc_dso_ver <- read_text w libc_dso_version_file ;;
  musl_dso_ver <- read_text w musl_dso_version_file ;;
  py_assert (String.eqb libc_dso_ver musl_dso_ver) "" [] ;;;
  ret libc_dso_ver.

(** [@lru_cache(maxsize=1)]. *)
Definition _get_dso_git_rev (w : World) : M string :=
  lru_cache (fun _ _ => true) 1 cache_dso_git_rev set_cache_dso_git_rev
    (_get_dso_git_rev_body w) tt.

Definition key_eqb (a b : bool * string) : bool :=
  (Bool.eqb (fst a) (fst b) && String.eqb (snd a) (snd b))%bool.

Definition _get_dest_inside_container_body (w : World) (key : bool * string) : M string :=
  let musl := fst key in
  let node_version := snd key in
  let libc := if musl then "musl" else "glibc" in
  rev <- _get_dso_git_rev w ;;
  ret (os_path_join (TEMPORARY_STORAGE_PATH w) ["node_module"; rev; libc; node_version]).

(** [@lru_cache()]: the default [maxsize] is 128. *)
Definition _get_dest_inside_container (w : World) (musl : bool) (node_version : string) : M string :=
  lru_cache key_eqb 128 cache_dest_inside_container set_cache_dest_inside_container
    (_get_dest_inside_container_body w) (musl, node_version).

Definition _start_debugger (w : World) (pid : Z) : M unit :=
  os_kill w pid SIGUSR1.

(** [debugger_url_response.headers.get("Content-Type", "")]. *)
Definition header_content_type (r : Response) : string :=
  match content_type r with
  | Some v => v
  | None => ""
  end.

(** The first test of [_get_debugger_url]: the status or the declared
    content type rules the answer out. *)
Definition bad_status_or_type (r : Response) : bool :=
  (negb (Z.eqb (status_code r) 200)
   || negb (str_in "application/json" (header_content_type r)))%bool.

(** The second test of [_get_debugger_url], on the decoded body: [None]
    where the function raises, the address where it returns. *)
Definition first_debugger_url (response_json : json) : option json :=
  match response_json with
  | JList items =>
      match items with
      | [] => None
      | JDict d :: _ => dict_get "webSocketDebuggerUrl" d
      | _ :: _ => None
      end
  | _ => None
  end.

(** The function under the decorator. *)
Definition _get_debugger_url_body (w : World) : M json :=
  let port := 9229%Z in
  debugger_url_response <-
    requests_get w ("http://127.0.0.1:" ++ str_int port ++ "/json/list") 3 ;;
  if bad_status_or_type debugger_url_response
  then raise NodeDebuggerUrlNotFound
  else
    response_json <-
      match json_body debugger_url_response with
      | Some v => ret v
      | None => raise JSONDecodeError
      end ;;
    match first_debugger_url response_json with
    | None => raise NodeDebuggerUrlNotFound
    | Some url => ret url
    end.

(** [@retry(NodeDebuggerUrlNotFound, 5, 1)]. *)
Definition _get_debugger_url (w : World) : M json :=
  retry JNull is_NodeDebuggerUrlNotFound 5 1 (_get_debugger_url_body w).

(** [message = sock.recv()] followed by [json.loads(message)], whose
    [JSONDecodeError] becomes [NodeDebuggerUnexpectedResponse]. *)
Definition recv_json (w : World) (sock : WebSocket) : M json :=
  message <- recv w sock ;;
  match message with
  | Json v => ret v
  | NotJson _ => raise NodeDebuggerUnexpectedResponse
  end.

(** [k not in v.keys()]. *)
Definition not_in_keys (k : string) (v : json) : M bool :=
  ks <- lift (keys v) ;;
  ret (negb (existsb (String.eqb k) ks)).

(** The [or] chain of [_send_socket_request], each operand evaluated only
    when the ones before it are false. *)
Definition unexpected_response (message : json) : M bool :=
  c1 <- not_in_keys "result" message ;;
  if c1 then ret true else
  r1 <- lift (getitem message "result") ;;
  c2 <- not_in_keys "result" r1 ;;
  if c2 then ret true else
  r2 <- lift (getitem r1 "result") ;;
  c3 <- not_in_keys "type" r2 ;;
  if c3 then ret true else
  ty <- lift (getitem r2 "type") ;;
  ret (negb (eq_str ty "boolean")).

Definition _send_socket_request (w : World) (sock : WebSocket) (cdp_request : json) : M unit :=
  send w sock cdp_request ;;;
  message <- recv_json w sock ;;
  bad <- unexpected_response message ;;
  if bad then raise NodeDebuggerUnexpectedResponse else ret tt.

(** The [Runtime.evaluate] request both senders build. *)
Definition evaluate_request (expression : string) : json :=
  JDict [("id", JInt 1);
         ("method", JStr "Runtime.evaluate");
         ("params", JDict [("expression", JStr expression); ("replMode", JBool true)])].

Definition _execute_js_command (w : World) (sock : WebSocket) (command : string) : M json :=
  let cdp_request := evaluate_request command in
  send w sock cdp_request ;;;
  message <- recv_json w sock ;;
  try_except
    (r1 <- lift (getitem message "result") ;;
     r2 <- lift (getitem r1 "result") ;;
     lift (getitem r2 "value"))
    is_KeyError
    (fun _ => raise NodeDebuggerUnexpectedResponse).

(** The expression [_change_dso_state] evaluates in the target. *)
Definition dso_expression (module_path action : string) : string :=
  "process.mainModule.require(" ++ dquote ++ os_path_join module_path ["linux-perf.js"]
    ++ dquote ++ ")." ++ action ++ "()".

Definition _change_dso_state (w : World) (sock : WebSocket) (module_path action : string) : M unit :=
  py_assert (String.eqb action "start" || String.eqb action "stop")%bool
    "_change_dso_state supports only start and stop actions" [] ;;;
  let cdp_request := evaluate_request (dso_expression module_path action) in
  _send_socket_request w sock cdp_request.

Definition ns_link_command : string :=
  "const fs = process.mainModule.require(" ++ dquote ++ "fs" ++ dquote
    ++ "); fs.readlinkSync(" ++ dquote ++ "/proc/self/ns/pid" ++ dquote ++ ")".

Definition _validate_ns_node (w : World) (sock : WebSocket) (expected_ns_link_name : string) : M unit :=
  let command := ns_link_command in
  actual_ns_link_name <- _execute_js_command w sock command ;;
  py_assert (eq_str actual_ns_link_name expected_ns_link_name)
    "Wrong namespace, expected {}, got {}" [JStr expected_ns_link_name; actual_ns_link_name].

Definition _validate_pid (w : World) (expected_pid : Z) (sock : WebSocket) : M unit :=
  actual_pid <- _execute_js_command w sock "process.pid" ;;
  py_assert (eq_int expected_pid actual_pid)
    "Wrong pid, expected {}, actual {}" [JInt expected_pid; actual_pid].

Definition create_debugger_socket (w : World) (nspid : Z) (ns_link_name : string) : M WebSocket :=
  debugger_url <- _get_debugger_url w ;;
  sock <- create_connection w debugger_url ;;
  settimeout w sock 10 ;;;
  _validate_ns_node w sock ns_link_name ;;;
  _validate_pid w nspid sock ;;;
  ret sock.

Definition S_IROTH : Z := 4.
Definition S_IXOTH : Z := 1.

Definition _copy_module_into_process_ns (w : World) (process : Process) (musl : bool)
  (version : string) : M string :=
  proc_root <- get_proc_root_path w process ;;
  let libc := if musl then "musl" else "glibc" in
  dest_inside_container <- _get_dest_inside_container w musl version ;;
  dest <- resolve_proc_root_links w proc_root dest_inside_container ;;
  found <- os_path_exists w dest ;;
  if found then ret dest_inside_container else
  rev <- _get_dso_git_rev w ;;
  src <- resource_path w (os_path_join "node" ["module"; libc; rev; version]) ;;
  copytree w src dest ;;;
  add_permission_dir w dest S_IROTH (Z.lor S_IXOTH S_IROTH) ;;;
  ret dest_inside_container.

Definition _generate_perf_map (w : World) (module_path : string) (nspid : Z)
  (ns_link_name : string) : M unit :=
  sock <- create_debugger_socket w nspid ns_link_name ;;
  _change_dso_state w sock module_path "start".

Definition _clean_up (w : World) (module_path : string) (nspid : Z) (ns_link_name : string) : M unit :=
  sock <- create_debugger_socket w nspid ns_link_name ;;
  try_finally
    (_change_dso_state w sock module_path "stop")
    (os_remove w (os_path_join "/tmp" [("perf-" ++ str_int nspid ++ ".map")%string])).

Definition get_node_processes (w : World) : M (list Process) :=
  pgrep_exe w ".*node[^/]*$".

Definition proc_ns_pid (process : Process) : string :=
  "/proc/" ++ str_int (pid process) ++ "/ns/pid".

(** The [try] block of the loop of [generate_map_for_node_processes]. *)
Definition generate_map_for_node_processes_try (w : World) (process : Process) : M unit :=
  musl <- is_musl w process ;;
  node_major_version <- _get_node_major_version w process ;;
  dest <- _copy_module_into_process_ns w process musl node_major_version ;;
  nspid <- get_process_nspid w (pid process) ;;
  ns_link_name <- os_readlink w (proc_ns_pid process) ;;
  _start_debugger w (pid process) ;;;
  run_in_ns w ["pid"; "mnt"; "net"] (_generate_perf_map w dest nspid ns_link_name) (pid process).

Fixpoint generate_map_for_node_processes (w : World) (processes : list Process) : M unit :=
  match processes with
  | [] => ret tt
  | process :: rest =>
      try_except (generate_map_for_node_processes_try w process) is_Exception
        (fun e =>
           emit (Log WARNING "Could not create debug symbols for pid {}. Reason: {}"
                   [LInt (pid process); LExn e])) ;;;
      generate_map_for_node_processes w rest
  end.

(** The [try] block of the loop of [clean_up_node_maps]; [continue] leaves
    it early. *)
Definition clean_up_node_maps_try (w : World) (process : Process) : M unit :=
  running <- is_process_running w process ;;
  if negb running then ret tt else
  node_major_version <- _get_node_major_version w process ;;
  nspid <- get_process_nspid w (pid process) ;;
  ns_link_name <- os_readlink w (proc_ns_pid process) ;;
  musl <- is_musl w process ;;
  dest <- _get_dest_inside_container w musl node_major_version ;;
  run_in_ns w ["pid"; "mnt"; "net"] (_clean_up w dest nspid ns_link_name) (pid process).

Fixpoint clean_up_node_maps (w : World) (processes : list Process) : M unit :=
  match processes with
  | [] => ret tt
  | process :: rest =>
      try_except (clean_up_node_maps_try w process) is_Exception
        (fun e =>
           emit (Log WARNING "Could not clean up debug symbols for pid {}. Reason: {}"
                   [LInt (pid process); LExn e])) ;;;
      clean_up_node_maps w rest
  end.

End node.

(** ** gprofiler/profilers/perf.py *)

(** [for x in l: f(x)]. *)
Fixpoint for_each {A : Type} (f : A -> M unit) (l : list A) : M unit :=
  match l with
  | [] => ret tt
  | x :: rest => f x ;;; for_each f rest
  end.

(** [[x for x in l if c(x)]] with a condition that calls out. *)
Fixpoint filter_by {A : Type} (c : A -> M bool) (l : list A) : M (list A) :=
  match l with
  | [] => ret []
  | x :: rest =>
      keep <- c x ;;
      kept <- filter_by c rest ;;
      ret (if keep then x :: kept else kept)
  end.

(** The construction of a collector object: the new object is named by
    the number of collectors created before it. *)
Definition new_collector : M nat :=
  fun s => (Ok (next_collector s), set_next_collector (S (next_collector s)) s).

Definition deref (r : ref) : M PerfProcess :=
  fun s => (Ok (heap s r), s).

Definition assign_process (r : ref) (p : option Popen) : M unit :=
  modify (fun s =>
            set_heap (fun r' => if Nat.eqb r' r then set_process (heap s r) p else heap s r')
              (next_ref s) s).

Module PerfProcess.
Import Extern.

Definition _dump_timeout_s : Z := 5.
Definition _poll_timeout_s : Z := 5.

Definition _mmap_sizes : list (string * Z) := [("fp", 129%Z); ("dwarf", 257%Z)].

Fixpoint mmap_size (ty : string) (table : list (string * Z)) : outcome Z :=
  match table with
  | [] => Raise (KeyError ty)
  | (k, v) :: rest => if String.eqb ty k then Ok v else mmap_size ty rest
  end.

(** The constructor: the new object is stored under a fresh reference. *)
Definition __init__ (frequency : Z) (output_path : string) (is_dwarf inject_jit : bool)
  (extra_args : list string) : M ref :=
  fun s =>
    let r := next_ref s in
    let o := mkPerfProcess frequency output_path (if is_dwarf then "dwarf" else "fp")
               inject_jit (extra_args ++ (if inject_jit then ["-k"; "1"] else [])) None in
    (Ok r, set_heap (fun r' => if Nat.eqb r' r then o else heap s r') (S r) s).

Definition _get_perf_cmd (w : World) (self : ref) : M (list string) :=
  o <- deref self ;;
  pages <- lift (mmap_size (_type o) _mmap_sizes) ;;
  ret ([perf_path w; "record"; "-F"; str_int (_frequency o); "-a"; "-g"; "-o";
        _output_path o; "--switch-output=signal"; "-m"; str_int pages] ++ _extra_args o).

Definition start (w : World) (self : ref) : M unit :=
  o <- deref self ;;
  emit (Log INFO "Starting perf ({} mode)" [LStr (_type o)]) ;;;
  cmd <- _get_perf_cmd w self ;;
  process <- start_process w cmd ;;
  try_except_else
    (wait_event w _poll_timeout_s (_output_path o))
    is_TimeoutError
    (fun e =>
       emit (Kill (popen_id process)) ;;;
       match stdout process, stderr process with
       | Some out, Some err =>
           o1 <- read w out ;;
           o2 <- read w err ;;
           emit (Log CRITICAL "perf failed to start. stdout {} stderr {}" [LBytes o1; LBytes o2]) ;;;
           raise e
       | _, _ => raise (AssertionError "" [])
       end)
    (fun _ =>
       assign_process self (Some process) ;;;
       emit (Log INFO "Started perf ({} mode)" [LStr (_type o)])).

Definition stop (self : ref) : M unit :=
  o <- deref self ;;
  match _process o with
  | Some process =>
      emit (Terminate (popen_id process)) ;;;
      emit (Wait (popen_id process)) ;;;
      assign_process self None ;;;
      emit (Log INFO "Stopped perf ({} mode)" [LStr (_type o)])
  | None => ret tt
  end.

Definition switch_output (self : ref) : M unit :=
  o <- deref self ;;
  match _process o with
  | Some process => emit (SendSignal (popen_id process) SIGUSR2)
  | None => raise (AssertionError "profiling not started!" [])
  end.

(** The [except Exception] handler of [wait_and_script]. *)
Definition dump_failed (w : World) (self : ref) (e : exn) : M string :=
  o <- deref self ;;
  match _process o with
  | Some process =>
      match stdout process, stderr process with
      | Some out, Some err =>
          o1 <- read w out ;;
          o2 <- read w err ;;
          emit (Log CRITICAL "perf failed to dump output. stdout {} stderr {}"
                  [LBytes o1; LBytes o2]) ;;;
          raise e
      | _, _ => raise (AssertionError "" [])
      end
  | None => raise (AssertionError "" [])
  end.

(** The [finally] block of [wait_and_script]. *)
Definition read_stderr (w : World) (self : ref) : M unit :=
  o <- deref self ;;
  match _process o with
  | Some process =>
      match stderr process with
      | Some err =>
          b <- read1 w err 4096 ;;
          emit (Log DEBUG "perf stderr: {}" [LBytes b])
      | None => raise (AssertionError "" [])
      end
  | None => raise (AssertionError "" [])
  end.

Definition wait_and_script (w : World) (self : ref) : M string :=
  o <- deref self ;;
  perf_data <-
    try_finally
      (try_except
         (wait_for_file_by_prefix w (_output_path o ++ ".")%string _dump_timeout_s)
         is_Exception
         (dump_failed w self))
      (read_stderr w self) ;;
  perf_data <-
    (if _inject_jit o then
       let inject_data := (perf_data ++ ".inject")%string in
       run_process w [perf_path w; "inject"; "--jit"; "-o"; inject_data; "-i"; perf_data] ;;;
       unlink w perf_data ;;;
       ret inject_data
     else ret perf_data) ;;
  perf_script_proc <- run_process w [perf_path w; "script"; "-F"; "+pid"; "-i"; perf_data] ;;
  unlink w perf_data ;;;
  decode w perf_script_proc.

End PerfProcess.

Module GolangPerfMetadata.
Import Extern.

(** The body of [_get_golang_version], without its cache. *)
Definition _get_golang_version_body (w : World) (process : Process) : M (option string) :=
  let elf_path := ("/proc/" ++ str_int (pid process) ++ "/exe")%string in
  symbol_data <-
    try_except (read_elf_symbol w elf_path "runtime.buildVersion" 16)
      is_FileNotFoundError (fun _ => raise (NoSuchProcess (pid process))) ;;
  match symbol_data with
  | None => ret None
  | Some data =>
      unpacked <- lift (struct_unpack_QQ data) ;;
      let addr := fst unpacked in
      let len := snd unpacked in
      golang_version_bytes <-
        try_except (read_elf_va w elf_path addr len)
          is_FileNotFoundError (fun _ => raise (NoSuchProcess (pid process))) ;;
      match golang_version_bytes with
      | None => ret None
      | Some b => v <- decode w b ;; ret (Some v)
      end
  end.

(** The key of a call of the cached method: the collector object, by its
    identity, and the process. *)
Definition key_eqb (a b : nat * Process) : bool :=
  (Nat.eqb (fst a) (fst b) && Process_eqb (snd a) (snd b))%bool.

(** [@functools.lru_cache(maxsize=4096)] on a method: [self] is part of the
    key. *)
Definition _get_golang_version (w : World) (self : nat) (process : Process)
  : M (option string) :=
  lru_cache key_eqb 4096 cache_golang_version set_cache_golang_version
    (fun key => _get_golang_version_body w (snd key)) (self, process).

Definition relevant_for_process (w : World) (self : nat) (process : Process) : M bool :=
  version <- _get_golang_version w self process ;;
  ret (match version with Some _ => true | None => false end).

End GolangPerfMetadata.

Module NodePerfMetadata.
Import Extern.

Definition relevant_for_process (w : World) (process : Process) : M bool :=
  is_process_basename_matching w process "^node$".

End NodePerfMetadata.

(** [collector.relevant_for_process(process)], by the class of the object. *)
Definition relevant_for_process (w : World) (c : PerfMetadata) (process : Process) : M bool :=
  match c with
  | a_GolangPerfMetadata self => GolangPerfMetadata.relevant_for_process w self process
  | a_NodePerfMetadata _ => NodePerfMetadata.relevant_for_process w process
  end.

(** [ProfileData(stacks, appid, app_metadata)]. *)
Record ProfileData : Type := mkProfileData {
  stacks : StackToSampleCount;
  appid : option string;
  app_metadata : option AppMetadata
}.

Module SystemProfiler.
Import Extern.

(** The fields [__init__] sets and no method assigns again; the list
    [_node_processes] lives in the state. *)
Record t : Type := mk {
  _frequency : Z;
  _duration : Z;
  _storage_dir : string;
  _perfs : list ref;
  _metadata_collectors : list PerfMetadata;
  _perf_fp : option ref;
  _perf_dwarf : option ref;
  perf_node_attach : bool
}.

Definition mode_in (perf_mode : string) (modes : list string) : bool :=
  existsb (String.eqb perf_mode) modes.

Definition opt_list {A : Type} (o : option A) : list A :=
  match o with
  | Some a => [a]
  | None => []
  end.

Definition __init__ (w : World) (frequency duration : Z) (storage_dir : string)
  (profile_spawned_processes : bool) (perf_mode : string) (perf_dwarf_stack_size : Z)
  (perf_inject perf_node_attach : bool) : M t :=
  base <- lift (ans_ProfilerBase_init w frequency duration storage_dir) ;;
  let frequency' := fst (fst base) in
  let duration' := snd (fst base) in
  let storage_dir' := snd base in
  golang <- new_collector ;;
  nodejs <- new_collector ;;
  modify (set_node_processes []) ;;;
  fp <-
    (if mode_in perf_mode ["fp"; "smart"] then
       r <- PerfProcess.__init__ frequency' (os_path_join storage_dir' ["perf.fp"])
              false perf_inject [] ;;
       ret (Some r)
     else ret None) ;;
  dwarf <-
    (if mode_in perf_mode ["dwarf"; "smart"] then
       r <- PerfProcess.__init__ frequency' (os_path_join storage_dir' ["perf.dwarf"])
              true false
              ["--call-graph"; ("dwarf," ++ str_int perf_dwarf_stack_size)%string] ;;
       ret (Some r)
     else ret None) ;;
  py_assert (match fp, dwarf with None, None => false | _, _ => true end) "" [] ;;;
  ret (mk frequency' duration' storage_dir' (opt_list fp ++ opt_list dwarf)
         [a_GolangPerfMetadata golang; a_NodePerfMetadata nodejs] fp dwarf perf_node_attach).

Definition start (w : World) (self : t) : M unit :=
  (if perf_node_attach self then
     found <- node.get_node_processes w ;;
     modify (set_node_processes found) ;;;
     s <- get_state ;;
     node.generate_map_for_node_processes w (_node_processes s)
   else ret tt) ;;;
  for_each (PerfProcess.start w) (_perfs self).

Definition stop (w : World) (self : t) : M unit :=
  (if perf_node_attach self then
     s <- get_state ;;
     running <- filter_by (is_process_running w) (_node_processes s) ;;
     modify (set_node_processes running) ;;;
     s <- get_state ;;
     node.clean_up_node_maps w (_node_processes s)
   else ret tt) ;;;
  for_each PerfProcess.stop (rev (_perfs self)).

(** The [for] loop of [_get_metadata], which returns from the first
    collector that is relevant. *)
Fixpoint first_relevant (w : World) (collectors : list PerfMetadata) (process : Process)
  : M (option AppMetadata) :=
  match collectors with
  | [] => ret None
  | c :: rest =>
      relevant <- relevant_for_process w c process ;;
      if relevant then get_metadata w c process else first_relevant w rest process
  end.

(** The [try] block of [_get_metadata]. *)
Definition _get_metadata_try (w : World) (self : t) (pid : Z) : M (option AppMetadata) :=
  process <- psutil_Process w pid ;;
  first_relevant w (_metadata_collectors self) process.

Definition _get_metadata (w : World) (self : t) (pid : Z) : M (option AppMetadata) :=
  if (Z.eqb pid 0 || Z.eqb pid (-1))%bool then ret None else
  try_except (_get_metadata_try w self pid) is_NoSuchProcess (fun _ => ret None).

(** [perf.wait_and_script() if perf is not None else None]. *)
Definition script_of (w : World) (perf : option ref) : M (option string) :=
  match perf with
  | Some r => text <- PerfProcess.wait_and_script w r ;; ret (Some text)
  | None => ret None
  end.

(** The dictionary comprehension of [snapshot], over the items of the
    merged dictionary. *)
Fixpoint with_metadata (w : World) (self : t) (items : list (Z * StackToSampleCount))
  : M (list (Z * ProfileData)) :=
  match items with
  | [] => ret []
  | (k, v) :: rest =>
      md <- _get_metadata w self k ;;
      others <- with_metadata w self rest ;;
      ret ((k, mkProfileData v None md) :: others)
  end.

(** The [if self.perf_node_attach:] block of [snapshot]. *)
Definition snapshot_node_attach (w : World) (self : t) : M unit :=
  if perf_node_attach self then
    s <- get_state ;;
    running <- filter_by (is_process_running w) (_node_processes s) ;;
    modify (set_node_processes running) ;;;
    found <- node.get_node_processes w ;;
    s <- get_state ;;
    let new_processes :=
      filter (fun process => negb (existsb (Process_eqb process) (_node_processes s))) found in
    node.generate_map_for_node_processes w new_processes ;;;
    modify (fun s => set_node_processes (_node_processes s ++ new_processes) s)
  else ret tt.

Definition snapshot (w : World) (self : t) : M (list (Z * ProfileData)) :=
  snapshot_node_attach w self ;;;
  stopped <- stop_event_wait w (_duration self) ;;
  (if stopped then raise StopEventSetException else ret tt) ;;;
  for_each PerfProcess.switch_output (_perfs self) ;;;
  fp <- script_of w (_perf_fp self) ;;
  dwarf <- script_of w (_perf_dwarf self) ;;
  merged <- lift (ans_merge_global_perfs w fp dwarf) ;;
  with_metadata w self merged.

End SystemProfiler.

(** ** Worlds and states for examples *)

Module Examples.

Definition no_perf : PerfProcess := mkPerfProcess 0 "" "fp" false [] None.

(** The state of a fresh interpreter. *)
Definition initial_state : state :=
  mkState [] (fun _ => no_perf) 0 [] [] [] [] 0.

(** A node inspector that answers every question well: the listing names one
    endpoint, and an evaluation returns [reply]. *)
Definition listing : json :=
  JList [JDict [("webSocketDebuggerUrl", JStr "ws://127.0.0.1:9229/session")]].

Definition listing_response : Response :=
  mkResponse 200 (Some "application/json; charset=UTF-8") "" (Some listing).

Definition evaluation (ty : string) (value : json) : received :=
  Json (JDict [("id", JInt 1);
               ("result", JDict [("result", JDict [("type", JStr ty); ("value", value)])])]).

(** A world in which every call succeeds; the oracles that matter to an
    example are its parameters. *)
Definition world
  (wait_event_answer : list event -> outcome unit)
  (stop_answer : list event -> wait_result)
  (get_answer : list event -> outcome Response)
  (recv_answer : list event -> outcome received)
  (exists_answer : list event -> bool)
  (psutil_answer : list event -> outcome Z)
  (nspid_answer : list event -> outcome Z) : World :=
  mkWorld "/usr/bin/perf" "/tmp/gprofiler_tmp"
    (fun _ => Some "")
    (fun fp dwarf => Ok [(0%Z, [("swapper;idle", 3)]); (42%Z, [("node;main", 7)])])
    (fun frequency duration storage_dir => Ok (frequency, duration, storage_dir))
    (fun _ => Ok (true, true))
    wait_event_answer
    (fun _ => [])
    (fun _ => Ok "/tmp/perf.fp.2022")
    (fun _ => Ok [])
    (fun _ => Ok tt)
    stop_answer
    (fun _ => true)
    (fun _ => Ok [])
    psutil_answer
    (fun _ => Ok None)
    (fun _ => Ok None)
    (fun _ => Ok false)
    (fun _ => Ok None)
    (fun _ => Ok "v16.3.2")
    (fun _ => Ok "/resources")
    (fun _ => Ok "abcdef0")
    (fun _ => Ok tt)
    get_answer
    (fun _ => Ok tt)
    (fun _ => Ok tt)
    (fun _ => Ok tt)
    recv_answer
    (fun _ => Ok "/proc/7/root")
    (fun _ => Ok "/proc/7/root/tmp/gprofiler_tmp/node_module/abcdef0/glibc/16")
    exists_answer
    (fun _ => Ok tt)
    (fun _ => Ok tt)
    (fun _ => Ok tt)
    (fun _ => Ok false)
    nspid_answer
    (fun _ => Ok "pid:[4026531836]")
    (fun _ => Ok tt).

(** The last request sent on a socket, if the trace ends with a [recv]
    that follows a [send]. *)
Definition last_expression (h : list event) : option json :=
  match rev h with
  | SockRecv _ :: SockSend _ request :: _ => Some request
  | _ => None
  end.

(** A target that reports the pid-namespace link [link] and the pid [p],
    and answers every other evaluation with [true]. *)
Definition target (link : string) (p : Z) (h : list event) : outcome received :=
  match last_expression h with
  | Some request =>
      match getitem request "params" with
      | Ok params =>
          match getitem params "expression" with
          | Ok (JStr e) =>
              if String.eqb e node.ns_link_command then Ok (evaluation "string" (JStr link))
              else if String.eqb e "process.pid" then Ok (evaluation "number" (JInt p))
              else Ok (evaluation "boolean" (JBool true))
          | _ => Ok (NotJson "")
          end
      | Raise _ => Ok (NotJson "")
      end
  | None => Ok (NotJson "")
  end.

Definition quiet_world : World :=
  world (fun _ => Ok tt) (fun _ => TimedOut) (fun _ => Ok listing_response)
    (target "pid:[4026531836]" 7) (fun _ => true) (fun _ => Ok 0%Z) (fun _ => Ok 7%Z).

End Examples.


(** ** The metadata the collectors make ([perf.py]) *)

(** [d[k] = v] on a [dict]: the value of a key that is present is replaced
    where it stands, a new key goes to the end. *)
Fixpoint dict_set (k : string) (v : json) (d : list (string * json)) : list (string * json) :=
  match d with
  | [] => [(k, v)]
  | (k', v') :: rest =>
      if String.eqb k k' then (k, v) :: rest else (k', v') :: dict_set k v rest
  end.

(** [d.update(e)]. *)
Definition dict_update (d e : list (string * json)) : list (string * json) :=
  fold_left (fun acc item => dict_set (fst item) (snd item) acc) e d.

(** The methods of [PerfMetadata] and of its two subclasses that build the
    metadata of a process.  Three functions they call are defined outside
    the two files and stay parameters: [is_statically_linked] of
    [granulate_utils.linux.elf], and [make_application_metadata] and
    [get_exe_version_cached] of the base class [ApplicationMetadata]. *)
Module ExeMetadata.
Section Collectors.
Variable is_statically_linked : string -> M bool.
Variable base_make_application_metadata : Process -> M (list (string * json)).
Variable get_exe_version_cached : Process -> M string.

(** [PerfMetadata.add_exe_metadata]: the dictionary it updates in place is
    the caller's local one, which the model hands back. *)
Definition add_exe_metadata (w : World) (process : Process) (metadata : list (string * json))
  : M (list (string * json)) :=
  static <-
    try_except (is_statically_linked ("/proc/" ++ str_int (pid process) ++ "/exe")%string)
      is_FileNotFoundError (fun _ => raise (NoSuchProcess (pid process))) ;;
  let exe_metadata := [("link", JStr (if static then "static" else "dynamic"))] in
  exe_metadata <-
    (if negb static then
       musl <- Extern.is_musl w process ;;
       ret (dict_set "libc" (JStr (if musl then "musl" else "glibc")) exe_metadata)
     else ret (dict_set "libc" JNull exe_metadata)) ;;
  ret (dict_update metadata exe_metadata).

(** [make_application_metadata], by the class of the collector. *)
Definition make_application_metadata (w : World) (c : PerfMetadata) (process : Process)
  : M (list (string * json)) :=
  own <-
    match c with
    | a_GolangPerfMetadata self =>
        version <- GolangPerfMetadata._get_golang_version w self process ;;
        ret [("golang_version", match version with
                                | Some v => JStr v
                                | None => JNull
                                end)]
    | a_NodePerfMetadata _ =>
        version <- get_exe_version_cached process ;;
        ret [("node_version", JStr version)]
    end ;;
  metadata <- add_exe_metadata w process own ;;
  base <- base_make_application_metadata process ;;
  ret (dict_update metadata base).

End Collectors.
End ExeMetadata.

(** ** Vocabulary of the properties *)

(** A relation between the state before a computation and the state after
    it that holds of no step at all and of two steps in a row. *)
Class StepOrder (R : state -> state -> Prop) : Prop := {
  step_refl : forall s, R s s;
  step_trans : forall a b c, R a b -> R b c -> R a c
}.

(** Every run of [m] takes a state to one related to it by [R]. *)
Definition respects (R : state -> state -> Prop) {A : Type} (m : M A) : Prop :=
  forall s, R s (snd (m s)).

(** The trace grows by events that satisfy [P]. *)
Definition emitting (P : event -> Prop) (s s' : state) : Prop :=
  exists l, trace s' = trace s ++ l /\ Forall P l.

(** A component of the state stays as it is. *)
Definition keeping {X : Type} (proj : state -> X) (s s' : state) : Prop :=
  proj s' = proj s.


(** The events of the node attach protocol ([node.py]). *)
Definition node_event (ev : event) : bool :=
  match ev with
  | Log _ _ _ | IsProcessRunning _ | PgrepExe _ | GetExeVersion _ _ | ResourcePath _
  | ReadText _ | OsKill _ _ | RequestsGet _ _ | Sleep _ | CreateConnection _
  | Connected _ | SetTimeout _ _ | SockSend _ _ | SockRecv _ | GetProcRootPath _
  | ResolveProcRootLinks _ _ | PathExists _ | Copytree _ _ | AddPermissionDir _ _ _
  | OsRemove _ | IsMusl _ | GetProcessNspid _ | Readlink _ | RunInNs _ _ => true
  | _ => false
  end.

(** The collect step of a controller starts by waiting for the rotated
    file. *)
Definition is_collect (ev : event) : bool :=
  match ev with
  | WaitForFileByPrefix _ _ => true
  | _ => false
  end.

(** The rotate signal. *)
Definition is_rotate (ev : event) : bool :=
  match ev with
  | SendSignal _ SIGUSR2 => true
  | _ => false
  end.

(** The events of the sampling controllers and of the metadata step
    ([perf.py]). *)
Definition perf_event (ev : event) : bool :=
  match ev with
  | Log _ _ _ | StartProcess _ | Started _ | WaitEvent _ _ | Kill _ | Terminate _ | Wait _
  | SendSignal _ _ | PipeRead _ | PipeRead1 _ _ | WaitForFileByPrefix _ _ | RunProcess _
  | Unlink _ | StopEventWait _ | PsutilProcess _ | ReadElfSymbol _ _ _ | ReadElfVa _ _ _
  | IsProcessBasenameMatching _ _ | GetMetadata _ _ => true
  | _ => false
  end.

Definition any_event (ev : event) : Prop := True.

(** The events of a call: what the trace of [s'] has beyond that of [s]. *)
Definition since (s s' : state) : list event :=
  skipn (List.length (trace s)) (trace s').

(** The subprocesses that run after a trace: launched, and neither killed
    nor waited for until exit. *)
Definition track (live : list nat) (ev : event) : list nat :=
  match ev with
  | Started p => p :: live
  | Kill p | Wait p => remove Nat.eq_dec p live
  | _ => live
  end.

Definition running (tr : list event) : list nat := fold_left track tr [].

(** The number of times a subprocess was sent [SIGTERM] or [SIGKILL]. *)
Definition terminations (p : nat) (l : list event) : nat :=
  List.length
    (filter (fun ev => match ev with
                       | Terminate q | Kill q => Nat.eqb q p
                       | _ => false
                       end) l).

(** The processes an attach-all run started to handle: each [try] block
    of [generate_map_for_node_processes] opens with [is_musl], which nothing
    else in the block calls. *)
Definition attach_attempts (l : list event) : list Process :=
  flat_map (fun ev => match ev with IsMusl p => [p] | _ => [] end) l.

(** The same for [clean_up_node_maps], whose [try] block opens with
    [is_process_running]. *)
Definition detach_attempts (l : list event) : list Process :=
  flat_map (fun ev => match ev with IsProcessRunning p => [p] | _ => [] end) l.

Definition attach_warning (process : Process) (e : exn) : event :=
  Log WARNING "Could not create debug symbols for pid {}. Reason: {}"
    [LInt (pid process); LExn e].

Definition detach_warning (process : Process) (e : exn) : event :=
  Log WARNING "Could not clean up debug symbols for pid {}. Reason: {}"
    [LInt (pid process); LExn e].

(** An answer of the debug listing that [_get_debugger_url] turns into
    [NodeDebuggerUrlNotFound]: a status other than 200, a [Content-Type]
    that does not mention [application/json], or a body that decodes to
    something other than a non-empty array whose first element is an object
    with the key [webSocketDebuggerUrl]. *)
Definition rejected (r : Response) : bool :=
  (node.bad_status_or_type r
   || match json_body r with
      | Some v => match node.first_debugger_url v with
                  | None => true
                  | Some _ => false
                  end
      | None => false
      end)%bool.

(** An answer with status 200, declared as JSON, whose body does not
    decode. *)
Definition undecodable (r : Response) : bool :=
  (negb (node.bad_status_or_type r)
   && match json_body r with
      | Some _ => false
      | None => true
      end)%bool.

(** The query of the debug listing, and the warning and pause of [retry]
    between two attempts. *)
Definition listing_query : event :=
  RequestsGet "http://127.0.0.1:9229/json/list" 3.

Definition retry_pause : list event :=
  [Log WARNING "{}, retrying in {} seconds..." [LExn NodeDebuggerUrlNotFound; LInt 1];
   Sleep 1].

Definition discovery_attempts (l : list event) : nat :=
  List.length (filter (fun ev => match ev with RequestsGet _ _ => true | _ => false end) l).

Definition pauses (l : list event) : list Z :=
  flat_map (fun ev => match ev with Sleep t => [t] | _ => [] end) l.

(** The deployment path of a signature under a build identity. *)
Definition dest_for (w : World) (rev : string) (key : bool * string) : string :=
  os_path_join (TEMPORARY_STORAGE_PATH w)
    ["node_module"; rev; if fst key then "musl" else "glibc"; snd key].

(** The two caches of the deployment path agree: every cached path was
    computed from the cached build identity; without one no path is
    cached. *)
Definition caches_agree (w : World) (s : state) : Prop :=
  match cache_dso_git_rev s with
  | [] => cache_dest_inside_container s = []
  | (_, rev) :: _ =>
      forall k v, In (k, v) (cache_dest_inside_container s) -> v = dest_for w rev k
  end.

(** A later state: the caches still agree, and a cached build identity is
    the same. *)
Definition deploy_step (w : World) (s s' : state) : Prop :=
  (caches_agree w s -> caches_agree w s') /\
  (forall entry rest, cache_dso_git_rev s = entry :: rest ->
                      cache_dso_git_rev s' = entry :: rest).

(** The part of [_copy_module_into_process_ns] after the path was
    computed. *)
Definition place_module (w : World) (proc_root libc version dest_inside_container : string)
  : M string :=
  dest <- Extern.resolve_proc_root_links w proc_root dest_inside_container ;;
  found <- Extern.os_path_exists w dest ;;
  if found then ret dest_inside_container else
  rev <- node._get_dso_git_rev w ;;
  src <- Extern.resource_path w (os_path_join "node" ["module"; libc; rev; version]) ;;
  Extern.copytree w src dest ;;;
  Extern.add_permission_dir w dest node.S_IROTH (Z.lor node.S_IXOTH node.S_IROTH) ;;;
  ret dest_inside_container.

(** A copy of the payload or a change of its permissions. *)
Definition is_copy (ev : event) : bool :=
  match ev with
  | Copytree _ _ | AddPermissionDir _ _ _ => true
  | _ => false
  end.

(** The expression of a [Runtime.evaluate] request. *)
Definition expression_of (request : json) : option string :=
  match getitem request "params" with
  | Ok params =>
      match getitem params "expression" with
      | Ok (JStr e) => Some e
      | _ => None
      end
  | Raise _ => None
  end.

(** A payload-control command: a request that evaluates a call into the
    module loaded with [process.mainModule.require]. *)
Definition is_control (ev : event) : bool :=
  match ev with
  | SockSend _ request =>
      match expression_of request with
      | Some e => String.prefix "process.mainModule.require(" e
      | None => false
      end
  | _ => false
  end.

(** Discovery found an endpoint and a connection to it was opened, with
    its timeout set: the first three calls of [create_debugger_socket]. *)
Definition session_opened (w : World) (s : state) (sock : WebSocket) (s2 : state) : Prop :=
  exists url s1,
    node._get_debugger_url w s = (Ok url, s1) /\
    (sock' <- Extern.create_connection w url ;;
     Extern.settimeout w sock' 10 ;;;
     ret sock') s1 = (Ok sock, s2).

(** The steps of [create_debugger_socket] on the open connection. *)
Definition validate_target (w : World) (nspid : Z) (ns_link_name : string) (sock : WebSocket)
  : M unit :=
  Extern.settimeout w sock 10 ;;;
  node._validate_ns_node w sock ns_link_name ;;;
  node._validate_pid w nspid sock.

(** The target answered both questions as expected, the link first. *)
Definition validated (w : World) (nspid : Z) (ns_link_name : string) (sock : WebSocket)
  (s2 s' : state) : Prop :=
  exists v_link s3 v_pid,
    node._execute_js_command w sock node.ns_link_command s2 = (Ok v_link, s3) /\
    eq_str v_link ns_link_name = true /\
    node._execute_js_command w sock "process.pid" s3 = (Ok v_pid, s') /\
    eq_int nspid v_pid = true.

(** The messages of a call go to the socket opened in the call. *)
Definition sends_to (sock : WebSocket) (ev : event) : bool :=
  match ev with
  | SockSend k _ => Nat.eqb k sock
  | _ => true
  end.

Definition is_send (ev : event) : bool :=
  match ev with
  | SockSend _ _ => true
  | _ => false
  end.

(** The JIT-inject pass: a run of [perf inject]. *)
Definition is_inject (ev : event) : bool :=
  match ev with
  | RunProcess (_ :: sub :: _) => String.eqb sub "inject"
  | _ => false
  end.

(** The handles a controller holds. *)
Definition handles (o : PerfProcess) : list Popen :=
  match _process o with
  | Some process => [process]
  | None => []
  end.

(** ** Concrete runs *)

Module Runs.
Import Examples.

(** A profiler in [smart] mode with JIT injection and node attach, as
    [__init__] builds it in the quiet world, and the state after [start]. *)
Definition smart_profiler : SystemProfiler.t :=
  SystemProfiler.mk 11 60 "/tmp/st" [0; 1] [a_GolangPerfMetadata 0; a_NodePerfMetadata 1]
    (Some 0) (Some 1) true.

Definition started_state : state :=
  snd ((sp <- SystemProfiler.__init__ quiet_world 11 60 "/tmp/st" false "smart" 8192 true true ;;
        SystemProfiler.start quiet_world sp) initial_state).

(** The events of one round of [snapshot] after that. *)
Definition round_events : list event :=
  Eval vm_compute in
    skipn (List.length (trace started_state))
      (trace (snd (SystemProfiler.snapshot quiet_world smart_profiler started_state))).

(** The quiet world with the stop signal already set. *)
Definition stopped_world : World :=
  world (fun _ => Ok tt) (fun _ => AlreadySet) (fun _ => Ok listing_response)
    (target "pid:[4026531836]" 7) (fun _ => true) (fun _ => Ok 0%Z) (fun _ => Ok 7%Z).

(** The quiet world in which no output file ever appears. *)
Definition silent_world : World :=
  world (fun _ => Raise TimeoutError) (fun _ => TimedOut) (fun _ => Ok listing_response)
    (target "pid:[4026531836]" 7) (fun _ => true) (fun _ => Ok 0%Z) (fun _ => Ok 7%Z).

(** The state after [__init__] alone: two controllers, none started. *)
Definition built_state : state :=
  snd (SystemProfiler.__init__ quiet_world 11 60 "/tmp/st" false "smart" 8192 true true
         initial_state).

(** The state after the frame-pointer controller alone was started. *)
Definition fp_started_state : state :=
  snd (PerfProcess.start quiet_world 0 built_state).


(** The quiet world in which the debug listing answers 500. *)
Definition failing_listing_world : World :=
  world (fun _ => Ok tt) (fun _ => TimedOut)
    (fun _ => Ok (mkResponse 500 None "Internal Server Error" None))
    (target "pid:[4026531836]" 7) (fun _ => true) (fun _ => Ok 0%Z) (fun _ => Ok 7%Z).

(** The quiet world in which the debug listing answers 200 and declares
    JSON, with a body that is not JSON. *)
Definition undecodable_world : World :=
  world (fun _ => Ok tt) (fun _ => TimedOut)
    (fun _ => Ok (mkResponse 200 (Some "application/json") "<html></html>" None))
    (target "pid:[4026531836]" 7) (fun _ => true) (fun _ => Ok 0%Z) (fun _ => Ok 7%Z).

(** The quiet world in which the deployment path does not exist yet. *)
Definition fresh_world : World :=
  world (fun _ => Ok tt) (fun _ => TimedOut) (fun _ => Ok listing_response)
    (target "pid:[4026531836]" 7) (fun _ => false) (fun _ => Ok 0%Z) (fun _ => Ok 7%Z).

(** The state after a first deploy there, for a glibc target of node 16. *)
Definition deployed_state : state :=
  snd (node._copy_module_into_process_ns fresh_world (mkProcess 100 5) false "16" initial_state).

(** A second target with the signature of the first, and the state after
    an attach-all run for some other process. *)
Definition second_target : Process := mkProcess 300 9.

Definition later_state : state :=
  snd (node.generate_map_for_node_processes quiet_world [mkProcess 200 6] deployed_state).

(** The quiet world with a target that lives in another pid namespace
    than the one expected below. *)
Definition moved_world : World :=
  world (fun _ => Ok tt) (fun _ => TimedOut) (fun _ => Ok listing_response)
    (target "pid:[4026532999]" 7) (fun _ => true) (fun _ => Ok 0%Z) (fun _ => Ok 7%Z).

End Runs.

(** ** Further vocabulary *)

(** The heap away from one reference stays as it is. *)
Definition heap_elsewhere (self : ref) (s s' : state) : Prop :=
  forall r, r <> self -> heap s' r = heap s r.

(** The events that launch a subprocess. *)
Definition is_launch (ev : event) : bool :=
  match ev with
  | StartProcess _ | Started _ => true
  | _ => false
  end.

(** The events that remove a file of the sampler. *)
Definition is_unlink (ev : event) : bool :=
  match ev with
  | Unlink _ => true
  | _ => false
  end.

(** The node attach protocol leaves the samplers alone: the controllers
    are as they were and the same subprocesses run. *)
Definition samplers_untouched (s s' : state) : Prop :=
  heap s' = heap s /\ running (trace s') = running (trace s).



(** An answer of the inspector whose [result.result.type] is
    [boolean]. *)
Definition boolean_result (m : json) : Prop :=
  exists d1 d2 d3,
    m = JDict d1 /\ dict_get "result" d1 = Some (JDict d2) /\
    dict_get "result" d2 = Some (JDict d3) /\ dict_get "type" d3 = Some (JStr "boolean").

(** An answer of the inspector with a [result.result.value]. *)
Definition valued_result (m v : json) : Prop :=
  exists d1 d2 d3,
    m = JDict d1 /\ dict_get "result" d1 = Some (JDict d2) /\
    dict_get "result" d2 = Some (JDict d3) /\ dict_get "value" d3 = Some v.

(** The removal of a file by [os.remove]. *)
Definition is_remove (ev : event) : bool :=
  match ev with
  | OsRemove _ => true
  | _ => false
  end.

(** An answer of the debug listing that names an endpoint. *)
Definition usable (r : Response) (url : json) : Prop :=
  node.bad_status_or_type r = false /\
  exists v, json_body r = Some v /\ node.first_debugger_url v = Some url.

(** The events of [k] failed attempts of discovery, each followed by the
    warning and the pause. *)
Fixpoint failed_rounds (k : nat) : list event :=
  match k with
  | O => []
  | S k' => listing_query :: retry_pause ++ failed_rounds k'
  end.

(** The only signal the attach protocol may send: [SIGUSR1], to a process
    of the list [ps]. *)
Definition signals_within (ps : list Process) (ev : event) : Prop :=
  match ev with
  | OsKill q sig => sig = SIGUSR1 /\ In q (map pid ps)
  | _ => True
  end.

Definition is_signal (ev : event) : bool :=
  match ev with
  | OsKill _ _ => true
  | _ => false
  end.

(** The [try] block of [generate_map_for_node_processes] up to the
    session: it deploys the payload, reads the namespace-local pid and the
    pid-namespace link of the process, wakes the inspector and enters the
    namespaces of the process.  What it returns is what the session is
    called with. *)
Definition attach_preamble (w : World) (process : Process) : M (string * Z * string) :=
  musl <- Extern.is_musl w process ;;
  node_major_version <- node._get_node_major_version w process ;;
  dest <- node._copy_module_into_process_ns w process musl node_major_version ;;
  nspid <- Extern.get_process_nspid w (pid process) ;;
  ns_link_name <- Extern.os_readlink w (node.proc_ns_pid process) ;;
  node._start_debugger w (pid process) ;;;
  call (RunInNs ["pid"; "mnt"; "net"] (pid process)) (ans_run_in_ns w) ;;;
  ret (dest, nspid, ns_link_name).

(** The same for the [try] block of [clean_up_node_maps], which has
    nothing to hand over when the process does not run any more. *)
Definition detach_preamble (w : World) (process : Process)
  : M (option (string * Z * string)) :=
  running <- Extern.is_process_running w process ;;
  if negb running then ret None else
  node_major_version <- node._get_node_major_version w process ;;
  nspid <- Extern.get_process_nspid w (pid process) ;;
  ns_link_name <- Extern.os_readlink w (node.proc_ns_pid process) ;;
  musl <- Extern.is_musl w process ;;
  dest <- node._get_dest_inside_container w musl node_major_version ;;
  call (RunInNs ["pid"; "mnt"; "net"] (pid process)) (ans_run_in_ns w) ;;;
  ret (Some (dest, nspid, ns_link_name)).

(** The two questions a caller asks about the process before a session:
    its namespace-local pid, then its pid-namespace link. *)
Definition identity_questions (process : Process) : list event :=
  [GetProcessNspid (pid process); Readlink (node.proc_ns_pid process)].

(** A warning of the log. *)
Definition is_warning (ev : event) : bool :=
  match ev with
  | Log WARNING _ _ => true
  | _ => false
  end.

(** A value of JSON that is an object. *)
Definition is_object (v : json) : bool :=
  match v with
  | JDict _ => true
  | _ => false
  end.

(** On the way to [result.result.value] a key is missing: every level
    reached is an object, and one of them lacks the key asked of it. *)
Definition missing_key (m : json) : Prop :=
  (exists d1, m = JDict d1 /\ dict_get "result" d1 = None) \/
  (exists d1 d2,
     m = JDict d1 /\ dict_get "result" d1 = Some (JDict d2) /\ dict_get "result" d2 = None) \/
  (exists d1 d2 d3,
     m = JDict d1 /\ dict_get "result" d1 = Some (JDict d2) /\
     dict_get "result" d2 = Some (JDict d3) /\ dict_get "value" d3 = None).

(** On the way to [result.result.value] a level is reached that is no
    object: the message itself, its [result], or the [result] of that. *)
Definition level_not_object (m : json) : Prop :=
  is_object m = false \/
  (exists d1 r1, m = JDict d1 /\ dict_get "result" d1 = Some r1 /\ is_object r1 = false) \/
  (exists d1 d2 r2,
     m = JDict d1 /\ dict_get "result" d1 = Some (JDict d2) /\
     dict_get "result" d2 = Some r2 /\ is_object r2 = false).

(** The processes of a list that still run, by the answers
    [is_process_running] gives when asked about each in turn after the
    history [h]. *)
Fixpoint still_running (w : World) (h : list event) (l : list Process) : list Process :=
  match l with
  | [] => []
  | p :: rest =>
      let h' := h ++ [IsProcessRunning p] in
      if ans_is_process_running w h'
      then p :: still_running w h' rest
      else still_running w h' rest
  end.

Module MoreRuns.
Import Examples.

(** The quiet world in which the wait for the output file is interrupted
    by the stop signal. *)
Definition interrupted_world : World :=
  world (fun _ => Raise StopEventSetException) (fun _ => TimedOut)
    (fun _ => Ok listing_response) (target "pid:[4026531836]" 7) (fun _ => true)
    (fun _ => Ok 0%Z) (fun _ => Ok 7%Z).

(** The quiet world with an inspector that answers 500 to the first query
    of the listing and well from then on. *)
Definition slow_inspector_world : World :=
  world (fun _ => Ok tt) (fun _ => TimedOut)
    (fun h => if Nat.ltb (List.length h) 2
              then Ok (mkResponse 500 None "Internal Server Error" None)
              else Ok listing_response)
    (target "pid:[4026531836]" 7) (fun _ => true) (fun _ => Ok 0%Z) (fun _ => Ok 7%Z).

(** A world that answers as [base] does, but for seven oracles. *)
Definition answering (base : World)
  (wait_for_file_answer : list event -> outcome string)
  (run_process_answer : list event -> outcome bytes)
  (read_text_answer : list event -> outcome string)
  (running_answer : list event -> bool)
  (pgrep_answer : list event -> outcome (list Process))
  (symbol_answer va_answer : list event -> outcome (option bytes)) : World :=
  mkWorld (perf_path base) (TEMPORARY_STORAGE_PATH base) (utf8_decode base)
    (ans_merge_global_perfs base) (ans_ProfilerBase_init base) (ans_start_process base)
    (ans_wait_event base) (ans_read base)
    wait_for_file_answer run_process_answer
    (ans_unlink base) (ans_stop_event_wait base)
    running_answer pgrep_answer
    (ans_psutil_Process base)
    symbol_answer va_answer
    (ans_is_process_basename_matching base) (ans_get_metadata base) (ans_get_exe_version base)
    (ans_resource_path base)
    read_text_answer
    (ans_os_kill base) (ans_requests_get base) (ans_create_connection base)
    (ans_settimeout base) (ans_send base) (ans_recv base) (ans_get_proc_root_path base)
    (ans_resolve_proc_root_links base) (ans_path_exists base) (ans_copytree base)
    (ans_add_permission_dir base) (ans_os_remove base) (ans_is_musl base)
    (ans_get_process_nspid base) (ans_readlink base) (ans_run_in_ns base).


(** The quiet world in which every run of [perf] fails. *)
Definition broken_perf_world : World :=
  answering quiet_world (ans_wait_for_file_by_prefix quiet_world)
    (fun _ => Raise (OtherException "CalledProcessError"))
    (ans_read_text quiet_world) (ans_is_process_running quiet_world)
    (ans_pgrep_exe quiet_world) (ans_read_elf_symbol quiet_world)
    (ans_read_elf_va quiet_world).

(** The quiet world with two version files that differ, read as the third
    and the fourth call of a fresh interpreter. *)
Definition mismatched_world : World :=
  answering quiet_world (ans_wait_for_file_by_prefix quiet_world)
    (ans_run_process quiet_world)
    (fun h => if Nat.eqb (List.length h) 3 then Ok "abcdef0" else Ok "1234567")
    (ans_is_process_running quiet_world)
    (ans_pgrep_exe quiet_world) (ans_read_elf_symbol quiet_world)
    (ans_read_elf_va quiet_world).

(** The quiet world in which no process runs any more. *)
Definition deserted_world : World :=
  answering quiet_world (ans_wait_for_file_by_prefix quiet_world)
    (ans_run_process quiet_world) (ans_read_text quiet_world) (fun _ => false)
    (ans_pgrep_exe quiet_world) (ans_read_elf_symbol quiet_world)
    (ans_read_elf_va quiet_world).

(** The quiet world with two node processes, and a state in which the
    profiler tracks the first of them. *)
Definition crowded_world : World :=
  answering quiet_world (ans_wait_for_file_by_prefix quiet_world)
    (ans_run_process quiet_world) (ans_read_text quiet_world)
    (ans_is_process_running quiet_world)
    (fun _ => Ok [mkProcess 200 6; mkProcess 300 9]) (ans_read_elf_symbol quiet_world)
    (ans_read_elf_va quiet_world).

Definition tracking_state : state :=
  set_node_processes [mkProcess 200 6] initial_state.

(** The quiet world in which every executable is a Go binary. *)
Definition go_world : World :=
  answering quiet_world (ans_wait_for_file_by_prefix quiet_world)
    (ans_run_process quiet_world) (ans_read_text quiet_world)
    (ans_is_process_running quiet_world) (ans_pgrep_exe quiet_world)
    (fun _ => Ok (Some (repeat Byte.x00 16))) (fun _ => Ok (Some [])).

(** The quiet world in which every executable is gone when the ELF reader
    opens it. *)
Definition vanished_exe_world : World :=
  answering quiet_world (ans_wait_for_file_by_prefix quiet_world)
    (ans_run_process quiet_world) (ans_read_text quiet_world)
    (ans_is_process_running quiet_world) (ans_pgrep_exe quiet_world)
    (fun _ => Raise FileNotFoundError) (ans_read_elf_va quiet_world).

(** The quiet world in which process 300 is gone, and two node processes
    are found, one of them new; a state in which the profiler tracks 200 and
    300. *)
Definition thinned_world : World :=
  answering quiet_world (ans_wait_for_file_by_prefix quiet_world)
    (ans_run_process quiet_world) (ans_read_text quiet_world)
    (fun h => match rev h with
              | IsProcessRunning p :: _ => negb (Z.eqb (pid p) 300)
              | _ => true
              end)
    (fun _ => Ok [mkProcess 200 6; mkProcess 400 12]) (ans_read_elf_symbol quiet_world)
    (ans_read_elf_va quiet_world).

Definition tracking_two_state : state :=
  set_node_processes [mkProcess 200 6; mkProcess 300 9] initial_state.

(** A world that answers as [base] does, but for [os.readlink] and the
    messages of the inspector. *)
Definition relinking (base : World)
  (readlink_answer : list event -> outcome string)
  (recv_answer : list event -> outcome received) : World :=
  mkWorld (perf_path base) (TEMPORARY_STORAGE_PATH base) (utf8_decode base)
    (ans_merge_global_perfs base) (ans_ProfilerBase_init base) (ans_start_process base)
    (ans_wait_event base) (ans_read base) (ans_wait_for_file_by_prefix base)
    (ans_run_process base) (ans_unlink base) (ans_stop_event_wait base)
    (ans_is_process_running base) (ans_pgrep_exe base) (ans_psutil_Process base)
    (ans_read_elf_symbol base) (ans_read_elf_va base)
    (ans_is_process_basename_matching base) (ans_get_metadata base) (ans_get_exe_version base)
    (ans_resource_path base) (ans_read_text base) (ans_os_kill base) (ans_requests_get base)
    (ans_create_connection base) (ans_settimeout base) (ans_send base)
    recv_answer
    (ans_get_proc_root_path base) (ans_resolve_proc_root_links base) (ans_path_exists base)
    (ans_copytree base) (ans_add_permission_dir base) (ans_os_remove base) (ans_is_musl base)
    (ans_get_process_nspid base)
    readlink_answer
    (ans_run_in_ns base).

(** The pid-namespace link of the target: one link until it was read
    once, another from the second reading on. *)
Definition link_after (h : list event) : string :=
  if Nat.leb (List.length (filter (fun ev => match ev with
                                             | Readlink _ => true
                                             | _ => false
                                             end) h)) 1
  then "pid:[4026531836]"
  else "pid:[4026532999]".

(** The quiet world with a target whose pid-namespace link changes after
    the first attach: [/proc] shows the link of the moment, and the target
    reports the link of the moment. *)
Definition relinked_world : World :=
  relinking quiet_world (fun h => Ok (link_after h)) (fun h => target (link_after h) 7 h).

End MoreRuns.
(** * Properties *)

(** ** Relations between the state before and after a computation *)

#[export] Instance emitting_order (P : event -> Prop) : StepOrder (emitting P).
Proof.
  split.
  - intro s. exists []. split; [ now rewrite app_nil_r | constructor ].
  - intros a b c [l1 [E1 F1]] [l2 [E2 F2]]. exists (l1 ++ l2). split.
    + now rewrite E2, E1, app_assoc.
    + apply Forall_app. now split.
Qed.

#[export] Instance keeping_order {X : Type} (proj : state -> X) : StepOrder (keeping proj).
Proof.
  split; unfold keeping.
  - reflexivity.
  - intros a b c H1 H2. now rewrite H2.
Qed.

Section Respects.
Context (R : state -> state -> Prop) {HR : StepOrder R}.

Lemma respects_ret {A : Type} (a : A) : respects R (ret a).
Proof. intro s. apply step_refl. Qed.

Lemma respects_raise {A : Type} (e : exn) : respects R (@raise A e).
Proof. intro s. apply step_refl. Qed.

Lemma respects_lift {A : Type} (o : outcome A) : respects R (lift o).
Proof. intro s. apply step_refl. Qed.

Lemma respects_get_state : respects R get_state.
Proof. intro s. apply step_refl. Qed.

Lemma respects_deref (r : ref) : respects R (deref r).
Proof. intro s. apply step_refl. Qed.

Lemma respects_py_assert (c : bool) (msg : string) (args : list json) :
  respects R (py_assert c msg args).
Proof. intro s. unfold py_assert. destruct c; apply step_refl. Qed.

Lemma respects_bind {A B : Type} (m : M A) (k : A -> M B) :
  respects R m -> (forall a, respects R (k a)) -> respects R (bind m k).
Proof.
  intros Hm Hk s. unfold bind. specialize (Hm s).
  destruct (m s) as [[a | e] s1]; simpl in *.
  - eapply step_trans; [ exact Hm | apply Hk ].
  - exact Hm.
Qed.

Lemma respects_try_except {A : Type} (m : M A) (c : exn -> bool) (h : exn -> M A) :
  respects R m -> (forall e, respects R (h e)) -> respects R (try_except m c h).
Proof.
  intros Hm Hh s. unfold try_except. specialize (Hm s).
  destruct (m s) as [[a | e] s1]; simpl in *; [ exact Hm | ].
  destruct (c e); [ | exact Hm ].
  eapply step_trans; [ exact Hm | apply Hh ].
Qed.

Lemma respects_try_except_else {A B : Type}
  (m : M A) (c : exn -> bool) (h : exn -> M B) (k : A -> M B) :
  respects R m -> (forall e, respects R (h e)) -> (forall a, respects R (k a)) ->
  respects R (try_except_else m c h k).
Proof.
  intros Hm Hh Hk s. unfold try_except_else. specialize (Hm s).
  destruct (m s) as [[a | e] s1]; simpl in *.
  - eapply step_trans; [ exact Hm | apply Hk ].
  - destruct (c e); [ | exact Hm ].
    eapply step_trans; [ exact Hm | apply Hh ].
Qed.

Lemma respects_try_finally {A : Type} (m : M A) (f : M unit) :
  respects R m -> respects R f -> respects R (try_finally m f).
Proof.
  intros Hm Hf s. unfold try_finally. specialize (Hm s).
  destruct (m s) as [r s1]; simpl in *. specialize (Hf s1).
  destruct (f s1) as [[u | e] s2]; simpl in *; eapply step_trans; eassumption.
Qed.

Lemma respects_emit (ev : event) :
  (forall s, R s (set_trace (trace s ++ [ev]) s)) -> respects R (emit ev).
Proof. intros H s. apply H. Qed.

Lemma respects_ask {A : Type} (ev : event) (oracle : list event -> A) :
  (forall s, R s (set_trace (trace s ++ [ev]) s)) -> respects R (ask ev oracle).
Proof. intros H s. apply H. Qed.

Lemma respects_call {A : Type} (ev : event) (oracle : list event -> outcome A) :
  (forall s, R s (set_trace (trace s ++ [ev]) s)) -> respects R (call ev oracle).
Proof. intros H s. apply H. Qed.

Lemma respects_modify (f : state -> state) :
  (forall s, R s (f s)) -> respects R (modify f).
Proof. intros H s. apply H. Qed.

Lemma respects_lru_cache {K V : Type} (eqb : K -> K -> bool) (maxsize : nat)
  (get : state -> list (K * V)) (set : list (K * V) -> state -> state)
  (f : K -> M V) (k : K) :
  (forall c s, R s (set c s)) -> (forall k', respects R (f k')) ->
  respects R (lru_cache eqb maxsize get set f k).
Proof.
  intros Hset Hf s. unfold lru_cache.
  destruct (lru_find eqb k (get s)); simpl; [ apply Hset | ].
  specialize (Hf k s). destruct (f k s) as [[v | e] s1]; simpl in *; [ | exact Hf ].
  eapply step_trans; [ exact Hf | apply Hset ].
Qed.

Lemma respects_for_each {A : Type} (f : A -> M unit) (l : list A) :
  (forall a, respects R (f a)) -> respects R (for_each f l).
Proof.
  intro Hf. induction l as [| x rest IH]; simpl.
  - apply respects_ret.
  - apply respects_bind; [ apply Hf | intros _; exact IH ].
Qed.

Lemma respects_filter_by {A : Type} (c : A -> M bool) (l : list A) :
  (forall a, respects R (c a)) -> respects R (filter_by c l).
Proof.
  intro Hc. induction l as [| x rest IH]; simpl.
  - apply respects_ret.
  - apply respects_bind; [ apply Hc | intro keep ].
    apply respects_bind; [ exact IH | intro kept; apply respects_ret ].
Qed.

Lemma respects_retry {A : Type} (none : A) (c : exn -> bool) (tries : nat) (delay : Z) (f : M A) :
  (forall fmt args s, R s (set_trace (trace s ++ [Log WARNING fmt args]) s)) ->
  (forall s, R s (set_trace (trace s ++ [Sleep delay]) s)) ->
  respects R f -> respects R (Extern.retry none c tries delay f).
Proof.
  intros Hlog Hsleep Hf. induction tries as [| n IH]; simpl.
  - apply respects_ret.
  - apply respects_try_except; [ exact Hf | intro e ].
    destruct n; [ apply respects_raise | ].
    apply respects_bind; [ apply respects_emit, Hlog | intros _ ].
    apply respects_bind; [ apply respects_emit, Hsleep | intros _; exact IH ].
Qed.

End Respects.

(** The step of a trace relation: the event is one the predicate accepts. *)
Lemma emitting_event (P : event -> Prop) (ev : event) :
  P ev -> forall s, emitting P s (set_trace (trace s ++ [ev]) s).
Proof.
  intros H s. exists [ev]. split; [ reflexivity | constructor; [ exact H | constructor ] ].
Qed.

Lemma emitting_same_trace (P : event -> Prop) (s s' : state) :
  trace s' = trace s -> emitting P s s'.
Proof.
  intro H. exists []. split; [ now rewrite app_nil_r | constructor ].
Qed.

Ltac head_of t :=
  lazymatch t with
  | ?f _ => head_of f
  | _ => t
  end.

(** Walks a computation along its combinators; [side] closes the goals the
    events and the state updates leave. *)
Ltac respects_step side :=
  lazymatch goal with
  | |- respects ?R (ret _) => apply (respects_ret R)
  | |- respects ?R (raise _) => apply (respects_raise R)
  | |- respects ?R (lift _) => apply (respects_lift R)
  | |- respects ?R get_state => apply (respects_get_state R)
  | |- respects ?R (deref _) => apply (respects_deref R)
  | |- respects ?R (py_assert _ _ _) => apply (respects_py_assert R)
  | |- respects ?R (bind _ _) => apply (respects_bind R); [ | intro ]
  | |- respects ?R (try_except _ _ _) => apply (respects_try_except R); [ | intro ]
  | |- respects ?R (try_except_else _ _ _ _) =>
      apply (respects_try_except_else R); [ | intro | intro ]
  | |- respects ?R (try_finally _ _) => apply (respects_try_finally R)
  | |- respects ?R (emit _) => apply (respects_emit R); side
  | |- respects ?R (ask _ _) => apply (respects_ask R); side
  | |- respects ?R (call _ _) => apply (respects_call R); side
  | |- respects ?R (modify _) => apply (respects_modify R); side
  | |- respects ?R (lru_cache _ _ _ _ _ _) => apply (respects_lru_cache R); [ side | intro ]
  | |- respects ?R (for_each _ _) => apply (respects_for_each R); intro
  | |- respects ?R (filter_by _ _) => apply (respects_filter_by R); intro
  | |- respects ?R (Extern.retry _ _ _ _ _) => apply (respects_retry R); [ side | side | ]
  | |- respects _ (match ?x with _ => _ end) => destruct x
  | |- respects _ (let _ := _ in _) => cbv zeta
  | |- respects _ ?m => let h := head_of m in unfold h
  end.

Ltac respects_walk side := repeat (first [ assumption | respects_step side ]).

(** Side goals of a relation on the trace alone: each event is checked
    against the predicate by [event_ok]. *)
Ltac emitting_side event_ok :=
  intros;
  first [ apply emitting_event; event_ok
        | apply emitting_same_trace; reflexivity ].

Ltac keeping_side := intros; reflexivity.

(** ** The orchestrator rotates before it collects *)


Section NodeRespects.
Context (R : state -> state -> Prop) {HR : StepOrder R}.
Hypothesis R_event : forall ev s, node_event ev = true -> R s (set_trace (trace s ++ [ev]) s).
Hypothesis R_rev : forall c s, R s (set_cache_dso_git_rev c s).
Hypothesis R_dest : forall c s, R s (set_cache_dest_inside_container c s).
Hypothesis R_procs : forall l s, R s (set_node_processes l s).

Ltac node_side :=
  intros; first [ apply R_event; reflexivity | apply R_rev | apply R_dest | apply R_procs ].

Lemma generate_map_respects (w : World) (ps : list Process) :
  respects R (node.generate_map_for_node_processes w ps).
Proof. induction ps as [| p rest IH]; simpl; respects_walk node_side. Qed.

Lemma clean_up_respects (w : World) (ps : list Process) :
  respects R (node.clean_up_node_maps w ps).
Proof. induction ps as [| p rest IH]; simpl; respects_walk node_side. Qed.

Lemma snapshot_node_attach_respects (w : World) (self : SystemProfiler.t) :
  respects R (SystemProfiler.snapshot_node_attach w self).
Proof.
  unfold SystemProfiler.snapshot_node_attach.
  destruct (SystemProfiler.perf_node_attach self); [ | apply (respects_ret R) ].
  repeat first [ apply generate_map_respects | respects_step node_side ].
Qed.

End NodeRespects.

Lemma prefix_before_first (P : event -> bool) (pre rest before after : list event) (e : event) :
  Forall (fun x => P x = false) pre -> P e = true ->
  pre ++ rest = before ++ e :: after ->
  exists mid, before = pre ++ mid /\ rest = mid ++ e :: after.
Proof.
  revert before. induction pre as [| x pre IH]; intros before Hpre He Heq.
  - exists before. split; [ reflexivity | exact Heq ].
  - inversion Hpre as [| ? ? Hx Hrest]; subst.
    destruct before as [| b before]; simpl in Heq.
    + injection Heq as -> _. congruence.
    + injection Heq as -> Heq. destruct (IH before Hrest He Heq) as [mid [-> ->]].
      exists mid. split; reflexivity.
Qed.

Lemma switch_output_eq (c : ref) (s : state) :
  PerfProcess.switch_output c s =
  match _process (heap s c) with
  | Some process => (Ok tt, set_trace (trace s ++ [SendSignal (popen_id process) SIGUSR2]) s)
  | None => (Raise (AssertionError "profiling not started!" []), s)
  end.
Proof.
  unfold PerfProcess.switch_output, bind, deref.
  destruct (_process (heap s c)); reflexivity.
Qed.

Lemma switch_all (perfs : list ref) (s : state) :
  heap (snd (for_each PerfProcess.switch_output perfs s)) = heap s /\
  exists l,
    trace (snd (for_each PerfProcess.switch_output perfs s)) = trace s ++ l /\
    Forall (fun x => is_collect x = false) l /\
    (forall u, fst (for_each PerfProcess.switch_output perfs s) = Ok u ->
     forall c, In c perfs ->
     exists process,
       _process (heap s c) = Some process /\ In (SendSignal (popen_id process) SIGUSR2) l).
Proof.
  revert s. induction perfs as [| c rest IH]; intro s; simpl.
  - split; [ reflexivity | ]. exists []. rewrite app_nil_r.
    split; [ reflexivity | ]. split; [ constructor | intros _ _ c [] ].
  - unfold bind. rewrite switch_output_eq.
    destruct (_process (heap s c)) as [process |] eqn:Hp; simpl.
    + specialize (IH (set_trace (trace s ++ [SendSignal (popen_id process) SIGUSR2]) s)).
      destruct IH as [Hheap [l [Ht [Hl Hall]]]].
      split; [ exact Hheap | ].
      exists (SendSignal (popen_id process) SIGUSR2 :: l). simpl in *.
      split; [ rewrite Ht, <- app_assoc; reflexivity | ].
      split; [ constructor; [ reflexivity | exact Hl ] | ].
      intros u Hu c' [<- | Hin].
      * exists process. split; [ exact Hp | now left ].
      * destruct (Hall u Hu c' Hin) as [q [Hq Hinq]]. exists q. split; [ exact Hq | now right ].
    + split; [ reflexivity | ]. exists []. rewrite app_nil_r.
      split; [ reflexivity | ]. split; [ constructor | discriminate ].
Qed.

Section PerfRespects.
Context (R : state -> state -> Prop) {HR : StepOrder R}.
Hypothesis R_event : forall ev s, perf_event ev = true -> R s (set_trace (trace s ++ [ev]) s).
Hypothesis R_golang : forall c s, R s (set_cache_golang_version c s).

Ltac perf_side := intros; first [ apply R_event; reflexivity | apply R_golang ].

Lemma wait_and_script_respects (w : World) (r : ref) :
  respects R (PerfProcess.wait_and_script w r).
Proof. respects_walk perf_side. Qed.

Lemma script_of_respects (w : World) (perf : option ref) :
  respects R (SystemProfiler.script_of w perf).
Proof.
  unfold SystemProfiler.script_of. destruct perf.
  - apply (respects_bind R); [ apply wait_and_script_respects | intro; apply (respects_ret R) ].
  - apply (respects_ret R).
Qed.

Lemma first_relevant_respects (w : World) (cs : list PerfMetadata) (process : Process) :
  respects R (SystemProfiler.first_relevant w cs process).
Proof. induction cs as [| c rest IH]; simpl; respects_walk perf_side. Qed.

Lemma _get_metadata_respects (w : World) (self : SystemProfiler.t) (pid : Z) :
  respects R (SystemProfiler._get_metadata w self pid).
Proof.
  unfold SystemProfiler._get_metadata, SystemProfiler._get_metadata_try.
  repeat first [ apply first_relevant_respects | respects_step perf_side ].
Qed.

Lemma with_metadata_respects (w : World) (self : SystemProfiler.t)
  (items : list (Z * StackToSampleCount)) :
  respects R (SystemProfiler.with_metadata w self items).
Proof.
  induction items as [| [k v] rest IH]; simpl.
  - apply (respects_ret R).
  - repeat first [ assumption | apply _get_metadata_respects | respects_step perf_side ].
Qed.

End PerfRespects.

Lemma emitting_trace (P : event -> Prop) {A : Type} (m : M A) (s : state) :
  respects (emitting P) m -> exists l, trace (snd (m s)) = trace s ++ l /\ Forall P l.
Proof. intro H. exact (H s). Qed.

Lemma bind_run {A B : Type} (m : M A) (k : A -> M B) (s : state) :
  bind m k s =
  match m s with
  | (Ok a, s') => k a s'
  | (Raise e, s') => (Raise e, s')
  end.
Proof. reflexivity. Qed.

Lemma not_collect_node (ev : event) (s : state) :
  node_event ev = true ->
  emitting (fun x => is_collect x = false) s (set_trace (trace s ++ [ev]) s).
Proof.
  intro H. apply emitting_event. destruct ev; try reflexivity; discriminate.
Qed.

Lemma snapshot_tail_extends (w : World) (self : SystemProfiler.t) :
  respects (emitting any_event)
    (fp <- SystemProfiler.script_of w (SystemProfiler._perf_fp self) ;;
     dwarf <- SystemProfiler.script_of w (SystemProfiler._perf_dwarf self) ;;
     merged <- lift (ans_merge_global_perfs w fp dwarf) ;;
     SystemProfiler.with_metadata w self merged).
Proof.
  assert (He : forall ev s, perf_event ev = true ->
                 emitting any_event s (set_trace (trace s ++ [ev]) s)).
  { intros. apply emitting_event. exact I. }
  assert (Hg : forall c s, emitting any_event s (set_cache_golang_version c s)).
  { intros. apply emitting_same_trace. reflexivity. }
  repeat first
    [ apply (script_of_respects (emitting any_event) He Hg)
    | apply (with_metadata_respects (emitting any_event) He Hg)
    | respects_step ltac:(emitting_side ltac:(exact I)) ].
Qed.

Lemma snapshot_phases (w : World) (self : SystemProfiler.t) (s : state) :
  exists pre rest,
    trace (snd (SystemProfiler.snapshot w self s)) = trace s ++ pre ++ rest /\
    Forall (fun x => is_collect x = false) pre /\
    (rest <> [] ->
     forall c, In c (SystemProfiler._perfs self) ->
     exists process,
       _process (heap s c) = Some process /\ In (SendSignal (popen_id process) SIGUSR2) pre).
Proof.
  unfold SystemProfiler.snapshot. rewrite bind_run.
  pose proof (snapshot_node_attach_respects (emitting (fun x => is_collect x = false))
                (fun ev s H => not_collect_node ev s H)
                ltac:(intros; apply emitting_same_trace; reflexivity)
                ltac:(intros; apply emitting_same_trace; reflexivity)
                ltac:(intros; apply emitting_same_trace; reflexivity) w self s) as Ha.
  pose proof (snapshot_node_attach_respects (keeping heap)
                ltac:(intros; reflexivity) ltac:(intros; reflexivity)
                ltac:(intros; reflexivity) ltac:(intros; reflexivity)
                w self s) as Hh.
  destruct (SystemProfiler.snapshot_node_attach w self s) as [[u | e] s1]; simpl in Ha, Hh.
  2:{ destruct Ha as [la [Ea Fa]]. exists la, []. simpl. rewrite app_nil_r.
      split; [ exact Ea | ]. split; [ exact Fa | congruence ]. }
  destruct Ha as [la [Ea Fa]]. unfold keeping in Hh.
  rewrite bind_run. unfold Extern.stop_event_wait at 1. rewrite bind_run.
  unfold ask at 1, ret at 1.
  set (wait := StopEventWait (SystemProfiler._duration self)).
  set (s2 := set_trace (trace s1 ++ [wait]) s1).
  assert (Hpre2 : trace s2 = trace s ++ (la ++ [wait])).
  { unfold s2. simpl. rewrite Ea, app_assoc. reflexivity. }
  assert (Fpre2 : Forall (fun x => is_collect x = false) (la ++ [wait])).
  { apply Forall_app. split; [ exact Fa | constructor; [ reflexivity | constructor ] ]. }
  cbv zeta. fold s2.
  assert (Hstop : forall rest : M (list (Z * ProfileData)),
            exists pre post,
              trace (snd ((raise (A:=unit) StopEventSetException ;;; rest) s2)) =
              trace s ++ pre ++ post /\
              Forall (fun x => is_collect x = false) pre /\ post = []).
  { intro rest. exists (la ++ [wait]), []. rewrite app_nil_r. repeat split; assumption. }
  destruct (ans_stop_event_wait w (trace s1 ++ [wait])).
  1,2: match goal with
       | |- context [ (raise StopEventSetException ;;; ?rest) _ ] =>
           destruct (Hstop rest) as [pre [post [E [F ->]]]]
       end;
       exists pre, []; split; [ exact E | split; [ exact F | congruence ] ].
  rewrite bind_run. unfold ret at 1. rewrite bind_run.
  destruct (switch_all (SystemProfiler._perfs self) s2) as [Hh3 [ll [El [Fl Hall]]]].
  destruct (for_each PerfProcess.switch_output (SystemProfiler._perfs self) s2)
    as [[u3 | e3] s3]; simpl in Hh3, El, Hall.
  2:{ exists (la ++ [wait] ++ ll), [].
      rewrite app_nil_r. split; [ simpl; rewrite El, Ea, <- !app_assoc; reflexivity | ].
      split; [ | congruence ].
      apply Forall_app; split; [ exact Fa | ].
      apply Forall_app; split; [ constructor; [ reflexivity | constructor ] | exact Fl ]. }
  destruct (snapshot_tail_extends w self s3) as [lc [Ec _]].
  exists (la ++ [wait] ++ ll), lc.
  split; [ rewrite Ec, El, Ea, <- !app_assoc; reflexivity | ].
  split.
  - apply Forall_app; split; [ exact Fa | ].
    apply Forall_app; split; [ constructor; [ reflexivity | constructor ] | exact Fl ].
  - intros _ c Hc. destruct (Hall u3 eq_refl c Hc) as [process [Hp Hin]].
    exists process. split.
    + rewrite <- Hh. exact Hp.
    + apply in_or_app. right. apply in_or_app. right. exact Hin.
Qed.

(** C1.  In a round of [snapshot], whatever the environment does, an event
    that starts the collect step of a controller (the wait for its rotated
    file) comes only after the rotate signal was sent, in this round, to the
    subprocess of every controller of [_perfs]. *)
Theorem rotation_precedes_collection (w : World) (self : SystemProfiler.t) (s : state)
  (before after : list event) (prefix : string) (timeout : Z) :
  trace (snd (SystemProfiler.snapshot w self s)) =
    trace s ++ before ++ WaitForFileByPrefix prefix timeout :: after ->
  forall c, In c (SystemProfiler._perfs self) ->
  exists process,
    _process (heap s c) = Some process /\
    In (SendSignal (popen_id process) SIGUSR2) before.
Proof.
  intros Htrace c Hc.
  destruct (snapshot_phases w self s) as [pre [rest [E [Fpre Hrot]]]].
  rewrite E in Htrace. apply app_inv_head in Htrace.
  destruct (prefix_before_first is_collect pre rest before after
              (WaitForFileByPrefix prefix timeout) Fpre eq_refl Htrace)
    as [mid [-> Hrest]].
  assert (Hne : rest <> []) by (rewrite Hrest; destruct mid; discriminate).
  destruct (Hrot Hne c Hc) as [process [Hp Hin]].
  exists process. split; [ exact Hp | apply in_or_app; now left ].
Qed.

Lemma rotation_precedes_collection_witness :
  exists process,
    _process (heap Runs.started_state 1) = Some process /\
    In (SendSignal (popen_id process) SIGUSR2) (firstn 4 Runs.round_events).
Proof.
  apply (rotation_precedes_collection Examples.quiet_world Runs.smart_profiler
           Runs.started_state (firstn 4 Runs.round_events) (skipn 5 Runs.round_events)
           "/tmp/st/perf.fp." 5).
  - vm_compute. reflexivity.
  - simpl. auto.
Defined.

(** ** The round wait observes the stop signal *)

Lemma node_events_only (ev : event) (s : state) :
  node_event ev = true ->
  emitting (fun x => node_event x = true) s (set_trace (trace s ++ [ev]) s).
Proof. intro H. apply emitting_event. exact H. Qed.

Lemma snapshot_node_attach_events (w : World) (self : SystemProfiler.t) :
  respects (emitting (fun x => node_event x = true))
    (SystemProfiler.snapshot_node_attach w self).
Proof.
  apply (snapshot_node_attach_respects (emitting (fun x => node_event x = true))).
  - exact node_events_only.
  - intros. apply emitting_same_trace. reflexivity.
  - intros. apply emitting_same_trace. reflexivity.
  - intros. apply emitting_same_trace. reflexivity.
Qed.

(** C8.  When [snapshot] reaches the round wait (its node-attach block
    returned, in state [s1]) and the wait reports the stop signal, already
    set or set during the wait, [snapshot] raises [StopEventSetException];
    the wait is the last event of the call, and the events before it are
    events of the attach protocol: no rotate signal, no collect step, no
    result. *)
Theorem stop_signal_ends_round (w : World) (self : SystemProfiler.t) (s s1 : state) :
  SystemProfiler.snapshot_node_attach w self s = (Ok tt, s1) ->
  ans_stop_event_wait w (trace s1 ++ [StopEventWait (SystemProfiler._duration self)])
    <> TimedOut ->
  SystemProfiler.snapshot w self s =
    (Raise StopEventSetException,
     set_trace (trace s1 ++ [StopEventWait (SystemProfiler._duration self)]) s1) /\
  exists l,
    trace s1 = trace s ++ l /\
    Forall (fun ev => node_event ev = true /\ is_rotate ev = false /\ is_collect ev = false) l.
Proof.
  intros Hattach Hstop. split.
  - unfold SystemProfiler.snapshot. rewrite bind_run, Hattach.
    rewrite bind_run. unfold Extern.stop_event_wait at 1. rewrite bind_run.
    unfold ask at 1, ret at 1. cbv zeta.
    destruct (ans_stop_event_wait w
                (trace s1 ++ [StopEventWait (SystemProfiler._duration self)]));
      try reflexivity.
    congruence.
  - destruct (snapshot_node_attach_events w self s) as [l [E F]].
    rewrite Hattach in E. simpl in E. exists l. split; [ exact E | ].
    eapply Forall_impl; [ | exact F ].
    intros ev Hev. split; [ exact Hev | ].
    destruct ev; try discriminate; split; reflexivity.
Qed.

Lemma stop_signal_ends_round_witness :
  SystemProfiler.snapshot Runs.stopped_world Runs.smart_profiler Runs.started_state =
    (Raise StopEventSetException,
     set_trace (trace Runs.started_state ++ [PgrepExe ".*node[^/]*$"; StopEventWait 60])
       Runs.started_state).
Proof.
  refine (proj1 (stop_signal_ends_round Runs.stopped_world Runs.smart_profiler
                   Runs.started_state
                   (set_trace (trace Runs.started_state ++ [PgrepExe ".*node[^/]*$"])
                      Runs.started_state) _ _)).
  - reflexivity.
  - discriminate.
Defined.

(** ** Starting and stopping a controller *)

Lemma since_app (s s' : state) (l : list event) :
  trace s' = trace s ++ l -> since s s' = l.
Proof.
  intro H. unfold since. rewrite H. rewrite skipn_app, skipn_all, Nat.sub_diag. reflexivity.
Qed.

Lemma stop_run (self : ref) (s : state) :
  PerfProcess.stop self s =
  match _process (heap s self) with
  | Some process =>
      (Ok tt,
       set_trace
         (trace s ++ [Terminate (popen_id process); Wait (popen_id process);
                      Log INFO "Stopped perf ({} mode)" [LStr (_type (heap s self))]])
         (set_heap (fun r => if Nat.eqb r self then set_process (heap s self) None else heap s r)
            (next_ref s) s))
  | None => (Ok tt, s)
  end.
Proof.
  unfold PerfProcess.stop. rewrite bind_run. unfold deref at 1.
  destruct (_process (heap s self)) as [process |]; [ | reflexivity ].
  unfold bind, emit, assign_process, modify, set_trace, set_heap. simpl.
  rewrite <- !app_assoc. reflexivity.
Qed.

(** What a successful [start] leaves: the new handle in the controller and
    five events, none of them a termination. *)
Lemma start_ok (w : World) (self : ref) (s s1 : state) :
  PerfProcess.start w self s = (Ok tt, s1) ->
  exists process cmd,
    _process (heap s1 self) = Some process /\
    popen_id process = S (List.length (trace s)) /\
    _type (heap s1 self) = _type (heap s self) /\
    trace s1 =
      trace s ++ [Log INFO "Starting perf ({} mode)" [LStr (_type (heap s self))];
                  StartProcess cmd; Started (popen_id process);
                  WaitEvent 5 (_output_path (heap s self));
                  Log INFO "Started perf ({} mode)" [LStr (_type (heap s self))]].
Proof.
  unfold PerfProcess.start. rewrite bind_run. unfold deref at 1.
  rewrite bind_run. unfold emit at 1.
  rewrite bind_run. unfold PerfProcess._get_perf_cmd. rewrite bind_run. unfold deref at 1.
  rewrite bind_run. unfold lift at 1. cbn [heap set_trace].
  destruct (PerfProcess.mmap_size (_type (heap s self)) PerfProcess._mmap_sizes)
    as [pages | e]; [ | discriminate ].
  unfold ret at 1. rewrite bind_run.
  unfold Extern.start_process. rewrite bind_run. unfold get_state at 1.
  rewrite bind_run. unfold call at 1. cbn [trace set_trace].
  match goal with
  | |- context [ ans_start_process w ?h ] => destruct (ans_start_process w h) as [pipes | e]
  end; [ | discriminate ].
  rewrite bind_run. unfold emit at 1. unfold ret at 1. cbn [trace set_trace].
  unfold try_except_else, Extern.wait_event, call. cbn [trace set_trace heap popen_id].
  match goal with
  | |- context [ ans_wait_event w ?h ] => destruct (ans_wait_event w h) as [u | e]
  end.
  - rewrite bind_run. unfold assign_process, modify, emit.
    cbn [trace set_trace heap set_heap next_ref].
    intro H. injection H as <-. eexists. eexists. cbn [heap set_heap set_trace trace].
    rewrite Nat.eqb_refl. cbn [_process set_process _type popen_id].
    split; [ reflexivity | ]. split; [ rewrite length_app; simpl; lia | ].
    split; [ reflexivity | ].
    rewrite <- !app_assoc. cbn [app]. rewrite length_app. cbn [List.length].
    rewrite Nat.add_1_r. reflexivity.
  - destruct (is_TimeoutError e); [ | discriminate ].
    rewrite bind_run. unfold emit at 1.
    destruct pipes as [[|] [|]]; cbn [fst snd stdout stderr];
      repeat (rewrite bind_run; cbn [Extern.read ask emit raise]); discriminate.
Qed.

Lemma running_app (tr l : list event) :
  running (tr ++ l) = fold_left track l (running tr).
Proof. unfold running. apply fold_left_app. Qed.

(** C6.  [stop] on a controller that holds no handle changes nothing; [stop]
    never raises and leaves the handle absent, so a second [stop] changes
    nothing either; a controller holds at most one handle; and after a
    successful [start], two calls of [stop] send the subprocess one
    termination signal, wait for its exit once, and leave it not running. *)
Theorem stop_is_safe_and_idempotent (w : World) (self : ref) (s : state) :
  (_process (heap s self) = None -> PerfProcess.stop self s = (Ok tt, s)) /\
  (fst (PerfProcess.stop self s) = Ok tt /\
   _process (heap (snd (PerfProcess.stop self s)) self) = None) /\
  PerfProcess.stop self (snd (PerfProcess.stop self s)) =
    (Ok tt, snd (PerfProcess.stop self s)) /\
  List.length (handles (heap s self)) <= 1 /\
  (forall s1,
     PerfProcess.start w self s = (Ok tt, s1) ->
     exists process s3,
       _process (heap s1 self) = Some process /\
       (PerfProcess.stop self ;;; PerfProcess.stop self) s1 = (Ok tt, s3) /\
       terminations (popen_id process) (since s s3) = 1 /\
       _process (heap s3 self) = None /\
       ~ In (popen_id process) (running (trace s3))).
Proof.
  assert (Hnone : forall st, _process (heap st self) = None ->
                             PerfProcess.stop self st = (Ok tt, st)).
  { intros st H. rewrite stop_run, H. reflexivity. }
  assert (Hafter : forall st,
            fst (PerfProcess.stop self st) = Ok tt /\
            _process (heap (snd (PerfProcess.stop self st)) self) = None).
  { intro st. rewrite stop_run.
    destruct (_process (heap st self)) as [process |] eqn:H; simpl.
    - rewrite Nat.eqb_refl. split; reflexivity.
    - split; [ reflexivity | exact H ]. }
  split; [ apply Hnone | ].
  split; [ apply Hafter | ].
  split; [ apply Hnone, Hafter | ].
  split; [ unfold handles; destruct (_process (heap s self)); simpl; lia | ].
  intros s1 Hstart.
  destruct (start_ok w self s s1 Hstart) as [process [cmd [Hp [Hid [Hty Htr]]]]].
  exists process, (snd (PerfProcess.stop self s1)).
  split; [ exact Hp | ].
  split.
  { rewrite bind_run. destruct (Hafter s1) as [Hok Habsent].
    destruct (PerfProcess.stop self s1) as [r s2]; simpl in *. subst r.
    apply Hnone, Habsent. }
  rewrite stop_run, Hp. cbn [snd trace set_trace heap set_heap].
  rewrite Nat.eqb_refl. cbn [_process set_process].
  split; [ | split; [ reflexivity | ] ].
  - erewrite since_app; [ | rewrite Htr, <- app_assoc; reflexivity ].
    unfold terminations. cbn [app filter]. rewrite Nat.eqb_refl. reflexivity.
  - rewrite Htr, <- app_assoc, running_app. cbn [app fold_left track].
    apply remove_In.
Qed.

Lemma stop_is_safe_and_idempotent_witness :
  exists process s3,
    _process (heap Runs.fp_started_state 0) = Some process /\
    (PerfProcess.stop 0 ;;; PerfProcess.stop 0) Runs.fp_started_state = (Ok tt, s3) /\
    terminations (popen_id process) (since Runs.built_state s3) = 1 /\
    _process (heap s3 0) = None /\
    ~ In (popen_id process) (running (trace s3)).
Proof.
  exact (proj2 (proj2 (proj2 (proj2
    (stop_is_safe_and_idempotent Examples.quiet_world 0 Runs.built_state))))
    Runs.fp_started_state eq_refl).
Defined.

(** C5.  For a controller in one of the two modes, in an environment where
    the sampler is launched with both streams captured and the wait for the
    controller's output file times out: [start] kills the subprocess it
    launched, reads its standard output and standard error and logs them at
    the critical level, and raises [TimeoutError]; the state but for the
    trace is as before, so the handle is as absent as it was, and no
    subprocess launched by the call is running when it returns. *)
Theorem start_timeout_kills_the_sampler (w : World) (self : ref) (s : state) :
  _type (heap s self) = "fp" \/ _type (heap s self) = "dwarf" ->
  (forall h, ans_start_process w h = Ok (true, true)) ->
  (forall h,
     ans_wait_event w (h ++ [WaitEvent 5 (_output_path (heap s self))]) = Raise TimeoutError) ->
  exists cmd out err,
    let id := S (List.length (trace s)) in
    let launched :=
      [Log INFO "Starting perf ({} mode)" [LStr (_type (heap s self))];
       StartProcess cmd; Started id; WaitEvent 5 (_output_path (heap s self)); Kill id] in
    let events :=
      launched ++
      [PipeRead (Pipe id Stdout); PipeRead (Pipe id Stderr);
       Log CRITICAL "perf failed to start. stdout {} stderr {}" [LBytes out; LBytes err]] in
    PerfProcess.start w self s = (Raise TimeoutError, set_trace (trace s ++ events) s) /\
    out = ans_read w (trace s ++ launched ++ [PipeRead (Pipe id Stdout)]) /\
    err = ans_read w (trace s ++ launched ++
                      [PipeRead (Pipe id Stdout); PipeRead (Pipe id Stderr)]) /\
    _process (heap (set_trace (trace s ++ events) s) self) = _process (heap s self) /\
    forall p, In (Started p) events -> ~ In p (running (trace s ++ events)).
Proof.
  intros Hty Hlaunch Htimeout.
  assert (Hpages : exists pages,
            PerfProcess.mmap_size (_type (heap s self)) PerfProcess._mmap_sizes = Ok pages).
  { destruct Hty as [-> | ->]; eexists; reflexivity. }
  destruct Hpages as [pages Hpages].
  eexists. eexists. eexists. cbv zeta.
  split; [ | split; [ reflexivity | split; [ reflexivity | split; [ reflexivity | ] ] ] ].
  - unfold PerfProcess.start. rewrite bind_run. unfold deref at 1.
    rewrite bind_run. unfold emit at 1.
    rewrite bind_run. unfold PerfProcess._get_perf_cmd. rewrite bind_run. unfold deref at 1.
    rewrite bind_run. unfold lift at 1. cbn [heap set_trace]. rewrite Hpages.
    unfold ret at 1. rewrite bind_run.
    unfold Extern.start_process. rewrite bind_run. unfold get_state at 1.
    rewrite bind_run. unfold call at 1. cbn [trace set_trace]. rewrite Hlaunch.
    rewrite bind_run. unfold emit at 1. unfold ret at 1. cbn [trace set_trace fst snd].
    unfold try_except_else, Extern.wait_event, call. cbn [trace set_trace heap popen_id].
    rewrite Htimeout. cbn [is_TimeoutError stdout stderr].
    rewrite bind_run. unfold emit at 1. cbn [trace set_trace].
    rewrite bind_run. unfold Extern.read at 1, ask at 1. cbn [trace set_trace].
    rewrite bind_run. unfold Extern.read at 1, ask at 1. cbn [trace set_trace].
    rewrite bind_run. unfold emit at 1. cbn [trace set_trace]. unfold raise.
    rewrite length_app. cbn [List.length]. rewrite Nat.add_1_r.
    rewrite <- !app_assoc. cbn [app]. reflexivity.
  - intros p Hin. rewrite running_app.
    cbn [app In] in Hin. 
    destruct Hin as [H | [H | [H | [H | [H | [H | [H | [H | []]]]]]]]]; try discriminate.
    injection H as <-. cbn [app fold_left track]. apply remove_In.
Qed.

Lemma start_timeout_kills_the_sampler_witness :
  exists cmd out err,
    PerfProcess.start Runs.silent_world 0 Runs.built_state =
      (Raise TimeoutError,
       set_trace
         [Log INFO "Starting perf ({} mode)" [LStr "fp"]; StartProcess cmd; Started 1;
          WaitEvent 5 "/tmp/st/perf.fp"; Kill 1; PipeRead (Pipe 1 Stdout);
          PipeRead (Pipe 1 Stderr);
          Log CRITICAL "perf failed to start. stdout {} stderr {}" [LBytes out; LBytes err]]
         Runs.built_state).
Proof.
  destruct (start_timeout_kills_the_sampler Runs.silent_world 0 Runs.built_state
              (or_introl eq_refl) (fun _ => eq_refl) (fun _ => eq_refl))
    as [cmd [out [err [H _]]]].
  exists cmd, out, err. exact H.
Defined.

(** ** The unwind controller never injects *)

Lemma wait_and_script_without_inject (w : World) (d : ref) (st : state) :
  _inject_jit (heap st d) = false ->
  Forall (fun ev => is_inject ev = false) (since st (snd (PerfProcess.wait_and_script w d st))).
Proof.
  intro Hflag.
  assert (H : emitting (fun ev => is_inject ev = false) st
                (snd (PerfProcess.wait_and_script w d st))).
  { unfold PerfProcess.wait_and_script. rewrite bind_run. unfold deref at 1.
    revert Hflag. generalize (heap st d) as o. intros o Hflag.
    destruct (_inject_jit o); [ discriminate | ].
    match goal with
    | |- emitting ?P st (snd (?k st)) => assert (Hk : respects (emitting P) k)
    end.
    { respects_walk ltac:(emitting_side ltac:(reflexivity)). }
    apply Hk. }
  destruct H as [l [E F]]. rewrite (since_app _ _ _ E). exact F.
Qed.

(** C9.  Whatever the mode and the injection flag given to [__init__], the
    DWARF controller it builds has [_inject_jit] false and is of type
    [dwarf]; in every later state where that flag is as [__init__] set it,
    the controller's collect step runs no [perf inject]; and a controller of
    [_perfs] with injection enabled is the frame-pointer one. *)
Theorem dwarf_controller_never_injects (w : World) (frequency duration : Z)
  (storage_dir : string) (profile_spawned_processes : bool) (perf_mode : string)
  (perf_dwarf_stack_size : Z) (perf_inject perf_node_attach : bool)
  (s s' : state) (self : SystemProfiler.t) :
  SystemProfiler.__init__ w frequency duration storage_dir profile_spawned_processes
    perf_mode perf_dwarf_stack_size perf_inject perf_node_attach s = (Ok self, s') ->
  (forall d,
     SystemProfiler._perf_dwarf self = Some d ->
     _inject_jit (heap s' d) = false /\
     _type (heap s' d) = "dwarf" /\
     forall w' st,
       _inject_jit (heap st d) = _inject_jit (heap s' d) ->
       Forall (fun ev => is_inject ev = false)
         (since st (snd (PerfProcess.wait_and_script w' d st)))) /\
  (forall c,
     In c (SystemProfiler._perfs self) ->
     _inject_jit (heap s' c) = true ->
     SystemProfiler._perf_fp self = Some c /\ _type (heap s' c) = "fp" /\ perf_inject = true).
Proof.
  unfold SystemProfiler.__init__. rewrite bind_run. unfold lift at 1.
  destruct (ans_ProfilerBase_init w frequency duration storage_dir) as [base | e];
    [ | discriminate ].
  rewrite bind_run. unfold modify at 1.
  assert (Hne : forall n, Nat.eqb (S n) n = false) by (intro n; apply Nat.eqb_neq; lia).
  assert (Hne' : forall n, Nat.eqb n (S n) = false) by (intro n; apply Nat.eqb_neq; lia).
  destruct (SystemProfiler.mode_in perf_mode ["fp"; "smart"]);
    destruct (SystemProfiler.mode_in perf_mode ["dwarf"; "smart"]);
    repeat (rewrite bind_run;
            cbn [PerfProcess.__init__ ret set_heap set_node_processes next_ref heap]);
    unfold py_assert; cbn [ret raise]; intro H; try discriminate;
    injection H as <- <-;
    cbn [SystemProfiler._perf_dwarf SystemProfiler._perf_fp SystemProfiler._perfs
         SystemProfiler.opt_list app heap set_heap In].
  - split.
    + intros d Hd. injection Hd as <-. rewrite Nat.eqb_refl. cbn [_inject_jit _type].
      split; [ reflexivity | ]. split; [ reflexivity | ].
      intros w' st Hst. apply wait_and_script_without_inject. exact Hst.
    + intros c [<- | [<- | []]].
      * rewrite Hne', Nat.eqb_refl. cbn [_inject_jit _type].
        intros ->. repeat split.
      * rewrite Nat.eqb_refl. cbn [_inject_jit]. discriminate.
  - split; [ discriminate | ].
    intros c [<- | []]. rewrite Nat.eqb_refl. cbn [_inject_jit _type].
    intros ->. repeat split.
  - split.
    + intros d Hd. injection Hd as <-. rewrite Nat.eqb_refl. cbn [_inject_jit _type].
      split; [ reflexivity | ]. split; [ reflexivity | ].
      intros w' st Hst. apply wait_and_script_without_inject. exact Hst.
    + intros c [<- | []]. rewrite Nat.eqb_refl. cbn [_inject_jit]. discriminate.
Qed.

Lemma dwarf_controller_never_injects_witness :
  _inject_jit (heap Runs.built_state 1) = false /\
  _type (heap Runs.built_state 1) = "dwarf" /\
  Forall (fun ev => is_inject ev = false)
    (since Runs.started_state
       (snd (PerfProcess.wait_and_script Examples.quiet_world 1 Runs.started_state))).
Proof.
  destruct (proj1 (dwarf_controller_never_injects Examples.quiet_world 11 60 "/tmp/st" false
                     "smart" 8192 true true Examples.initial_state Runs.built_state
                     Runs.smart_profiler eq_refl) 1 eq_refl) as [H1 [H2 H3]].
  split; [ exact H1 | ]. split; [ exact H2 | ].
  apply H3. reflexivity.
Defined.

(** ** Metadata of sentinel and vanished processes *)









(** ** Failures of one process do not stop the others *)

Lemma flat_map_nil {A B : Type} (f : A -> list B) (l : list A) :
  Forall (fun x => flat_map f [x] = []) l -> flat_map f l = [].
Proof.
  induction 1 as [| x l Hx F IH]; [ reflexivity | ].
  change (x :: l) with ([x] ++ l). rewrite flat_map_app, Hx, IH. reflexivity.
Qed.

Lemma attach_try_events (w : World) (p : Process) (s : state) :
  exists l,
    trace (snd (node.generate_map_for_node_processes_try w p s)) = trace s ++ IsMusl p :: l /\
    attach_attempts l = [].
Proof.
  unfold node.generate_map_for_node_processes_try. rewrite bind_run.
  unfold Extern.is_musl at 1, call at 1. cbv zeta.
  destruct (ans_is_musl w (trace s ++ [IsMusl p])) as [musl | e].
  - match goal with
    | |- context [ snd (?k ?st) ] =>
        assert (Hk : respects (emitting (fun ev => attach_attempts [ev] = [])) k)
    end.
    { respects_walk ltac:(emitting_side ltac:(reflexivity)). }
    match goal with
    | |- context [ snd (?k ?st) ] => destruct (Hk st) as [l [E F]]
    end.
    exists l. split.
    + rewrite E. cbn [trace set_trace]. rewrite <- app_assoc. reflexivity.
    + apply flat_map_nil. exact F.
  - exists []. split; reflexivity.
Qed.

Lemma detach_try_events (w : World) (p : Process) (s : state) :
  exists l,
    trace (snd (node.clean_up_node_maps_try w p s)) = trace s ++ IsProcessRunning p :: l /\
    detach_attempts l = [].
Proof.
  unfold node.clean_up_node_maps_try. rewrite bind_run.
  unfold Extern.is_process_running at 1, ask at 1. cbv zeta.
  match goal with
  | |- context [ snd (?k ?st) ] =>
      assert (Hk : respects (emitting (fun ev => detach_attempts [ev] = [])) k)
  end.
  { respects_walk ltac:(emitting_side ltac:(reflexivity)). }
  match goal with
  | |- context [ snd (?k ?st) ] => destruct (Hk st) as [l [E F]]
  end.
  exists l. split.
  - rewrite E. cbn [trace set_trace]. rewrite <- app_assoc. reflexivity.
  - apply flat_map_nil. exact F.
Qed.

Lemma generate_map_run (w : World) (p : Process) (rest : list Process) (s : state) :
  node.generate_map_for_node_processes w (p :: rest) s =
  match node.generate_map_for_node_processes_try w p s with
  | (Ok _, s1) => node.generate_map_for_node_processes w rest s1
  | (Raise e, s1) =>
      if is_Exception e
      then node.generate_map_for_node_processes w rest
             (set_trace (trace s1 ++ [attach_warning p e]) s1)
      else (Raise e, s1)
  end.
Proof.
  cbn [node.generate_map_for_node_processes]. rewrite bind_run. unfold try_except.
  destruct (node.generate_map_for_node_processes_try w p s) as [[u | e] s1]; [ reflexivity | ].
  destruct (is_Exception e); reflexivity.
Qed.

Lemma clean_up_run (w : World) (p : Process) (rest : list Process) (s : state) :
  node.clean_up_node_maps w (p :: rest) s =
  match node.clean_up_node_maps_try w p s with
  | (Ok _, s1) => node.clean_up_node_maps w rest s1
  | (Raise e, s1) =>
      if is_Exception e
      then node.clean_up_node_maps w rest (set_trace (trace s1 ++ [detach_warning p e]) s1)
      else (Raise e, s1)
  end.
Proof.
  cbn [node.clean_up_node_maps]. rewrite bind_run. unfold try_except.
  destruct (node.clean_up_node_maps_try w p s) as [[u | e] s1]; [ reflexivity | ].
  destruct (is_Exception e); reflexivity.
Qed.

Lemma generate_map_attempts (w : World) (processes : list Process) :
  forall s, exists l,
    trace (snd (node.generate_map_for_node_processes w processes s)) = trace s ++ l /\
    match fst (node.generate_map_for_node_processes w processes s) with
    | Ok _ => attach_attempts l = processes
    | Raise e => is_Exception e = false
    end.
Proof.
  induction processes as [| p rest IH]; intro s.
  - exists []. split; [ simpl; now rewrite app_nil_r | reflexivity ].
  - rewrite generate_map_run. destruct (attach_try_events w p s) as [l1 [E1 A1]].
    destruct (node.generate_map_for_node_processes_try w p s) as [[u | e] s1];
      cbn [snd] in E1.
    + destruct (IH s1) as [l2 [E2 H2]]. exists ((IsMusl p :: l1) ++ l2).
      split; [ rewrite E2, E1, <- app_assoc; reflexivity | ].
      destruct (fst (node.generate_map_for_node_processes w rest s1)); [ | exact H2 ].
      unfold attach_attempts in *. rewrite flat_map_app. cbn [flat_map app].
      rewrite A1, H2. reflexivity.
    + destruct (is_Exception e) eqn:He.
      * destruct (IH (set_trace (trace s1 ++ [attach_warning p e]) s1)) as [l2 [E2 H2]].
        exists ((IsMusl p :: l1) ++ attach_warning p e :: l2).
        split; [ rewrite E2; cbn [trace set_trace]; rewrite E1, <- !app_assoc; reflexivity | ].
        destruct (fst (node.generate_map_for_node_processes w rest
                         (set_trace (trace s1 ++ [attach_warning p e]) s1)));
          [ | exact H2 ].
        unfold attach_attempts in *. rewrite flat_map_app. cbn [flat_map app].
        rewrite A1, H2. reflexivity.
      * exists (IsMusl p :: l1). split; [ exact E1 | exact He ].
Qed.

Lemma clean_up_attempts (w : World) (processes : list Process) :
  forall s, exists l,
    trace (snd (node.clean_up_node_maps w processes s)) = trace s ++ l /\
    match fst (node.clean_up_node_maps w processes s) with
    | Ok _ => detach_attempts l = processes
    | Raise e => is_Exception e = false
    end.
Proof.
  induction processes as [| p rest IH]; intro s.
  - exists []. split; [ simpl; now rewrite app_nil_r | reflexivity ].
  - rewrite clean_up_run. destruct (detach_try_events w p s) as [l1 [E1 A1]].
    destruct (node.clean_up_node_maps_try w p s) as [[u | e] s1]; cbn [snd] in E1.
    + destruct (IH s1) as [l2 [E2 H2]]. exists ((IsProcessRunning p :: l1) ++ l2).
      split; [ rewrite E2, E1, <- app_assoc; reflexivity | ].
      destruct (fst (node.clean_up_node_maps w rest s1)); [ | exact H2 ].
      unfold detach_attempts in *. rewrite flat_map_app. cbn [flat_map app].
      rewrite A1, H2. reflexivity.
    + destruct (is_Exception e) eqn:He.
      * destruct (IH (set_trace (trace s1 ++ [detach_warning p e]) s1)) as [l2 [E2 H2]].
        exists ((IsProcessRunning p :: l1) ++ detach_warning p e :: l2).
        split; [ rewrite E2; cbn [trace set_trace]; rewrite E1, <- !app_assoc; reflexivity | ].
        destruct (fst (node.clean_up_node_maps w rest
                         (set_trace (trace s1 ++ [detach_warning p e]) s1)));
          [ | exact H2 ].
        unfold detach_attempts in *. rewrite flat_map_app. cbn [flat_map app].
        rewrite A1, H2. reflexivity.
      * exists (IsProcessRunning p :: l1). split; [ exact E1 | exact He ].
Qed.

(** C7.  Attach-all and detach-all never let an [Exception] of one process
    out: what they raise, if anything, is not an instance of [Exception],
    and when they return every process of the list was taken up, in order.
    When the [try] block of a process raises an [Exception], the run goes on
    with the remaining processes from the state the failure left, with one
    warning logged for that process. *)
Theorem attach_and_detach_failures_are_isolated (w : World) (processes : list Process)
  (s : state) :
  match fst (node.generate_map_for_node_processes w processes s) with
  | Ok _ =>
      attach_attempts (since s (snd (node.generate_map_for_node_processes w processes s)))
      = processes
  | Raise e => is_Exception e = false
  end /\
  match fst (node.clean_up_node_maps w processes s) with
  | Ok _ =>
      detach_attempts (since s (snd (node.clean_up_node_maps w processes s))) = processes
  | Raise e => is_Exception e = false
  end /\
  (forall p e s1,
     node.generate_map_for_node_processes_try w p s = (Raise e, s1) ->
     is_Exception e = true ->
     node.generate_map_for_node_processes w (p :: processes) s =
     node.generate_map_for_node_processes w processes
       (set_trace (trace s1 ++ [attach_warning p e]) s1)) /\
  (forall p e s1,
     node.clean_up_node_maps_try w p s = (Raise e, s1) ->
     is_Exception e = true ->
     node.clean_up_node_maps w (p :: processes) s =
     node.clean_up_node_maps w processes
       (set_trace (trace s1 ++ [detach_warning p e]) s1)).
Proof.
  split; [ | split; [ | split ] ].
  - destruct (generate_map_attempts w processes s) as [l [E H]].
    rewrite (since_app _ _ _ E). exact H.
  - destruct (clean_up_attempts w processes s) as [l [E H]].
    rewrite (since_app _ _ _ E). exact H.
  - intros p e s1 Htry He. rewrite generate_map_run, Htry, He. reflexivity.
  - intros p e s1 Htry He. rewrite clean_up_run, Htry, He. reflexivity.
Qed.

Lemma attach_and_detach_failures_are_isolated_witness :
  attach_attempts
    (since Examples.initial_state
       (snd (node.generate_map_for_node_processes Runs.failing_listing_world
               [mkProcess 100 5; mkProcess 200 6] Examples.initial_state)))
  = [mkProcess 100 5; mkProcess 200 6].
Proof.
  exact (proj1 (attach_and_detach_failures_are_isolated Runs.failing_listing_world
                  [mkProcess 100 5; mkProcess 200 6] Examples.initial_state)).
Defined.

(** ** Discovery of the debug endpoint *)

Lemma listing_query_eq :
  RequestsGet ("http://127.0.0.1:" ++ str_int 9229 ++ "/json/list") 3 = listing_query.
Proof. reflexivity. Qed.

Lemma body_rejected (w : World) (s : state) :
  (exists r, ans_requests_get w (trace s ++ [listing_query]) = Ok r /\ rejected r = true) ->
  node._get_debugger_url_body w s =
    (Raise NodeDebuggerUrlNotFound, set_trace (trace s ++ [listing_query]) s).
Proof.
  intros [r [Hr Hrej]].
  unfold node._get_debugger_url_body. cbv zeta. rewrite bind_run.
  unfold Extern.requests_get, call. rewrite listing_query_eq, Hr.
  unfold rejected in Hrej.
  destruct (node.bad_status_or_type r); [ reflexivity | ].
  cbn [orb] in Hrej.
  destruct (json_body r) as [v |]; [ | discriminate ].
  rewrite bind_run. unfold ret at 1.
  destruct (node.first_debugger_url v); [ discriminate | reflexivity ].
Qed.

(** C3, amended.  When every answer of the debug listing is one that
    [_get_debugger_url] rejects, discovery queries the listing five times,
    pauses one second after each of the first four, and raises
    [NodeDebuggerUrlNotFound]; attach and detach end there with the same
    exception. *)
Theorem discovery_gives_up_after_five_attempts (w : World) (s : state) :
  (forall h, exists r, ans_requests_get w h = Ok r /\ rejected r = true) ->
  let events :=
    listing_query :: retry_pause ++ listing_query :: retry_pause ++
    listing_query :: retry_pause ++ listing_query :: retry_pause ++ [listing_query] in
  node._get_debugger_url w s = (Raise NodeDebuggerUrlNotFound, set_trace (trace s ++ events) s) /\
  discovery_attempts events = 5 /\
  pauses events = [1; 1; 1; 1]%Z /\
  forall module_path nspid ns_link_name,
    node._generate_perf_map w module_path nspid ns_link_name s =
      (Raise NodeDebuggerUrlNotFound, set_trace (trace s ++ events) s) /\
    node._clean_up w module_path nspid ns_link_name s =
      (Raise NodeDebuggerUrlNotFound, set_trace (trace s ++ events) s).
Proof.
  intros Hall events.
  assert (Hurl : node._get_debugger_url w s =
                 (Raise NodeDebuggerUrlNotFound, set_trace (trace s ++ events) s)).
  { unfold node._get_debugger_url. cbn [Extern.retry]. unfold try_except.
    repeat (rewrite body_rejected by apply Hall;
            cbn [is_NodeDebuggerUrlNotFound];
            try (rewrite bind_run; unfold emit at 1; rewrite bind_run; unfold emit at 1;
                 cbn [trace set_trace])).
    unfold raise, events, retry_pause. cbn [trace set_trace app].
    rewrite <- !app_assoc. reflexivity. }
  split; [ exact Hurl | ].
  split; [ reflexivity | ].
  split; [ reflexivity | ].
  intros module_path nspid ns_link_name.
  unfold node._generate_perf_map, node._clean_up, node.create_debugger_socket.
  rewrite !bind_run, Hurl. split; reflexivity.
Qed.

Lemma discovery_gives_up_after_five_attempts_witness :
  discovery_attempts
    (since Examples.initial_state
       (snd (node._get_debugger_url Runs.failing_listing_world Examples.initial_state))) = 5.
Proof.
  pose proof (discovery_gives_up_after_five_attempts Runs.failing_listing_world
                Examples.initial_state
                (fun _ => ex_intro _ _ (conj eq_refl eq_refl))) as H.
  cbv zeta in H. destruct H as [Hurl [Hcount _]].
  rewrite Hurl. exact Hcount.
Defined.

(** C3 as it is stated does not hold: an answer with status 200 that declares JSON and
    carries a body that is not JSON is no usable answer, yet discovery
    queries the listing once and raises the decoding error, not
    [NodeDebuggerUrlNotFound]. *)
Lemma discovery_stops_at_an_undecodable_body :
  (forall h, exists r,
      ans_requests_get Runs.undecodable_world h = Ok r /\
      undecodable r = true /\ json_body r = None) /\
  node._get_debugger_url Runs.undecodable_world Examples.initial_state =
    (Raise JSONDecodeError, set_trace [listing_query] Examples.initial_state) /\
  fst (node._get_debugger_url Runs.undecodable_world Examples.initial_state)
    <> Raise NodeDebuggerUrlNotFound /\
  discovery_attempts
    (since Examples.initial_state
       (snd (node._get_debugger_url Runs.undecodable_world Examples.initial_state))) = 1 /\
  discovery_attempts
    (since Examples.initial_state
       (snd (node._get_debugger_url Runs.undecodable_world Examples.initial_state))) <> 5.
Proof.
  split; [ | split; [ reflexivity | split; [ discriminate | split; [ reflexivity | discriminate ] ] ] ].
  intro h. eexists. split; [ reflexivity | split; reflexivity ].
Qed.

(** ** Deploying the payload twice *)

#[export] Instance deploy_step_order (w : World) : StepOrder (deploy_step w).
Proof.
  split.
  - intro s. split; [ exact (fun H => H) | intros entry rest H; exact H ].
  - intros a b c [Hab1 Hab2] [Hbc1 Hbc2]. split.
    + intro H. apply Hbc1, Hab1, H.
    + intros entry rest H. apply (Hbc2 entry rest), (Hab2 entry rest), H.
Qed.

Lemma deploy_step_same_caches (w : World) (s s' : state) :
  cache_dso_git_rev s' = cache_dso_git_rev s ->
  cache_dest_inside_container s' = cache_dest_inside_container s ->
  deploy_step w s s'.
Proof.
  intros H1 H2. split.
  - unfold caches_agree. rewrite H1, H2. exact (fun H => H).
  - intros entry rest H. rewrite H1. exact H.
Qed.

Ltac deploy_side := intros; apply deploy_step_same_caches; reflexivity.

Lemma state_eta (s : state) :
  mkState (trace s) (heap s) (next_ref s) (_node_processes s) (cache_dso_git_rev s)
    (cache_dest_inside_container s) (cache_golang_version s) (next_collector s) = s.
Proof. destruct s. reflexivity. Qed.

Lemma lru_find_In {K V : Type} (eqb : K -> K -> bool) (k : K) (c : list (K * V)) (v : V) :
  lru_find eqb k c = Some v -> exists k', eqb k k' = true /\ In (k', v) c.
Proof.
  induction c as [| [k0 v0] c IH]; cbn [lru_find]; [ discriminate | ].
  destruct (eqb k k0) eqn:E.
  - intro H. injection H as <-. exists k0. split; [ exact E | now left ].
  - intro H. destruct (IH H) as [k' [Hk Hin]]. exists k'. split; [ exact Hk | now right ].
Qed.

Lemma lru_remove_In {K V : Type} (eqb : K -> K -> bool) (k : K) (c : list (K * V))
  (x : K * V) :
  In x (lru_remove eqb k c) -> In x c.
Proof.
  induction c as [| [k0 v0] c IH]; cbn [lru_remove]; [ exact (fun H => H) | ].
  destruct (eqb k k0).
  - intro H. now right.
  - intros [H | H]; [ now left | right; apply IH, H ].
Qed.

Lemma firstn_incl {A : Type} (n : nat) (l : list A) (x : A) : In x (firstn n l) -> In x l.
Proof.
  revert l. induction n as [| n IH]; intros [| y l]; cbn [firstn]; try contradiction.
  intros [H | H]; [ now left | right; apply IH, H ].
Qed.

Lemma key_eqb_eq (a b : bool * string) : node.key_eqb a b = true -> a = b.
Proof.
  destruct a as [a1 a2], b as [b1 b2]. unfold node.key_eqb. cbn [fst snd].
  intro H. apply andb_prop in H. destruct H as [H1 H2].
  apply Bool.eqb_prop in H1. apply String.eqb_eq in H2. now subst.
Qed.

(** What [_get_dso_git_rev] does, by the state of its cache. *)
Lemma _get_dso_git_rev_run (w : World) (s : state) :
  node._get_dso_git_rev w s =
  match cache_dso_git_rev s with
  | [] =>
      match node._get_dso_git_rev_body w tt s with
      | (Ok rev, s1) => (Ok rev, set_cache_dso_git_rev [(tt, rev)] s1)
      | (Raise e, s1) => (Raise e, s1)
      end
  | (_, rev) :: _ => (Ok rev, s)
  end.
Proof.
  unfold node._get_dso_git_rev, lru_cache.
  destruct (cache_dso_git_rev s) as [| [u rev] rest] eqn:Hc; cbn [lru_find].
  - assert (Hkeep : respects (keeping cache_dso_git_rev) (node._get_dso_git_rev_body w tt)).
    { respects_walk keeping_side. }
    specialize (Hkeep s). unfold keeping in Hkeep.
    destruct (node._get_dso_git_rev_body w tt s) as [[rev | e] s1]; [ | reflexivity ].
    cbn [snd] in Hkeep. rewrite Hkeep, Hc. reflexivity.
  - unfold lru_hit. cbn [lru_remove]. f_equal. destruct u.
    unfold set_cache_dso_git_rev. rewrite <- Hc. apply state_eta.
Qed.

Lemma _get_dso_git_rev_step (w : World) (s : state) :
  deploy_step w s (snd (node._get_dso_git_rev w s)) /\
  forall rev, fst (node._get_dso_git_rev w s) = Ok rev ->
              exists rest, cache_dso_git_rev (snd (node._get_dso_git_rev w s)) = (tt, rev) :: rest.
Proof.
  rewrite _get_dso_git_rev_run.
  destruct (cache_dso_git_rev s) as [| [u rev0] rest] eqn:Hc.
  - assert (H1 : respects (keeping cache_dso_git_rev) (node._get_dso_git_rev_body w tt)).
    { respects_walk keeping_side. }
    assert (H2 : respects (keeping cache_dest_inside_container)
                   (node._get_dso_git_rev_body w tt)).
    { respects_walk keeping_side. }
    specialize (H1 s). specialize (H2 s). unfold keeping in H1, H2.
    destruct (node._get_dso_git_rev_body w tt s) as [[rev | e] s1]; cbn [fst snd] in *.
    + split.
      * split.
        -- unfold caches_agree. rewrite Hc. cbn [cache_dso_git_rev set_cache_dso_git_rev
                                                 cache_dest_inside_container].
           intros Hempty k v Hin. rewrite H2, Hempty in Hin. contradiction.
        -- intros entry rest' H. rewrite Hc in H. discriminate.
      * intros rev' H. injection H as <-. exists []. reflexivity.
    + split; [ apply deploy_step_same_caches; assumption | discriminate ].
  - cbn [fst snd]. split; [ apply step_refl | ].
    intros rev H. injection H as <-. exists rest. destruct u. exact Hc.
Qed.

Lemma _get_dso_git_rev_respects (w : World) :
  respects (deploy_step w) (node._get_dso_git_rev w).
Proof. intro s. apply _get_dso_git_rev_step. Qed.

(** What [_get_dest_inside_container] returns agrees with the cached build
    identity, and the caches agree afterwards. *)
Lemma _get_dest_inside_container_step (w : World) (musl : bool) (version : string) (s : state) :
  deploy_step w s (snd (node._get_dest_inside_container w musl version s)) /\
  (caches_agree w s ->
   forall dest,
     fst (node._get_dest_inside_container w musl version s) = Ok dest ->
     exists rev rest,
       cache_dso_git_rev (snd (node._get_dest_inside_container w musl version s))
         = (tt, rev) :: rest /\
       dest = dest_for w rev (musl, version)).
Proof.
  unfold node._get_dest_inside_container, lru_cache.
  destruct (lru_find node.key_eqb (musl, version) (cache_dest_inside_container s))
    as [v |] eqn:Hfind.
  - destruct (lru_find_In _ _ _ _ Hfind) as [k' [Hk Hin]].
    apply key_eqb_eq in Hk. subst k'. cbn [fst snd].
    split.
    + split.
      * unfold caches_agree.
        cbn [cache_dso_git_rev set_cache_dest_inside_container cache_dest_inside_container].
        destruct (cache_dso_git_rev s) as [| [u rev] rest].
        -- intro Hempty. rewrite Hempty in Hin. contradiction.
        -- intros Hall k v0 [Heq | Hin0].
           ++ injection Heq as <- <-. apply Hall, Hin.
           ++ apply Hall. eapply lru_remove_In, Hin0.
      * intros entry rest H. exact H.
    + intros Hagree dest Hd. injection Hd as <-. unfold caches_agree in Hagree.
      cbn [cache_dso_git_rev set_cache_dest_inside_container].
      destruct (cache_dso_git_rev s) as [| [u rev] rest].
      * rewrite Hagree in Hin. contradiction.
      * destruct u. exists rev, rest. split; [ reflexivity | apply Hagree, Hin ].
  - unfold node._get_dest_inside_container_body. rewrite bind_run. cbn [fst snd].
    destruct (_get_dso_git_rev_step w s) as [[Hagree Hkept] Hcached].
    assert (Hdest : cache_dest_inside_container (snd (node._get_dso_git_rev w s))
                    = cache_dest_inside_container s).
    { rewrite _get_dso_git_rev_run.
      destruct (cache_dso_git_rev s) as [| [u0 rev0] rest0]; [ | reflexivity ].
      assert (H2 : respects (keeping cache_dest_inside_container)
                     (node._get_dso_git_rev_body w tt)).
      { respects_walk keeping_side. }
      specialize (H2 s). unfold keeping in H2.
      destruct (node._get_dso_git_rev_body w tt s) as [[rev | e] s1]; exact H2. }
    destruct (node._get_dso_git_rev w s) as [[rev | e] s1]; cbn [fst snd] in *.
    + destruct (Hcached rev eq_refl) as [rest Hrev]. unfold ret. cbn [fst snd].
      split.
      * split.
        -- intro H. specialize (Hagree H). unfold caches_agree in *.
           cbn [cache_dso_git_rev set_cache_dest_inside_container
                cache_dest_inside_container].
           rewrite Hrev in *. cbv beta iota in *. intros k v Hin. apply firstn_incl in Hin.
           destruct Hin as [Heq | Hin]; [ injection Heq as <- <-; reflexivity | ].
           apply Hagree, Hin.
        -- intros entry rest' H. cbn [cache_dso_git_rev set_cache_dest_inside_container].
           apply Hkept, H.
      * intros _ dest Hd. injection Hd as <-. exists rev, rest.
        split; [ exact Hrev | reflexivity ].
    + split; [ split; assumption | discriminate ].
Qed.

Lemma _get_dest_inside_container_respects (w : World) (musl : bool) (version : string) :
  respects (deploy_step w) (node._get_dest_inside_container w musl version).
Proof. intro s. apply _get_dest_inside_container_step. Qed.

Lemma _get_dso_git_rev_hit (w : World) (s : state) (u : unit) (rev : string)
  (rest : list (unit * string)) :
  cache_dso_git_rev s = (u, rev) :: rest ->
  node._get_dso_git_rev w s = (Ok rev, s).
Proof. intro H. rewrite _get_dso_git_rev_run, H. reflexivity. Qed.

(** With the build identity cached and the caches in agreement, the path
    of a signature is found without any call to the outside. *)
Lemma _get_dest_inside_container_cached (w : World) (musl : bool) (version : string)
  (s : state) (u : unit) (rev : string) (rest : list (unit * string)) :
  caches_agree w s ->
  cache_dso_git_rev s = (u, rev) :: rest ->
  fst (node._get_dest_inside_container w musl version s) = Ok (dest_for w rev (musl, version)) /\
  trace (snd (node._get_dest_inside_container w musl version s)) = trace s.
Proof.
  intros Hagree Hrev.
  unfold node._get_dest_inside_container, lru_cache.
  destruct (lru_find node.key_eqb (musl, version) (cache_dest_inside_container s))
    as [v |] eqn:Hfind.
  - destruct (lru_find_In _ _ _ _ Hfind) as [k' [Hk Hin]].
    apply key_eqb_eq in Hk. subst k'. cbn [fst snd].
    unfold caches_agree in Hagree. rewrite Hrev in Hagree.
    rewrite (Hagree _ _ Hin). split; reflexivity.
  - unfold node._get_dest_inside_container_body. rewrite bind_run.
    rewrite (_get_dso_git_rev_hit w s u rev rest Hrev). split; reflexivity.
Qed.

Ltac deploy_walk :=
  repeat first
    [ assumption
    | apply _get_dso_git_rev_respects
    | apply _get_dest_inside_container_respects
    | respects_step deploy_side ].

Lemma generate_map_deploy_step (w : World) (ps : list Process) :
  respects (deploy_step w) (node.generate_map_for_node_processes w ps).
Proof. induction ps as [| p rest IH]; simpl; deploy_walk. Qed.

Lemma clean_up_deploy_step (w : World) (ps : list Process) :
  respects (deploy_step w) (node.clean_up_node_maps w ps).
Proof. induction ps as [| p rest IH]; simpl; deploy_walk. Qed.

Lemma place_module_result (w : World) (proc_root libc version d : string) (s s' : state)
  (r : string) :
  place_module w proc_root libc version d s = (Ok r, s') -> r = d.
Proof.
  unfold place_module.
  repeat (rewrite bind_run;
          match goal with
          | |- context [ match ?m ?st with _ => _ end ] =>
              destruct (m st) as [[? | ?] ?]; try discriminate
          end;
          try match goal with
              | |- context [ if ?b then _ else _ ] => destruct b
              end);
  unfold ret; intro H; injection H as <- _; reflexivity.
Qed.

Lemma place_module_deploy_step (w : World) (proc_root libc version d : string) :
  respects (deploy_step w) (place_module w proc_root libc version d).
Proof. unfold place_module. deploy_walk. Qed.

Lemma first_deploy (w : World) (p : Process) (musl : bool) (version : string)
  (s0 s1 : state) (dest : string) :
  caches_agree w s0 ->
  node._copy_module_into_process_ns w p musl version s0 = (Ok dest, s1) ->
  caches_agree w s1 /\
  exists rev rest,
    cache_dso_git_rev s1 = (tt, rev) :: rest /\ dest = dest_for w rev (musl, version).
Proof.
  intros Hagree.
  change (node._copy_module_into_process_ns w p musl version)
    with (proc_root <- Extern.get_proc_root_path w p ;;
          d <- node._get_dest_inside_container w musl version ;;
          place_module w proc_root (if musl then "musl" else "glibc") version d).
  rewrite bind_run. unfold Extern.get_proc_root_path at 1, call at 1. cbv zeta.
  destruct (ans_get_proc_root_path w (trace s0 ++ [GetProcRootPath p])) as [root | e];
    [ | discriminate ].
  rewrite bind_run.
  set (sa := set_trace (trace s0 ++ [GetProcRootPath p]) s0).
  assert (Ha : caches_agree w sa) by exact Hagree.
  destruct (_get_dest_inside_container_step w musl version sa) as [[Hb _] Hval].
  specialize (Hb Ha). specialize (Hval Ha).
  destruct (node._get_dest_inside_container w musl version sa) as [[d | e] sb];
    [ | discriminate ].
  cbn [fst snd] in Hb, Hval. destruct (Hval d eq_refl) as [rev [rest [Hrev ->]]].
  intro Hplace.
  pose proof (place_module_result _ _ _ _ _ _ _ _ Hplace) as ->.
  pose proof (place_module_deploy_step w root (if musl then "musl" else "glibc") version
                (dest_for w rev (musl, version)) sb) as [H1 H2].
  rewrite Hplace in H1, H2. cbn [snd] in H1, H2.
  split; [ apply H1, Hb | ].
  exists rev, rest. split; [ apply H2, Hrev | reflexivity ].
Qed.

Lemma caches_agree_same_root (w1 w2 : World) (s : state) :
  TEMPORARY_STORAGE_PATH w1 = TEMPORARY_STORAGE_PATH w2 ->
  caches_agree w1 s -> caches_agree w2 s.
Proof.
  intros H. unfold caches_agree, dest_for. rewrite H. exact (fun x => x).
Qed.

(** C4.  After a successful deploy for one signature, in every later state
    of the caches, a deploy for the same signature, of the same or of
    another target, in an environment where the namespace of the target
    resolves and the deployment path exists there, returns the same path
    after three calls: the root of the target, the resolution of the path
    and the existence test.  It copies nothing and changes no permission. *)
Theorem second_deploy_copies_nothing (w1 w2 : World) (p1 p2 : Process) (musl : bool)
  (version : string) (s0 s1 s2 : state) (dest : string) :
  TEMPORARY_STORAGE_PATH w1 = TEMPORARY_STORAGE_PATH w2 ->
  caches_agree w1 s0 ->
  node._copy_module_into_process_ns w1 p1 musl version s0 = (Ok dest, s1) ->
  deploy_step w1 s1 s2 ->
  (forall h, exists root, ans_get_proc_root_path w2 h = Ok root) ->
  (forall h, exists path, ans_resolve_proc_root_links w2 h = Ok path) ->
  (forall h, ans_path_exists w2 h = true) ->
  exists root path s3,
    node._copy_module_into_process_ns w2 p2 musl version s2 = (Ok dest, s3) /\
    since s2 s3 = [GetProcRootPath p2; ResolveProcRootLinks root dest; PathExists path] /\
    Forall (fun ev => is_copy ev = false) (since s2 s3).
Proof.
  intros Hroot Hagree Hfirst [Hlater Hkept] Hget Hresolve Hexists.
  destruct (first_deploy w1 p1 musl version s0 s1 dest Hagree Hfirst)
    as [Hagree1 [rev [rest [Hrev ->]]]].
  pose proof (caches_agree_same_root w1 w2 s2 Hroot (Hlater Hagree1)) as Hagree2.
  pose proof (Hkept _ _ Hrev) as Hrev2.
  assert (Hdest : dest_for w1 rev (musl, version) = dest_for w2 rev (musl, version)).
  { unfold dest_for. rewrite Hroot. reflexivity. }
  rewrite Hdest.
  destruct (Hget (trace s2 ++ [GetProcRootPath p2])) as [root Hr].
  set (sa := set_trace (trace s2 ++ [GetProcRootPath p2]) s2).
  destruct (_get_dest_inside_container_cached w2 musl version sa tt rev rest Hagree2 Hrev2)
    as [Hval Htrace].
  destruct (node._get_dest_inside_container w2 musl version sa) as [r sb] eqn:Hrun.
  cbn [fst snd] in Hval, Htrace. subst r.
  destruct (Hresolve
              (trace sb ++ [ResolveProcRootLinks root (dest_for w2 rev (musl, version))]))
    as [path Hp].
  exists root, path. eexists. split.
  - unfold node._copy_module_into_process_ns. rewrite bind_run.
    unfold Extern.get_proc_root_path at 1, call at 1. cbv zeta. rewrite Hr. fold sa.
    rewrite bind_run, Hrun. rewrite bind_run.
    unfold Extern.resolve_proc_root_links at 1, call at 1. cbv zeta. rewrite Hp.
    rewrite bind_run. unfold Extern.os_path_exists at 1, ask at 1. cbv zeta.
    rewrite Hexists. unfold ret. reflexivity.
  - assert (Hs : since s2
                   (set_trace
                      (trace
                         (set_trace
                            (trace sb ++
                             [ResolveProcRootLinks root (dest_for w2 rev (musl, version))])
                            sb) ++ [PathExists path])
                      (set_trace
                         (trace sb ++
                          [ResolveProcRootLinks root (dest_for w2 rev (musl, version))]) sb))
                 = [GetProcRootPath p2;
                    ResolveProcRootLinks root (dest_for w2 rev (musl, version));
                    PathExists path]).
    { apply since_app. cbn [trace set_trace]. rewrite Htrace. unfold sa.
      cbn [trace set_trace]. rewrite <- !app_assoc. reflexivity. }
    rewrite Hs. split; [ reflexivity | ].
    repeat constructor.
Qed.

Lemma second_deploy_copies_nothing_witness :
  exists root path s3,
    node._copy_module_into_process_ns Examples.quiet_world Runs.second_target false "16"
      Runs.later_state
    = (Ok "/tmp/gprofiler_tmp/node_module/abcdef0/glibc/16", s3) /\
    since Runs.later_state s3 =
      [GetProcRootPath Runs.second_target;
       ResolveProcRootLinks root "/tmp/gprofiler_tmp/node_module/abcdef0/glibc/16";
       PathExists path] /\
    Forall (fun ev => is_copy ev = false) (since Runs.later_state s3).
Proof.
  apply (second_deploy_copies_nothing Runs.fresh_world Examples.quiet_world
           (mkProcess 100 5) Runs.second_target false "16" Examples.initial_state
           Runs.deployed_state Runs.later_state
           "/tmp/gprofiler_tmp/node_module/abcdef0/glibc/16").
  - reflexivity.
  - reflexivity.
  - vm_compute. reflexivity.
  - apply (generate_map_deploy_step Runs.fresh_world [mkProcess 200 6] Runs.deployed_state).
  - intro h. eexists. reflexivity.
  - intro h. eexists. reflexivity.
  - intro h. reflexivity.
Defined.

(** ** A session validates its target before it controls the payload *)

Lemma set_trace_set_trace (t t' : list event) (s : state) :
  set_trace t (set_trace t' s) = set_trace t s.
Proof. reflexivity. Qed.

Lemma _get_debugger_url_no_send (w : World) :
  respects (emitting (fun ev => is_send ev = false)) (node._get_debugger_url w).
Proof. respects_walk ltac:(emitting_side ltac:(reflexivity)). Qed.

Lemma validate_target_sends (w : World) (nspid : Z) (ns_link_name : string) (sock : WebSocket) :
  respects (emitting (fun ev => sends_to sock ev = true))
    (validate_target w nspid ns_link_name sock).
Proof.
  unfold validate_target.
  respects_walk ltac:(emitting_side ltac:(first [ reflexivity | apply Nat.eqb_refl ])).
Qed.

Lemma _change_dso_state_sends (w : World) (sock : WebSocket) (module_path action : string) :
  respects (emitting (fun ev => sends_to sock ev = true))
    (node._change_dso_state w sock module_path action).
Proof.
  respects_walk ltac:(emitting_side ltac:(first [ reflexivity | apply Nat.eqb_refl ])).
Qed.

Lemma create_debugger_socket_no_control (w : World) (nspid : Z) (ns_link_name : string) :
  respects (emitting (fun ev => is_control ev = false))
    (node.create_debugger_socket w nspid ns_link_name).
Proof. respects_walk ltac:(emitting_side ltac:(reflexivity)). Qed.

(** [create_debugger_socket] stage by stage. *)
Lemma create_debugger_socket_run (w : World) (nspid : Z) (ns_link_name : string) (s : state) :
  node.create_debugger_socket w nspid ns_link_name s =
  match node._get_debugger_url w s with
  | (Raise e, s1) => (Raise e, s1)
  | (Ok url, s1) =>
      match ans_create_connection w (trace s1 ++ [CreateConnection url]) with
      | Raise e => (Raise e, set_trace (trace s1 ++ [CreateConnection url]) s1)
      | Ok _ =>
          let sock := List.length (trace s1) in
          match validate_target w nspid ns_link_name sock
                  (set_trace (trace s1 ++ [CreateConnection url; Connected sock]) s1) with
          | (Ok _, s3) => (Ok sock, s3)
          | (Raise e, s3) => (Raise e, s3)
          end
      end
  end.
Proof.
  unfold node.create_debugger_socket. rewrite bind_run.
  destruct (node._get_debugger_url w s) as [[url | e] s1]; [ | reflexivity ].
  rewrite bind_run. unfold Extern.create_connection. rewrite bind_run.
  unfold get_state at 1. rewrite bind_run. unfold call at 1. cbv zeta.
  destruct (ans_create_connection w (trace s1 ++ [CreateConnection url])) as [u | e];
    [ | reflexivity ].
  rewrite bind_run. unfold emit at 1, ret at 1. cbn [trace set_trace].
  rewrite <- app_assoc. cbn [app].
  change (set_trace (trace s1 ++ [CreateConnection url; Connected (List.length (trace s1))])
            (set_trace (trace s1 ++ [CreateConnection url]) s1))
    with (set_trace (trace s1 ++ [CreateConnection url; Connected (List.length (trace s1))])
            s1).
  unfold validate_target. rewrite !bind_run.
  match goal with
  | |- context [ Extern.settimeout w ?k 10 ?st ] =>
      destruct (Extern.settimeout w k 10 st) as [[u1 | e1] s2]
  end; [ | reflexivity ].
  rewrite !bind_run.
  match goal with
  | |- context [ node._validate_ns_node w ?k ns_link_name ?st ] =>
      destruct (node._validate_ns_node w k ns_link_name st) as [[u2 | e2] s3]
  end; [ | reflexivity ].
  rewrite !bind_run.
  match goal with
  | |- context [ node._validate_pid w nspid ?k ?st ] =>
      destruct (node._validate_pid w nspid k st) as [[u3 | e3] s4]
  end; reflexivity.
Qed.

Lemma _validate_ns_node_run (w : World) (sock : WebSocket) (ns_link_name : string) (s : state) :
  node._validate_ns_node w sock ns_link_name s =
  match node._execute_js_command w sock node.ns_link_command s with
  | (Ok v, s') =>
      if eq_str v ns_link_name then (Ok tt, s')
      else (Raise (AssertionError "Wrong namespace, expected {}, got {}" [JStr ns_link_name; v]),
            s')
  | (Raise e, s') => (Raise e, s')
  end.
Proof.
  unfold node._validate_ns_node. cbv zeta. rewrite bind_run.
  destruct (node._execute_js_command w sock node.ns_link_command s) as [[v | e] s'];
    [ | reflexivity ].
  unfold py_assert. destruct (eq_str v ns_link_name); reflexivity.
Qed.

Lemma _validate_pid_run (w : World) (expected_pid : Z) (sock : WebSocket) (s : state) :
  node._validate_pid w expected_pid sock s =
  match node._execute_js_command w sock "process.pid" s with
  | (Ok v, s') =>
      if eq_int expected_pid v then (Ok tt, s')
      else (Raise (AssertionError "Wrong pid, expected {}, actual {}" [JInt expected_pid; v]),
            s')
  | (Raise e, s') => (Raise e, s')
  end.
Proof.
  unfold node._validate_pid. rewrite bind_run.
  destruct (node._execute_js_command w sock "process.pid" s) as [[v | e] s'];
    [ | reflexivity ].
  unfold py_assert. destruct (eq_int expected_pid v); reflexivity.
Qed.

Lemma session_opened_inv (w : World) (s : state) (sock : WebSocket) (s2 : state) :
  session_opened w s sock s2 ->
  exists url s1 u,
    node._get_debugger_url w s = (Ok url, s1) /\
    ans_create_connection w (trace s1 ++ [CreateConnection url]) = Ok u /\
    sock = List.length (trace s1) /\
    Extern.settimeout w sock 10
      (set_trace (trace s1 ++ [CreateConnection url; Connected sock]) s1) = (Ok tt, s2).
Proof.
  intros [url [s1 [Hurl Hopen]]]. exists url, s1.
  revert Hopen. rewrite bind_run. unfold Extern.create_connection. rewrite bind_run.
  unfold get_state at 1. rewrite bind_run. unfold call at 1. cbv zeta.
  destruct (ans_create_connection w (trace s1 ++ [CreateConnection url])) as [u | e];
    [ | discriminate ].
  rewrite bind_run. unfold emit at 1, ret at 1. cbn [trace set_trace].
  rewrite <- app_assoc. cbn [app]. rewrite bind_run, set_trace_set_trace.
  destruct (Extern.settimeout w (List.length (trace s1)) 10
              (set_trace (trace s1 ++ [CreateConnection url; Connected (List.length (trace s1))])
                 s1)) as [[[] | e] s2'] eqn:Hset; [ | discriminate ].
  unfold ret. intro H. injection H as <- <-.
  exists u. repeat split; try reflexivity; assumption.
Qed.

Lemma session_opened_intro (w : World) (s : state) (url : json) (s1 : state) (u : unit)
  (s2 : state) :
  node._get_debugger_url w s = (Ok url, s1) ->
  ans_create_connection w (trace s1 ++ [CreateConnection url]) = Ok u ->
  Extern.settimeout w (List.length (trace s1)) 10
    (set_trace (trace s1 ++ [CreateConnection url; Connected (List.length (trace s1))]) s1)
  = (Ok tt, s2) ->
  session_opened w s (List.length (trace s1)) s2.
Proof.
  intros Hurl Hconn Hset. exists url, s1. split; [ exact Hurl | ].
  rewrite bind_run. unfold Extern.create_connection. rewrite bind_run.
  unfold get_state at 1. rewrite bind_run. unfold call at 1. cbv zeta. rewrite Hconn.
  rewrite bind_run. unfold emit at 1, ret at 1. cbn [trace set_trace].
  rewrite <- app_assoc. cbn [app]. rewrite bind_run, set_trace_set_trace, Hset. reflexivity.
Qed.

(** A returned socket was validated. *)
Lemma returned_socket_validated (w : World) (nspid : Z) (ns_link_name : string)
  (s s' : state) (sock : WebSocket) :
  node.create_debugger_socket w nspid ns_link_name s = (Ok sock, s') ->
  exists s2, session_opened w s sock s2 /\ validated w nspid ns_link_name sock s2 s'.
Proof.
  rewrite create_debugger_socket_run.
  destruct (node._get_debugger_url w s) as [[url | e] s1] eqn:Hurl; [ | discriminate ].
  destruct (ans_create_connection w (trace s1 ++ [CreateConnection url])) as [u | e]
    eqn:Hconn; [ | discriminate ].
  cbv zeta. unfold validate_target. rewrite bind_run.
  destruct (Extern.settimeout w (List.length (trace s1)) 10
              (set_trace (trace s1 ++ [CreateConnection url; Connected (List.length (trace s1))])
                 s1)) as [[[] | e] s2] eqn:Hset; [ | discriminate ].
  rewrite bind_run, _validate_ns_node_run.
  destruct (node._execute_js_command w (List.length (trace s1)) node.ns_link_command s2)
    as [[v_link | e] s3] eqn:Hlink; [ | discriminate ].
  destruct (eq_str v_link ns_link_name) eqn:Heq; [ | discriminate ].
  rewrite _validate_pid_run.
  destruct (node._execute_js_command w (List.length (trace s1)) "process.pid" s3)
    as [[v_pid | e] s4] eqn:Hpid; [ | discriminate ].
  destruct (eq_int nspid v_pid) eqn:Heqp; [ | discriminate ].
  intro H. injection H as <- <-.
  exists s2. split.
  - exact (session_opened_intro w s url s1 u s2 Hurl Hconn Hset).
  - exists v_link, s3, v_pid. repeat split; assumption.
Qed.

(** A link that differs ends the session with an [AssertionError]. *)
Lemma wrong_link_fails (w : World) (nspid : Z) (ns_link_name : string)
  (s : state) (sock : WebSocket) (s2 s3 : state) (v_link : json) :
  session_opened w s sock s2 ->
  node._execute_js_command w sock node.ns_link_command s2 = (Ok v_link, s3) ->
  eq_str v_link ns_link_name = false ->
  node.create_debugger_socket w nspid ns_link_name s =
    (Raise (AssertionError "Wrong namespace, expected {}, got {}" [JStr ns_link_name; v_link]),
     s3).
Proof.
  intros Hopen Hlink Heq.
  destruct (session_opened_inv w s sock s2 Hopen) as [url [s1 [u [Hurl [Hconn [-> Hset]]]]]].
  rewrite create_debugger_socket_run, Hurl, Hconn. cbv zeta.
  unfold validate_target. rewrite bind_run, Hset, bind_run, _validate_ns_node_run, Hlink, Heq.
  reflexivity.
Qed.

(** A pid that differs ends the session with an [AssertionError]. *)
Lemma wrong_pid_fails (w : World) (nspid : Z) (ns_link_name : string)
  (s : state) (sock : WebSocket) (s2 s3 s4 : state) (v_link v_pid : json) :
  session_opened w s sock s2 ->
  node._execute_js_command w sock node.ns_link_command s2 = (Ok v_link, s3) ->
  eq_str v_link ns_link_name = true ->
  node._execute_js_command w sock "process.pid" s3 = (Ok v_pid, s4) ->
  eq_int nspid v_pid = false ->
  node.create_debugger_socket w nspid ns_link_name s =
    (Raise (AssertionError "Wrong pid, expected {}, actual {}" [JInt nspid; v_pid]), s4).
Proof.
  intros Hopen Hlink Heq Hpid Heqp.
  destruct (session_opened_inv w s sock s2 Hopen) as [url [s1 [u [Hurl [Hconn [-> Hset]]]]]].
  rewrite create_debugger_socket_run, Hurl, Hconn. cbv zeta.
  unfold validate_target. rewrite bind_run, Hset, bind_run, _validate_ns_node_run, Hlink, Heq.
  rewrite _validate_pid_run, Hpid, Heqp. reflexivity.
Qed.

(** When the session fails, attach and detach fail with it, where it
    stopped. *)
Lemma failed_session_ends_the_call (w : World) (module_path : string) (nspid : Z)
  (ns_link_name : string) (s s' : state) (e : exn) :
  node.create_debugger_socket w nspid ns_link_name s = (Raise e, s') ->
  node._generate_perf_map w module_path nspid ns_link_name s = (Raise e, s') /\
  node._clean_up w module_path nspid ns_link_name s = (Raise e, s').
Proof.
  intro H. unfold node._generate_perf_map, node._clean_up. rewrite !bind_run, H.
  split; reflexivity.
Qed.

(** In a call that opens a session and goes on with [k] on its socket,
    every message goes to the socket the call opened. *)
Lemma session_sends_on_its_socket (w : World) (nspid : Z) (ns_link_name : string)
  (k : WebSocket -> M unit) (s : state) :
  (forall sock, respects (emitting (fun ev => sends_to sock ev = true)) (k sock)) ->
  forall sock request,
    In (SockSend sock request)
      (since s (snd ((sock <- node.create_debugger_socket w nspid ns_link_name ;; k sock) s))) ->
    In (Connected sock)
      (since s (snd ((sock <- node.create_debugger_socket w nspid ns_link_name ;; k sock) s))).
Proof.
  intros Hk sock request.
  rewrite bind_run, create_debugger_socket_run.
  destruct (_get_debugger_url_no_send w s) as [lg [Eg Fg]].
  assert (Hnone : forall l, Forall (fun ev => is_send ev = false) l ->
                            ~ In (SockSend sock request) l).
  { intros l F Hin. rewrite Forall_forall in F. specialize (F _ Hin). discriminate. }
  destruct (node._get_debugger_url w s) as [[url | e] s1]; cbn [snd] in Eg.
  2:{ cbn [snd]. rewrite (since_app _ _ _ Eg). intro Hin. destruct (Hnone lg Fg Hin). }
  destruct (ans_create_connection w (trace s1 ++ [CreateConnection url])) as [u | e].
  2:{ cbn [snd]. erewrite since_app; [ | cbn [trace set_trace]; rewrite Eg, <- app_assoc;
                                         reflexivity ].
      intro Hin. apply in_app_or in Hin. destruct Hin as [Hin | [Hin | []]].
      - destruct (Hnone lg Fg Hin).
      - discriminate. }
  cbv zeta. set (own := List.length (trace s1)).
  set (sa := set_trace (trace s1 ++ [CreateConnection url; Connected own]) s1).
  destruct (validate_target_sends w nspid ns_link_name own sa) as [lv [Ev Fv]].
  assert (Hfinish : forall s' lk,
            trace s' = trace sa ++ lv ++ lk ->
            Forall (fun ev => sends_to own ev = true) lk ->
            In (SockSend sock request) (since s s') -> In (Connected sock) (since s s')).
  { intros s' lk El Fk.
    erewrite since_app;
      [ | rewrite El; unfold sa; cbn [trace set_trace]; rewrite Eg, <- !app_assoc;
          reflexivity ].
    intro Hin. apply in_or_app. right. cbn [app]. right. left.
    apply in_app_or in Hin. destruct Hin as [Hin | Hin]; [ destruct (Hnone lg Fg Hin) | ].
    cbn [app] in Hin. destruct Hin as [Hin | [Hin | Hin]]; try discriminate.
    assert (Hown : sends_to own (SockSend sock request) = true).
    { apply in_app_or in Hin. destruct Hin as [Hin | Hin].
      - rewrite Forall_forall in Fv. apply Fv, Hin.
      - rewrite Forall_forall in Fk. apply Fk, Hin. }
    cbn [sends_to] in Hown. apply Nat.eqb_eq in Hown. subst sock. reflexivity. }
  destruct (validate_target w nspid ns_link_name own sa) as [[u1 | e1] s3]; cbn [snd] in Ev.
  - destruct (Hk own s3) as [lk [Ek Fk]].
    apply (Hfinish _ lk); [ rewrite Ek, Ev, <- app_assoc; reflexivity | exact Fk ].
  - cbn [snd]. apply (Hfinish _ []); [ rewrite Ev, app_nil_r; reflexivity | constructor ].
Qed.

Lemma control_command_is_control (sock : WebSocket) (module_path action : string) :
  is_control (SockSend sock (node.evaluate_request (node.dso_expression module_path action)))
  = true.
Proof. reflexivity. Qed.

Lemma attach_try_split (w : World) (process : Process) (s0 : state) :
  node.generate_map_for_node_processes_try w process s0 =
  match attach_preamble w process s0 with
  | (Ok (dest, expected_pid, expected_link), s1) =>
      node._generate_perf_map w dest expected_pid expected_link s1
  | (Raise e, s1) => (Raise e, s1)
  end.
Proof.
  unfold node.generate_map_for_node_processes_try, attach_preamble, Extern.run_in_ns.
  repeat (rewrite !bind_run;
          match goal with
          | |- context [ match ?m s0 with _ => _ end ] => destruct (m s0) as [[? | ?] ?]
          | |- context [ match ?m ?st with _ => _ end ] =>
              is_var st; destruct (m st) as [[? | ?] ?]
          end; try reflexivity).
Qed.

Lemma any_trace {A : Type} (m : M A) (s : state) :
  respects (emitting any_event) m -> exists l, trace (snd (m s)) = trace s ++ l.
Proof. intro H. destruct (H s) as [l [E _]]. exists l. exact E. Qed.

Ltac any_walk := respects_walk ltac:(emitting_side ltac:(exact I)).

(** The expected pid and link of an attach session are the answers the
    caller got just before it woke the inspector, in the same attempt. *)
Lemma attach_preamble_reads (w : World) (process : Process) (s0 s1 : state)
  (dest : string) (expected_pid : Z) (expected_link : string) :
  attach_preamble w process s0 = (Ok (dest, expected_pid, expected_link), s1) ->
  exists before,
    trace s1 =
      trace s0 ++ before ++ identity_questions process ++
      [OsKill (pid process) SIGUSR1; RunInNs ["pid"; "mnt"; "net"] (pid process)] /\
    ans_get_process_nspid w (trace s0 ++ before ++ firstn 1 (identity_questions process)) =
      Ok expected_pid /\
    ans_readlink w (trace s0 ++ before ++ identity_questions process) = Ok expected_link.
Proof.
  unfold attach_preamble.
  rewrite bind_run.
  destruct (any_trace (Extern.is_musl w process) s0 ltac:(any_walk)) as [l1 E1].
  destruct (Extern.is_musl w process s0) as [[musl | e] sa]; [ | discriminate ].
  rewrite bind_run.
  destruct (any_trace (node._get_node_major_version w process) sa ltac:(any_walk))
    as [l2 E2].
  destruct (node._get_node_major_version w process sa) as [[version | e] sb];
    [ | discriminate ].
  rewrite bind_run.
  destruct (any_trace (node._copy_module_into_process_ns w process musl version) sb
              ltac:(any_walk)) as [l3 E3].
  destruct (node._copy_module_into_process_ns w process musl version sb) as [[d | e] sc];
    [ | discriminate ].
  cbn [snd] in E1, E2, E3.
  assert (Hc : exists before, trace sc = trace s0 ++ before).
  { exists (l1 ++ l2 ++ l3). rewrite E3, E2, E1, <- !app_assoc. reflexivity. }
  destruct Hc as [before Hc]. clear E1 E2 E3.
  unfold Extern.get_process_nspid, Extern.os_readlink, node._start_debugger, Extern.os_kill.
  rewrite bind_run. unfold call at 1. cbv zeta.
  destruct (ans_get_process_nspid w (trace sc ++ [GetProcessNspid (pid process)]))
    as [n | e] eqn:Hn; [ | discriminate ].
  rewrite bind_run. unfold call at 1. cbn [trace set_trace].
  destruct (ans_readlink w _) as [link | e] eqn:Hl; [ | discriminate ].
  rewrite bind_run. unfold call at 1. cbn [trace set_trace].
  destruct (ans_os_kill w _) as [[] | e]; [ | discriminate ].
  rewrite bind_run. unfold call at 1. cbn [trace set_trace].
  destruct (ans_run_in_ns w _) as [[] | e]; [ | discriminate ].
  unfold ret. intro H. injection H as <- <- <- <-.
  exists before. unfold identity_questions. cbn [firstn trace set_trace].
  rewrite ?Hc in Hn, Hl |- *.
  repeat (rewrite <- app_assoc in Hn); repeat (rewrite <- app_assoc in Hl);
    repeat (rewrite <- app_assoc).
  cbn [app] in Hn, Hl |- *.
  split; [ reflexivity | ]. split; [ exact Hn | exact Hl ].
Qed.

Lemma detach_try_split (w : World) (process : Process) (s0 : state) :
  node.clean_up_node_maps_try w process s0 =
  match detach_preamble w process s0 with
  | (Ok (Some (dest, expected_pid, expected_link)), s1) =>
      node._clean_up w dest expected_pid expected_link s1
  | (Ok None, s1) => (Ok tt, s1)
  | (Raise e, s1) => (Raise e, s1)
  end.
Proof.
  unfold node.clean_up_node_maps_try, detach_preamble, Extern.run_in_ns.
  rewrite !bind_run.
  destruct (Extern.is_process_running w process s0) as [[[|] | ?] ?]; cbn [negb];
    try reflexivity.
  repeat (rewrite !bind_run;
          match goal with
          | |- context [ match ?m ?st with _ => _ end ] =>
              is_var st; destruct (m st) as [[? | ?] ?]
          end; try reflexivity).
Qed.

(** The same for a detach session: the answers are those of this attempt,
    asked before the path of the payload is looked up. *)
Lemma detach_preamble_reads (w : World) (process : Process) (s0 s1 : state)
  (dest : string) (expected_pid : Z) (expected_link : string) :
  detach_preamble w process s0 = (Ok (Some (dest, expected_pid, expected_link)), s1) ->
  exists before after,
    trace s1 = trace s0 ++ before ++ identity_questions process ++ after /\
    ans_get_process_nspid w (trace s0 ++ before ++ firstn 1 (identity_questions process)) =
      Ok expected_pid /\
    ans_readlink w (trace s0 ++ before ++ identity_questions process) = Ok expected_link.
Proof.
  unfold detach_preamble.
  rewrite bind_run. unfold Extern.is_process_running at 1, ask at 1. cbv zeta.
  destruct (ans_is_process_running w _); cbn [negb]; [ | discriminate ].
  rewrite bind_run.
  set (sa := set_trace (trace s0 ++ [IsProcessRunning process]) s0).
  destruct (any_trace (node._get_node_major_version w process) sa ltac:(any_walk))
    as [l2 E2].
  destruct (node._get_node_major_version w process sa) as [[version | e] sb];
    [ | discriminate ].
  cbn [snd] in E2.
  assert (Hb : exists before, trace sb = trace s0 ++ before).
  { exists (IsProcessRunning process :: l2). rewrite E2. subst sa. cbn [trace set_trace].
    rewrite <- app_assoc. reflexivity. }
  destruct Hb as [before Hb]. clear E2.
  unfold Extern.get_process_nspid, Extern.os_readlink, Extern.is_musl.
  rewrite bind_run. unfold call at 1. cbv zeta.
  destruct (ans_get_process_nspid w (trace sb ++ [GetProcessNspid (pid process)]))
    as [n | e] eqn:Hn; [ | discriminate ].
  rewrite bind_run. unfold call at 1. cbn [trace set_trace].
  destruct (ans_readlink w _) as [link | e] eqn:Hl; [ | discriminate ].
  rewrite bind_run. unfold call at 1. cbn [trace set_trace].
  destruct (ans_is_musl w _) as [musl | e]; [ | discriminate ].
  rewrite bind_run.
  match goal with
  | |- context [ node._get_dest_inside_container w musl version ?st ] =>
      destruct (any_trace (node._get_dest_inside_container w musl version) st
                  ltac:(any_walk)) as [l3 E3];
      destruct (node._get_dest_inside_container w musl version st) as [[d | e] sc]
  end; [ | discriminate ].
  cbn [snd trace set_trace] in E3.
  rewrite bind_run. unfold call at 1. cbv zeta.
  destruct (ans_run_in_ns w _) as [[] | e]; [ | discriminate ].
  unfold ret. intro H. injection H as <- <- <- <-.
  exists before, (IsMusl process :: l3 ++ [RunInNs ["pid"; "mnt"; "net"] (pid process)]).
  unfold identity_questions. cbn [firstn trace set_trace].
  rewrite ?Hb in Hn, Hl, E3.
  repeat (rewrite <- app_assoc in Hn); repeat (rewrite <- app_assoc in Hl);
    repeat (rewrite <- app_assoc in E3).
  cbn [app] in Hn, Hl, E3.
  split; [ | split; [ exact Hn | exact Hl ] ].
  rewrite E3. repeat (rewrite <- app_assoc). reflexivity.
Qed.

(** C2, amended.  For attach ([_generate_perf_map]) and detach ([_clean_up])
    alike: the session part, [create_debugger_socket], sends no
    payload-control command, and when it raises the call ends there with
    the same exception; a socket it returns belongs to a session that was
    opened and whose target answered the link question and then the pid
    question as expected; once the session is open and the target has
    answered, an answer that differs from the expected link, or after a
    matching link from the expected pid, ends the call with an
    [AssertionError] (the failed [assert] of the validation) in the state
    where the answer arrived, no control command sent; a reported link or
    pid that is another string or integer than the expected one does
    differ; and every message of the call goes to the socket the call
    itself opened.  The expected values are not kept from an earlier
    attach: the [try] blocks of [generate_map_for_node_processes] and
    [clean_up_node_maps] call the session with the namespace-local pid and
    the pid-namespace link they were answered in the same attempt, before
    the session. *)
Theorem session_validates_its_target (w : World) (module_path : string) (nspid : Z)
  (ns_link_name : string) (s : state) :
  Forall (fun ev => is_control ev = false)
    (since s (snd (node.create_debugger_socket w nspid ns_link_name s))) /\
  (forall sock action,
     is_control (SockSend sock (node.evaluate_request (node.dso_expression module_path action)))
     = true) /\
  (forall e s',
     node.create_debugger_socket w nspid ns_link_name s = (Raise e, s') ->
     node._generate_perf_map w module_path nspid ns_link_name s = (Raise e, s') /\
     node._clean_up w module_path nspid ns_link_name s = (Raise e, s')) /\
  (forall sock s',
     node.create_debugger_socket w nspid ns_link_name s = (Ok sock, s') ->
     exists s2, session_opened w s sock s2 /\ validated w nspid ns_link_name sock s2 s') /\
  (forall sock s2 v_link s3,
     session_opened w s sock s2 ->
     node._execute_js_command w sock node.ns_link_command s2 = (Ok v_link, s3) ->
     (eq_str v_link ns_link_name = false ->
      let failure :=
        Raise (AssertionError "Wrong namespace, expected {}, got {}"
                 [JStr ns_link_name; v_link]) in
      node._generate_perf_map w module_path nspid ns_link_name s = (failure, s3) /\
      node._clean_up w module_path nspid ns_link_name s = (failure, s3) /\
      Forall (fun ev => is_control ev = false) (since s s3)) /\
     (eq_str v_link ns_link_name = true ->
      forall v_pid s4,
        node._execute_js_command w sock "process.pid" s3 = (Ok v_pid, s4) ->
        eq_int nspid v_pid = false ->
        let failure :=
          Raise (AssertionError "Wrong pid, expected {}, actual {}" [JInt nspid; v_pid]) in
        node._generate_perf_map w module_path nspid ns_link_name s = (failure, s4) /\
        node._clean_up w module_path nspid ns_link_name s = (failure, s4) /\
        Forall (fun ev => is_control ev = false) (since s s4))) /\
  (forall reported, reported <> ns_link_name -> eq_str (JStr reported) ns_link_name = false) /\
  (forall reported, reported <> nspid -> eq_int nspid (JInt reported) = false) /\
  (forall sock request,
     In (SockSend sock request)
       (since s (snd (node._generate_perf_map w module_path nspid ns_link_name s))) ->
     In (Connected sock)
       (since s (snd (node._generate_perf_map w module_path nspid ns_link_name s)))) /\
  (forall sock request,
     In (SockSend sock request)
       (since s (snd (node._clean_up w module_path nspid ns_link_name s))) ->
     In (Connected sock)
       (since s (snd (node._clean_up w module_path nspid ns_link_name s)))) /\
  (forall process s0,
     node.generate_map_for_node_processes_try w process s0 =
       match attach_preamble w process s0 with
       | (Ok (dest, expected_pid, expected_link), s1) =>
           node._generate_perf_map w dest expected_pid expected_link s1
       | (Raise e, s1) => (Raise e, s1)
       end /\
     node.clean_up_node_maps_try w process s0 =
       match detach_preamble w process s0 with
       | (Ok (Some (dest, expected_pid, expected_link)), s1) =>
           node._clean_up w dest expected_pid expected_link s1
       | (Ok None, s1) => (Ok tt, s1)
       | (Raise e, s1) => (Raise e, s1)
       end) /\
  (forall process s0 s1 dest expected_pid expected_link,
     attach_preamble w process s0 = (Ok (dest, expected_pid, expected_link), s1) ->
     exists before,
       trace s1 =
         trace s0 ++ before ++ identity_questions process ++
         [OsKill (pid process) SIGUSR1; RunInNs ["pid"; "mnt"; "net"] (pid process)] /\
       ans_get_process_nspid w
         (trace s0 ++ before ++ firstn 1 (identity_questions process)) = Ok expected_pid /\
       ans_readlink w (trace s0 ++ before ++ identity_questions process) =
         Ok expected_link) /\
  (forall process s0 s1 dest expected_pid expected_link,
     detach_preamble w process s0 = (Ok (Some (dest, expected_pid, expected_link)), s1) ->
     exists before after,
       trace s1 = trace s0 ++ before ++ identity_questions process ++ after /\
       ans_get_process_nspid w
         (trace s0 ++ before ++ firstn 1 (identity_questions process)) = Ok expected_pid /\
       ans_readlink w (trace s0 ++ before ++ identity_questions process) =
         Ok expected_link).
Proof.
  assert (Hquiet : Forall (fun ev => is_control ev = false)
                     (since s (snd (node.create_debugger_socket w nspid ns_link_name s)))).
  { destruct (create_debugger_socket_no_control w nspid ns_link_name s) as [l [E F]].
    rewrite (since_app _ _ _ E). exact F. }
  split; [ exact Hquiet | ].
  split; [ intros; apply control_command_is_control | ].
  split; [ intros e s'; apply failed_session_ends_the_call | ].
  split; [ intros sock s'; apply returned_socket_validated | ].
  split.
  { intros sock s2 v_link s3 Hopen Hlink. split.
    - intros Heq failure.
      pose proof (wrong_link_fails w nspid ns_link_name s sock s2 s3 v_link Hopen Hlink Heq)
        as Hfail.
      destruct (failed_session_ends_the_call w module_path nspid ns_link_name s s3 _ Hfail)
        as [Ha Hd].
      split; [ exact Ha | ]. split; [ exact Hd | ].
      rewrite Hfail in Hquiet. exact Hquiet.
    - intros Heq v_pid s4 Hpid Heqp failure.
      pose proof (wrong_pid_fails w nspid ns_link_name s sock s2 s3 s4 v_link v_pid
                    Hopen Hlink Heq Hpid Heqp) as Hfail.
      destruct (failed_session_ends_the_call w module_path nspid ns_link_name s s4 _ Hfail)
        as [Ha Hd].
      split; [ exact Ha | ]. split; [ exact Hd | ].
      rewrite Hfail in Hquiet. exact Hquiet. }
  split.
  { intros reported H. cbn [eq_str]. apply String.eqb_neq. exact H. }
  split.
  { intros reported H. cbn [eq_int]. apply Z.eqb_neq. congruence. }
  split.
  - intros sock request.
    apply (session_sends_on_its_socket w nspid ns_link_name
             (fun sock => node._change_dso_state w sock module_path "start") s).
    intro k. apply _change_dso_state_sends.
  - split.
    { intros sock request.
      apply (session_sends_on_its_socket w nspid ns_link_name
               (fun sock =>
                  try_finally (node._change_dso_state w sock module_path "stop")
                    (Extern.os_remove w
                       (os_path_join "/tmp" [("perf-" ++ str_int nspid ++ ".map")%string])))
               s).
      intro k.
      apply (respects_try_finally (emitting (fun ev => sends_to k ev = true)));
        [ apply _change_dso_state_sends | ].
      respects_walk ltac:(emitting_side ltac:(reflexivity)). }
    split.
    { intros process s0. split; [ apply attach_try_split | apply detach_try_split ]. }
    split.
    { intros process s0 s1 dest expected_pid expected_link.
      apply attach_preamble_reads. }
    intros process s0 s1 dest expected_pid expected_link. apply detach_preamble_reads.
Qed.

Lemma session_validates_its_target_witness :
  exists s3,
    node._generate_perf_map Runs.moved_world "/tmp/module" 7 "pid:[4026531836]"
      Examples.initial_state
    = (Raise (AssertionError "Wrong namespace, expected {}, got {}"
                [JStr "pid:[4026531836]"; JStr "pid:[4026532999]"]), s3) /\
    node._clean_up Runs.moved_world "/tmp/module" 7 "pid:[4026531836]"
      Examples.initial_state
    = (Raise (AssertionError "Wrong namespace, expected {}, got {}"
                [JStr "pid:[4026531836]"; JStr "pid:[4026532999]"]), s3) /\
    Forall (fun ev => is_control ev = false) (since Examples.initial_state s3).
Proof.
  eexists.
  refine (proj1 (proj1 (proj2 (proj2 (proj2 (proj2
            (session_validates_its_target Runs.moved_world "/tmp/module" 7
               "pid:[4026531836]" Examples.initial_state)))))
            1 _ (JStr "pid:[4026532999]") _ _ _) eq_refl).
  - eexists. eexists. split; reflexivity.
  - reflexivity.
Defined.

(** C2 as it is stated does not hold: a re-run of attach on a target whose
    pid-namespace link has changed since the prior attach does not fail.
    The second run reads the link anew, the target reports that link, the
    validation passes, the control command is sent and no warning is
    logged. *)
Lemma rerun_after_a_link_change_attaches :
  let process := mkProcess 100 5 in
  let dest := "/tmp/gprofiler_tmp/node_module/abcdef0/glibc/16" in
  let first := node.generate_map_for_node_processes MoreRuns.relinked_world [process]
                 Examples.initial_state in
  let second := node.generate_map_for_node_processes MoreRuns.relinked_world [process]
                  (snd first) in
  fst (attach_preamble MoreRuns.relinked_world process Examples.initial_state) =
    Ok (dest, 7%Z, "pid:[4026531836]") /\
  fst first = Ok tt /\
  Forall (fun ev => is_warning ev = false) (since Examples.initial_state (snd first)) /\
  fst (attach_preamble MoreRuns.relinked_world process (snd first)) =
    Ok (dest, 7%Z, "pid:[4026532999]") /\
  fst (node.generate_map_for_node_processes_try MoreRuns.relinked_world process (snd first)) =
    Ok tt /\
  fst second = Ok tt /\
  Forall (fun ev => is_warning ev = false) (since (snd first) (snd second)) /\
  exists sock,
    In (SockSend sock (node.evaluate_request (node.dso_expression dest "start")))
      (since (snd first) (snd second)).
Proof.
  cbv zeta.
  split; [ vm_compute; reflexivity | ].
  split; [ vm_compute; reflexivity | ].
  split; [ vm_compute; repeat constructor | ].
  split; [ vm_compute; reflexivity | ].
  split; [ vm_compute; reflexivity | ].
  split; [ vm_compute; reflexivity | ].
  split; [ vm_compute; repeat constructor | ].
  eexists. vm_compute.
  repeat (first [ left; reflexivity | right ]).
Qed.

(** * Further properties *)

(** ** The sampling controller *)

#[export] Instance heap_elsewhere_order (self : ref) : StepOrder (heap_elsewhere self).
Proof.
  split; unfold heap_elsewhere.
  - reflexivity.
  - intros a b c H1 H2 r Hr. rewrite (H2 r Hr). apply H1, Hr.
Qed.

(** Events that end no subprocess leave the running ones running. *)
Lemma running_kept (l : list event) :
  Forall (fun ev => match ev with Kill _ | Wait _ => False | _ => True end) l ->
  forall live q, In q live -> In q (fold_left track l live).
Proof.
  induction 1 as [| ev l Hev F IH]; intros live q Hq; [ exact Hq | ].
  cbn [fold_left]. apply IH.
  destruct ev; cbn [track]; try exact Hq; try contradiction.
  apply in_cons. exact Hq.
Qed.

(** X1.  The command line of a controller: [__init__] followed by
    [_get_perf_cmd] never fails on the table of buffer sizes, asks for 129
    pages in frame-pointer mode and 257 in DWARF mode, always rotates on a
    signal, puts the caller's extra arguments after the fixed ones and
    [-k 1] last, and only with injection. *)
Theorem command_of_a_new_controller (w : World) (frequency : Z) (output_path : string)
  (is_dwarf inject_jit : bool) (extra_args : list string) (s : state) :
  exists self s1,
    PerfProcess.__init__ frequency output_path is_dwarf inject_jit extra_args s = (Ok self, s1) /\
    PerfProcess._get_perf_cmd w self s1 =
      (Ok ([perf_path w; "record"; "-F"; str_int frequency; "-a"; "-g"; "-o"; output_path;
            "--switch-output=signal"; "-m"; if is_dwarf then "257" else "129"]
           ++ extra_args ++ (if inject_jit then ["-k"; "1"] else [])), s1).
Proof.
  eexists. eexists. split; [ reflexivity | ].
  unfold PerfProcess._get_perf_cmd. rewrite bind_run. unfold deref at 1.
  cbn [heap set_heap]. rewrite Nat.eqb_refl. cbn [_type _frequency _output_path _extra_args].
  destruct is_dwarf; reflexivity.
Qed.

(** X2.  [SystemProfiler.__init__] by mode: [fp] builds the frame-pointer
    controller alone, [dwarf] the DWARF controller alone, [smart] both with
    the frame-pointer one first, and any other mode fails the assertion.
    The controllers write to [perf.fp] and [perf.dwarf] under the storage
    directory, hold no handle, and nothing is launched. *)
Theorem controllers_by_mode (w : World) (frequency duration : Z) (storage_dir : string)
  (profile_spawned_processes : bool) (perf_mode : string) (perf_dwarf_stack_size : Z)
  (perf_inject perf_node_attach : bool) (s : state) (f d : Z) (dir : string) :
  ans_ProfilerBase_init w frequency duration storage_dir = Ok (f, d, dir) ->
  let r := next_ref s in
  let fp :=
    mkPerfProcess f (os_path_join dir ["perf.fp"]) "fp" perf_inject
      (if perf_inject then ["-k"; "1"] else []) None in
  let dwarf :=
    mkPerfProcess f (os_path_join dir ["perf.dwarf"]) "dwarf" false
      ["--call-graph"; ("dwarf," ++ str_int perf_dwarf_stack_size)%string] None in
  let run :=
    SystemProfiler.__init__ w frequency duration storage_dir profile_spawned_processes
      perf_mode perf_dwarf_stack_size perf_inject perf_node_attach s in
  trace (snd run) = trace s /\
  (perf_mode = "fp" ->
   exists self, fst run = Ok self /\
     SystemProfiler._perfs self = [r] /\
     SystemProfiler._perf_fp self = Some r /\ SystemProfiler._perf_dwarf self = None /\
     heap (snd run) r = fp) /\
  (perf_mode = "dwarf" ->
   exists self, fst run = Ok self /\
     SystemProfiler._perfs self = [r] /\
     SystemProfiler._perf_fp self = None /\ SystemProfiler._perf_dwarf self = Some r /\
     heap (snd run) r = dwarf) /\
  (perf_mode = "smart" ->
   exists self, fst run = Ok self /\
     SystemProfiler._perfs self = [r; S r] /\
     SystemProfiler._perf_fp self = Some r /\ SystemProfiler._perf_dwarf self = Some (S r) /\
     heap (snd run) r = fp /\ heap (snd run) (S r) = dwarf) /\
  (perf_mode <> "fp" -> perf_mode <> "dwarf" -> perf_mode <> "smart" ->
   fst run = Raise (AssertionError "" [])).
Proof.
  intros Hbase r fp dwarf run. subst run r fp dwarf.
  unfold SystemProfiler.__init__. rewrite Hbase.
  assert (Hne : forall n, Nat.eqb n (S n) = false) by (intro n; apply Nat.eqb_neq; lia).
  cbv [bind lift modify ret raise py_assert new_collector PerfProcess.__init__
       SystemProfiler.mode_in existsb].
  destruct (String.eqb_spec perf_mode "fp") as [-> | Hfp];
    [ | destruct (String.eqb_spec perf_mode "dwarf") as [-> | Hdwarf];
        [ | destruct (String.eqb_spec perf_mode "smart") as [-> | Hsmart] ] ];
    cbn [String.eqb Ascii.eqb Bool.eqb orb andb fst snd trace heap next_ref set_heap
         set_node_processes set_next_collector];
    (split; [ reflexivity | split; [ | split; [ | split ] ] ]);
    try (intro H; discriminate H); try (intro H; contradiction);
    try (intros; contradiction); try (intros; reflexivity); intros _.
  - eexists. split; [ reflexivity | ].
    cbn [SystemProfiler._perfs SystemProfiler._perf_fp SystemProfiler._perf_dwarf
         SystemProfiler.opt_list app heap set_heap].
    rewrite Nat.eqb_refl. repeat split.
  - eexists. split; [ reflexivity | ].
    cbn [SystemProfiler._perfs SystemProfiler._perf_fp SystemProfiler._perf_dwarf
         SystemProfiler.opt_list app heap set_heap].
    rewrite Nat.eqb_refl. repeat split.
  - eexists. split; [ reflexivity | ].
    cbn [SystemProfiler._perfs SystemProfiler._perf_fp SystemProfiler._perf_dwarf
         SystemProfiler.opt_list app heap set_heap].
    rewrite !Nat.eqb_refl, Hne. repeat split.
Qed.

Lemma controllers_by_mode_witness :
  fst (SystemProfiler.__init__ Examples.quiet_world 11 60 "/tmp/st" false "lbr" 8192 true true
         Examples.initial_state) = Raise (AssertionError "" []).
Proof.
  apply (controllers_by_mode Examples.quiet_world 11 60 "/tmp/st" false "lbr" 8192 true true
           Examples.initial_state 11 60 "/tmp/st").
  - reflexivity.
  - discriminate.
  - discriminate.
  - discriminate.
Defined.

(** Unfolds the combinators of a computation applied to a state. *)
Ltac run :=
  cbv [bind ret raise lift emit ask call get_state modify deref py_assert try_except
       try_except_else try_finally assign_process];
  cbn [trace heap next_ref _node_processes cache_dso_git_rev cache_dest_inside_container
       cache_golang_version next_collector set_trace set_heap set_node_processes
       set_cache_dso_git_rev set_cache_dest_inside_container set_cache_golang_version
       set_next_collector fst snd].

(** X3.  [wait_and_script] on a controller that was never started: the wait for
    the rotated file is made, and whatever it gives, the call raises the
    bare [AssertionError] of the missing handle; nothing is converted and
    nothing is removed. *)
Theorem collect_needs_a_started_controller (w : World) (self : ref) (s : state) :
  _process (heap s self) = None ->
  PerfProcess.wait_and_script w self s =
    (Raise (AssertionError "" []),
     set_trace (trace s ++ [WaitForFileByPrefix (_output_path (heap s self) ++ ".") 5]) s).
Proof.
  intro Hnone.
  unfold PerfProcess.wait_and_script, PerfProcess.dump_failed, PerfProcess.read_stderr,
    Extern.wait_for_file_by_prefix.
  run. rewrite Hnone.
  destruct (ans_wait_for_file_by_prefix w _) as [data | e]; run; rewrite ?Hnone;
    [ reflexivity | ].
  destruct (is_Exception e); run; rewrite ?Hnone; reflexivity.
Qed.

Lemma collect_needs_a_started_controller_witness :
  PerfProcess.wait_and_script Examples.quiet_world 0 Runs.built_state =
    (Raise (AssertionError "" []),
     set_trace
       (trace Runs.built_state ++
        [WaitForFileByPrefix (_output_path (heap Runs.built_state 0) ++ ".") 5])
       Runs.built_state).
Proof.
  apply (collect_needs_a_started_controller Examples.quiet_world 0 Runs.built_state).
  reflexivity.
Defined.

(** X4.  [start] catches [TimeoutError] alone.  When the wait for the output
    file ends with any other exception (the stop signal, for one), the
    exception leaves [start] as it is, and the subprocess just launched is
    neither killed nor kept: it is still running, the controller holds the
    handle it held before, and a [stop] of a controller without a handle
    does nothing about it. *)
Theorem interrupted_start_orphans_the_sampler (w : World) (self : ref) (s : state)
  (pipes : bool * bool) (e : exn) :
  _type (heap s self) = "fp" \/ _type (heap s self) = "dwarf" ->
  (forall h, ans_start_process w h = Ok pipes) ->
  (forall h, ans_wait_event w (h ++ [WaitEvent 5 (_output_path (heap s self))]) = Raise e) ->
  is_TimeoutError e = false ->
  exists cmd,
    let id := S (List.length (trace s)) in
    let events :=
      [Log INFO "Starting perf ({} mode)" [LStr (_type (heap s self))];
       StartProcess cmd; Started id; WaitEvent 5 (_output_path (heap s self))] in
    let s' := set_trace (trace s ++ events) s in
    PerfProcess.start w self s = (Raise e, s') /\
    In id (running (trace s')) /\
    (_process (heap s self) = None -> PerfProcess.stop self s' = (Ok tt, s')).
Proof.
  intros Hty Hlaunch Hwait Hclass.
  assert (Hpages : exists pages,
            PerfProcess.mmap_size (_type (heap s self)) PerfProcess._mmap_sizes = Ok pages).
  { destruct Hty as [-> | ->]; eexists; reflexivity. }
  destruct Hpages as [pages Hpages].
  eexists. cbv zeta. split; [ | split ].
  - unfold PerfProcess.start, PerfProcess._get_perf_cmd, Extern.start_process,
      Extern.wait_event.
    run. rewrite Hpages. run. rewrite Hlaunch. run.
    unfold PerfProcess._poll_timeout_s. rewrite Hwait, Hclass.
    rewrite <- !app_assoc. cbn [app]. rewrite length_app. cbn [List.length]. rewrite Nat.add_1_r. reflexivity.
  - cbn [trace set_trace]. rewrite running_app. cbn [fold_left track]. left. reflexivity.
  - intro Hnone. rewrite stop_run. cbn [heap set_trace]. rewrite Hnone. reflexivity.
Qed.

Lemma interrupted_start_orphans_the_sampler_witness :
  exists cmd,
    PerfProcess.start MoreRuns.interrupted_world 0 Runs.built_state =
      (Raise StopEventSetException,
       set_trace
         (trace Runs.built_state ++
          [Log INFO "Starting perf ({} mode)" [LStr (_type (heap Runs.built_state 0))];
           StartProcess cmd; Started (S (List.length (trace Runs.built_state)));
           WaitEvent 5 (_output_path (heap Runs.built_state 0))])
         Runs.built_state).
Proof.
  destruct (interrupted_start_orphans_the_sampler MoreRuns.interrupted_world 0
              Runs.built_state (true, true) StopEventSetException
              (or_introl eq_refl) (fun _ => eq_refl) (fun _ => eq_refl) eq_refl)
    as [cmd [H _]].
  exists cmd. exact H.
Defined.

(** What a [start] that returns has done to the subprocesses and to the
    controllers. *)
Lemma start_launches (w : World) (self : ref) (s s1 : state) :
  PerfProcess.start w self s = (Ok tt, s1) ->
  exists process,
    _process (heap s1 self) = Some process /\
    running (trace s1) = popen_id process :: running (trace s) /\
    heap_elsewhere self s s1.
Proof.
  intro Hstart. destruct (start_ok w self s s1 Hstart) as [process [cmd [Hp [Hid [Hty Htr]]]]].
  exists process. split; [ exact Hp | ]. split.
  - rewrite Htr, running_app. reflexivity.
  - assert (H : respects (heap_elsewhere self) (PerfProcess.start w self)).
    { respects_walk ltac:(intros; intros r Hr; cbn [heap set_heap set_trace];
                          try (apply Nat.eqb_neq in Hr; rewrite Hr); reflexivity). }
    specialize (H s). rewrite Hstart in H. exact H.
Qed.

(** X5.  A [start] that returns keeps the handle of the subprocess it launched,
    which is running; it ends no subprocess that ran before, not even one
    the controller held a handle of; and it leaves the other controllers as
    they are. *)
Theorem start_keeps_the_launched_sampler (w : World) (self : ref) (s s1 : state) :
  PerfProcess.start w self s = (Ok tt, s1) ->
  exists process,
    _process (heap s1 self) = Some process /\
    In (popen_id process) (running (trace s1)) /\
    (forall q, In q (running (trace s)) -> In q (running (trace s1))) /\
    heap_elsewhere self s s1.
Proof.
  intro Hstart. destruct (start_launches w self s s1 Hstart) as [process [Hp [Hrun Hother]]].
  exists process. split; [ exact Hp | ]. rewrite Hrun. split; [ left; reflexivity | ].
  split; [ intros q Hq; right; exact Hq | exact Hother ].
Qed.

Lemma start_keeps_the_launched_sampler_witness :
  exists process,
    _process (heap Runs.fp_started_state 0) = Some process /\
    In (popen_id process) (running (trace Runs.fp_started_state)).
Proof.
  destruct (start_keeps_the_launched_sampler Examples.quiet_world 0 Runs.built_state
              Runs.fp_started_state eq_refl) as [process [H1 [H2 _]]].
  exists process. split; [ exact H1 | exact H2 ].
Defined.



(** X7.  The collect step when every tool succeeds: the standard error is
    drained, the rotated file is converted by [perf script] and removed, and
    the decoded text is returned.  With injection the file first goes
    through [perf inject --jit] into a file with the suffix [.inject], the
    raw file is removed, and the injected file is the one converted and
    removed. *)
Theorem collect_converts_and_removes (w : World) (self : ref) (s : state)
  (process : Popen) (err : pipe) (data : string) (output : bytes) (text : string) :
  _process (heap s self) = Some process ->
  stderr process = Some err ->
  (forall h, ans_wait_for_file_by_prefix w h = Ok data) ->
  (forall h, ans_run_process w h = Ok output) ->
  (forall h, ans_unlink w h = Ok tt) ->
  utf8_decode w output = Some text ->
  exists b,
    let final := if _inject_jit (heap s self) then (data ++ ".inject")%string else data in
    PerfProcess.wait_and_script w self s =
      (Ok text,
       set_trace
         (trace s ++
          [WaitForFileByPrefix (_output_path (heap s self) ++ ".") 5;
           PipeRead1 err 4096; Log DEBUG "perf stderr: {}" [LBytes b]] ++
          (if _inject_jit (heap s self)
           then [RunProcess [perf_path w; "inject"; "--jit"; "-o"; final; "-i"; data];
                 Unlink data]
           else []) ++
          [RunProcess [perf_path w; "script"; "-F"; "+pid"; "-i"; final]; Unlink final])
         s).
Proof.
  intros Hp Herr Hwait Hrun Hunlink Hdecode.
  eexists. cbv zeta.
  unfold PerfProcess.wait_and_script, PerfProcess.read_stderr,
    Extern.wait_for_file_by_prefix, Extern.read1, Extern.run_process, Extern.unlink,
    Extern.decode, PerfProcess._dump_timeout_s.
  run. rewrite Hwait.
  repeat (progress (run; rewrite ?Hp, ?Herr)).
  destruct (_inject_jit (heap s self)); run;
    rewrite ?Hrun; run; rewrite ?Hunlink; run; rewrite ?Hrun; run; rewrite ?Hunlink; run;
    rewrite Hdecode; rewrite <- ?app_assoc; cbn [app]; reflexivity.
Qed.

Lemma collect_converts_and_removes_witness :
  exists b,
    PerfProcess.wait_and_script Examples.quiet_world 0 Runs.fp_started_state =
      (Ok "",
       set_trace
         (trace Runs.fp_started_state ++
          [WaitForFileByPrefix "/tmp/st/perf.fp." 5;
           PipeRead1 (Pipe 1 Stderr) 4096; Log DEBUG "perf stderr: {}" [LBytes b];
           RunProcess ["/usr/bin/perf"; "inject"; "--jit"; "-o"; "/tmp/perf.fp.2022.inject";
                       "-i"; "/tmp/perf.fp.2022"];
           Unlink "/tmp/perf.fp.2022";
           RunProcess ["/usr/bin/perf"; "script"; "-F"; "+pid"; "-i";
                       "/tmp/perf.fp.2022.inject"];
           Unlink "/tmp/perf.fp.2022.inject"])
         Runs.fp_started_state).
Proof.
  apply (collect_converts_and_removes Examples.quiet_world 0 Runs.fp_started_state
           (mkPopen 1 (Some (Pipe 1 Stdout)) (Some (Pipe 1 Stderr))) (Pipe 1 Stderr)
           "/tmp/perf.fp.2022" [] "").
  - reflexivity.
  - reflexivity.
  - intro h. reflexivity.
  - intro h. reflexivity.
  - intro h. reflexivity.
  - reflexivity.
Defined.

(** X8.  The collect step removes a file only after the tool that reads it has
    succeeded: where every run of [perf] fails, no file is removed,
    whatever else happens. *)
Theorem failed_conversion_removes_nothing (w : World) (self : ref) (s : state) (e : exn) :
  (forall h, ans_run_process w h = Raise e) ->
  Forall (fun ev => is_unlink ev = false)
    (since s (snd (PerfProcess.wait_and_script w self s))).
Proof.
  intro Hrun.
  assert (H : emitting (fun ev => is_unlink ev = false) s
                (snd (PerfProcess.wait_and_script w self s))).
  { unfold PerfProcess.wait_and_script. rewrite bind_run. unfold deref at 1.
    rewrite bind_run.
    match goal with
    | |- context [ try_finally ?m ?f s ] =>
        assert (H1 : respects (emitting (fun ev => is_unlink ev = false)) (try_finally m f))
    end.
    { respects_walk ltac:(emitting_side ltac:(reflexivity)). }
    match goal with
    | |- context [ try_finally ?m ?f s ] =>
        specialize (H1 s); destruct (try_finally m f s) as [[perf_data | e1] s1]
    end; cbn [snd] in *; [ | exact H1 ].
    eapply step_trans; [ exact H1 | ].
    unfold Extern.run_process.
    destruct (_inject_jit (heap s self)); run; rewrite Hrun; cbn [snd];
      apply emitting_event; reflexivity. }
  destruct H as [l [E F]]. rewrite (since_app _ _ _ E). exact F.
Qed.

Lemma failed_conversion_removes_nothing_witness :
  Forall (fun ev => is_unlink ev = false)
    (since Runs.fp_started_state
       (snd (PerfProcess.wait_and_script MoreRuns.broken_perf_world 0 Runs.fp_started_state))).
Proof.
  apply (failed_conversion_removes_nothing MoreRuns.broken_perf_world 0 Runs.fp_started_state
           (OtherException "CalledProcessError")).
  intro h. reflexivity.
Defined.

(** ** The orchestrator's start and stop *)

#[export] Instance samplers_untouched_order : StepOrder samplers_untouched.
Proof.
  split; unfold samplers_untouched.
  - intro s. split; reflexivity.
  - intros a b c [H1 H2] [H3 H4]. split; [ now rewrite H3 | now rewrite H4 ].
Qed.

Lemma node_event_untouched (ev : event) (s : state) :
  node_event ev = true -> samplers_untouched s (set_trace (trace s ++ [ev]) s).
Proof.
  intro H. split; [ reflexivity | ]. cbn [trace set_trace]. rewrite running_app.
  destruct ev; try discriminate H; reflexivity.
Qed.

Lemma clean_up_untouched (w : World) (ps : list Process) :
  respects samplers_untouched (node.clean_up_node_maps w ps).
Proof.
  apply (clean_up_respects samplers_untouched).
  - exact node_event_untouched.
  - intros. split; reflexivity.
  - intros. split; reflexivity.
Qed.

Lemma generate_map_untouched (w : World) (ps : list Process) :
  respects samplers_untouched (node.generate_map_for_node_processes w ps).
Proof.
  apply (generate_map_respects samplers_untouched).
  - exact node_event_untouched.
  - intros. split; reflexivity.
  - intros. split; reflexivity.
Qed.

(** The list comprehension over [is_process_running] asks about every
    process in order and keeps some of them. *)
Lemma filter_running_run (w : World) (l : list Process) :
  forall s, exists kept,
    filter_by (Extern.is_process_running w) l s =
      (Ok kept, set_trace (trace s ++ map IsProcessRunning l) s) /\
    incl kept l.
Proof.
  induction l as [| x rest IH]; intro s.
  - exists []. split; [ | apply incl_refl ].
    cbn [filter_by map]. rewrite app_nil_r. unfold ret, set_trace.
    rewrite <- (state_eta s). reflexivity.
  - cbn [filter_by]. rewrite bind_run. unfold Extern.is_process_running at 1, ask at 1.
    cbv zeta. rewrite bind_run.
    destruct (IH (set_trace (trace s ++ [IsProcessRunning x]) s)) as [kept [E I]].
    rewrite E. cbn [ret trace set_trace map]. rewrite set_trace_set_trace, <- app_assoc.
    cbn [app]. eexists. split; [ reflexivity | ].
    destruct (ans_is_process_running w (trace s ++ [IsProcessRunning x])).
    + intros a [<- | Ha]; [ left; reflexivity | right; apply I, Ha ].
    + intros a Ha. right. apply I, Ha.
Qed.

Lemma asking_tracks_nothing (l : list Process) (live : list nat) :
  fold_left track (map IsProcessRunning l) live = live.
Proof. induction l as [| p ps IH]; [ reflexivity | exact IH ]. Qed.

(** Stopping a list of controllers, one after the other. *)
Lemma stop_each (perfs : list ref) :
  forall s,
    let s' := snd (for_each PerfProcess.stop perfs s) in
    fst (for_each PerfProcess.stop perfs s) = Ok tt /\
    (forall c, In c perfs -> _process (heap s' c) = None) /\
    (forall c, _process (heap s c) = None -> _process (heap s' c) = None) /\
    (forall c, ~ In c perfs -> heap s' c = heap s c) /\
    (forall c process, In c perfs -> _process (heap s c) = Some process ->
                       ~ In (popen_id process) (running (trace s'))) /\
    (forall q, In q (running (trace s')) -> In q (running (trace s))).
Proof.
  induction perfs as [| x rest IH]; intro s; cbv zeta.
  - cbn [for_each ret fst snd].
    split; [ reflexivity | ]. split; [ intros c [] | ]. split; [ intros c H; exact H | ].
    split; [ reflexivity | ]. split; [ intros c p [] | intros q H; exact H ].
  - cbn [for_each]. rewrite bind_run, stop_run.
    destruct (_process (heap s x)) as [process |] eqn:Hx.
    + set (s1 := set_trace _ _).
      destruct (IH s1) as [H1 [H2 [H3 [H4 [H5 H6]]]]].
      assert (Hrun : running (trace s1) = remove Nat.eq_dec (popen_id process) (running (trace s))).
      { subst s1. cbn [trace set_trace]. rewrite running_app. reflexivity. }
      assert (Hx1 : _process (heap s1 x) = None).
      { subst s1. cbn [heap set_trace set_heap]. rewrite Nat.eqb_refl. reflexivity. }
      assert (Hother : forall c, c <> x -> heap s1 c = heap s c).
      { intros c Hc. subst s1. cbn [heap set_trace set_heap].
        apply Nat.eqb_neq in Hc. rewrite Hc. reflexivity. }
      split; [ exact H1 | ]. split; [ | split; [ | split; [ | split ] ] ].
      * intros c [<- | Hc]; [ apply H3, Hx1 | apply H2, Hc ].
      * intros c Hc. apply H3. destruct (Nat.eq_dec c x) as [-> | Hne]; [ exact Hx1 | ].
        rewrite (Hother c Hne). exact Hc.
      * intros c Hc. rewrite H4; [ | intro Hin; apply Hc; right; exact Hin ].
        apply Hother. intros ->. apply Hc. left. reflexivity.
      * intros c p Hc Hp Hin. destruct (Nat.eq_dec c x) as [-> | Hne].
        -- rewrite Hx in Hp. injection Hp as <-. apply H6 in Hin. rewrite Hrun in Hin.
           exact (remove_In _ _ _ Hin).
        -- destruct Hc as [-> | Hc]; [ contradiction | ].
           apply (H5 c p Hc); [ | exact Hin ]. rewrite (Hother c Hne). exact Hp.
      * intros q Hq. apply H6 in Hq. rewrite Hrun in Hq. apply in_remove in Hq. apply Hq.
    + destruct (IH s) as [H1 [H2 [H3 [H4 [H5 H6]]]]].
      split; [ exact H1 | ]. split; [ | split; [ | split; [ | split ] ] ].
      * intros c [<- | Hc]; [ apply H3, Hx | apply H2, Hc ].
      * exact H3.
      * intros c Hc. apply H4. intro Hin. apply Hc. right. exact Hin.
      * intros c p [<- | Hc] Hp; [ rewrite Hx in Hp; discriminate | apply (H5 c p Hc Hp) ].
      * exact H6.
Qed.

(** The outcome of [SystemProfiler.stop]. *)
Lemma system_stop_outcome (w : World) (self : SystemProfiler.t) (s : state) :
  let run := SystemProfiler.stop w self s in
  match fst run with
  | Ok _ =>
      (forall c, In c (SystemProfiler._perfs self) -> _process (heap (snd run) c) = None) /\
      (forall c process,
         In c (SystemProfiler._perfs self) -> _process (heap s c) = Some process ->
         ~ In (popen_id process) (running (trace (snd run))))
  | Raise e => is_Exception e = false /\ SystemProfiler.perf_node_attach self = true
  end /\
  (forall q, In q (running (trace (snd run))) -> In q (running (trace s))).
Proof.
  cbv zeta. unfold SystemProfiler.stop. rewrite bind_run.
  assert (Hnode :
    forall m : M unit,
      m = (if SystemProfiler.perf_node_attach self
           then
             s0 <- get_state ;;
             running <- filter_by (Extern.is_process_running w) (_node_processes s0) ;;
             modify (set_node_processes running) ;;;
             s1 <- get_state ;;
             node.clean_up_node_maps w (_node_processes s1)
           else ret tt) ->
      samplers_untouched s (snd (m s)) /\
      match fst (m s) with
      | Ok _ => True
      | Raise e => is_Exception e = false /\ SystemProfiler.perf_node_attach self = true
      end).
  { intros m ->. destruct (SystemProfiler.perf_node_attach self).
    - destruct (filter_running_run w (_node_processes s) s) as [kept [E _]].
      set (s2 := set_node_processes kept
                   (set_trace (trace s ++ map IsProcessRunning (_node_processes s)) s)).
      match goal with
      | |- samplers_untouched s (snd (?m s)) /\ _ =>
          assert (Hm : m s = node.clean_up_node_maps w kept s2)
      end.
      { rewrite bind_run. unfold get_state at 1. rewrite bind_run, E.
        rewrite bind_run. unfold modify at 1. rewrite bind_run. unfold get_state at 1.
        reflexivity. }
      rewrite Hm.
      assert (H2 : samplers_untouched s s2).
      { subst s2. split; [ reflexivity | ]. cbn [trace set_node_processes set_trace].
        rewrite running_app. apply asking_tracks_nothing. }
      split.
      + eapply step_trans; [ exact H2 | apply clean_up_untouched ].
      + destruct (clean_up_attempts w kept s2) as [l [_ Hl]].
        destruct (fst (node.clean_up_node_maps w kept s2)); [ exact I | ].
        split; [ exact Hl | reflexivity ].
    - split; [ apply step_refl | exact I ]. }
  match goal with
  | |- context [ match ?m s with _ => _ end ] => destruct (Hnode m eq_refl) as [[Hh Hr] Ho]
  end.
  match goal with
  | |- context [ match ?m s with _ => _ end ] => destruct (m s) as [[u | e] s2]
  end; cbn [fst snd] in *.
  - destruct (stop_each (rev (SystemProfiler._perfs self)) s2) as [H1 [H2 [_ [_ [H5 H6]]]]].
    rewrite H1. split; [ split | ].
    + intros c Hc. apply H2. apply -> in_rev. exact Hc.
    + intros c p Hc Hp. apply (H5 c p); [ apply -> in_rev; exact Hc | ].
      rewrite Hh. exact Hp.
    + intros q Hq. apply H6 in Hq. rewrite Hr in Hq. exact Hq.
  - split; [ exact Ho | ]. intros q Hq. rewrite Hr in Hq. exact Hq.
Qed.

(** X9.  [SystemProfiler.stop] never raises an [Exception], and without node
    attach it never raises at all.  When it returns, no controller of the
    profiler holds a handle and no subprocess a controller held a handle
    of is running; it launches nothing. *)
Theorem stop_ends_every_sampler (w : World) (self : SystemProfiler.t) (s : state) :
  let run := SystemProfiler.stop w self s in
  match fst run with
  | Ok _ =>
      (forall c, In c (SystemProfiler._perfs self) -> _process (heap (snd run) c) = None) /\
      (forall c process,
         In c (SystemProfiler._perfs self) -> _process (heap s c) = Some process ->
         ~ In (popen_id process) (running (trace (snd run))))
  | Raise e => is_Exception e = false /\ SystemProfiler.perf_node_attach self = true
  end /\
  (forall q, In q (running (trace (snd run))) -> In q (running (trace s))).
Proof. exact (system_stop_outcome w self s). Qed.

(** A [start] that raises leaves no subprocess of its own running, as
    long as the wait for the output file ends in no other exception than
    [TimeoutError]. *)
Lemma failed_start_leaves_nothing (w : World) (self : ref) (s s1 : state) (e : exn) :
  (forall h e', ans_wait_event w h = Raise e' -> is_TimeoutError e' = true) ->
  PerfProcess.start w self s = (Raise e, s1) ->
  heap s1 = heap s /\
  forall q, In q (running (trace s1)) -> In q (running (trace s)).
Proof.
  intro Hwait.
  unfold PerfProcess.start, PerfProcess._get_perf_cmd, Extern.start_process,
    Extern.wait_event, Extern.read.
  run.
  destruct (PerfProcess.mmap_size _ _) as [pages | e1]; run.
  - destruct (ans_start_process w _) as [pipes | e2]; run.
    + destruct (ans_wait_event w _) as [u | e3] eqn:Hw; run; [ discriminate | ].
      rewrite (Hwait _ _ Hw).
      destruct pipes as [[|] [|]]; run; intro H; injection H as <- <-;
        (split; [ reflexivity | ]); cbn [trace set_trace]; intros q Hq;
        rewrite <- ?app_assoc in Hq; cbn [app] in Hq; rewrite running_app in Hq;
        cbn [fold_left track] in Hq; rewrite remove_cons in Hq;
        apply in_remove in Hq; apply Hq.
    + intro H. injection H as <- <-. split; [ reflexivity | ].
      cbn [trace set_trace]. intros q Hq. rewrite <- app_assoc in Hq.
      rewrite running_app in Hq. exact Hq.
  - intro H. injection H as <- <-. split; [ reflexivity | ].
    cbn [trace set_trace]. intros q Hq. rewrite running_app in Hq. exact Hq.
Qed.

(** Starting a list of distinct controllers: a subprocess that runs
    afterwards ran before or is held by one of them. *)
Lemma start_each (w : World) (perfs : list ref) :
  (forall h e', ans_wait_event w h = Raise e' -> is_TimeoutError e' = true) ->
  NoDup perfs ->
  forall s,
    let s' := snd (for_each (PerfProcess.start w) perfs s) in
    (forall c, ~ In c perfs -> heap s' c = heap s c) /\
    forall q, In q (running (trace s')) ->
              In q (running (trace s)) \/
              exists c process,
                In c perfs /\ _process (heap s' c) = Some process /\ popen_id process = q.
Proof.
  intros Hwait Hnodup. induction Hnodup as [| x rest Hx Hrest IH]; intro s; cbv zeta.
  - cbn [for_each ret snd]. split; [ reflexivity | ]. intros q Hq. left. exact Hq.
  - cbn [for_each]. rewrite bind_run.
    destruct (PerfProcess.start w x s) as [[[] | e] s1] eqn:Hstart.
    + destruct (start_launches w x s s1 Hstart) as [process [Hp [Hrun Hother]]].
      destruct (IH s1) as [H1 H2]. split.
      * intros c Hc. rewrite H1; [ | intro Hin; apply Hc; right; exact Hin ].
        apply Hother. intros ->. apply Hc. left. reflexivity.
      * intros q Hq. destruct (H2 q Hq) as [Hq1 | [c [p [Hc [Hcp Hid]]]]].
        -- rewrite Hrun in Hq1. destruct Hq1 as [<- | Hq1]; [ | left; exact Hq1 ].
           right. exists x, process. split; [ left; reflexivity | ].
           split; [ | reflexivity ]. rewrite (H1 x Hx). exact Hp.
        -- right. exists c, p. split; [ right; exact Hc | ]. split; assumption.
    + cbn [snd]. destruct (failed_start_leaves_nothing w x s s1 e Hwait Hstart) as [Hh Hr].
      split; [ intros c _; rewrite Hh; reflexivity | ].
      intros q Hq. left. apply Hr, Hq.
Qed.

(** The node part of [SystemProfiler.start] and of [snapshot] leaves the
    samplers alone. *)
Lemma start_node_part_untouched (w : World) :
  respects samplers_untouched
    (found <- node.get_node_processes w ;;
     modify (set_node_processes found) ;;;
     s <- get_state ;;
     node.generate_map_for_node_processes w (_node_processes s)).
Proof.
  repeat first
    [ apply generate_map_untouched
    | respects_step ltac:(intros; first [ apply node_event_untouched; reflexivity
                                        | split; reflexivity ]) ].
Qed.

(** X10.  [start] followed by [stop]: with distinct controllers, and a wait for
    the output file that returns or times out, every subprocess that runs
    after a [stop] that returned ran before the [start]: what [start]
    launched is gone, whether [start] returned or raised half way. *)
Theorem stop_after_start_leaves_nothing_running (w w' : World) (self : SystemProfiler.t)
  (s : state) :
  NoDup (SystemProfiler._perfs self) ->
  (forall h e, ans_wait_event w h = Raise e -> is_TimeoutError e = true) ->
  let s1 := snd (SystemProfiler.start w self s) in
  let run := SystemProfiler.stop w' self s1 in
  fst run = Ok tt ->
  forall q, In q (running (trace (snd run))) -> In q (running (trace s)).
Proof.
  intros Hnodup Hwait s1 run Hok q Hq.
  destruct (system_stop_outcome w' self s1) as [Hstop Hsub]. fold run in Hstop, Hsub.
  rewrite Hok in Hstop. destruct Hstop as [_ Hheld].
  pose proof (Hsub q Hq) as Hq1.
  assert (Hs1 : In q (running (trace s)) \/
                exists c process,
                  In c (SystemProfiler._perfs self) /\
                  _process (heap s1 c) = Some process /\ popen_id process = q).
  { clear Hq Hsub Hheld Hok run. subst s1. unfold SystemProfiler.start in *. rewrite bind_run in *.
    match type of Hq1 with
    | context [ match ?m s with _ => _ end ] =>
        assert (Hnode : samplers_untouched s (snd (m s)))
    end.
    { destruct (SystemProfiler.perf_node_attach self);
        [ apply start_node_part_untouched | apply step_refl ]. }
    match type of Hq1 with
    | context [ match ?m s with _ => _ end ] => destruct (m s) as [[u | e] s0]
    end; cbn [snd] in *; destruct Hnode as [Hh Hr].
    - destruct (start_each w (SystemProfiler._perfs self) Hwait Hnodup s0) as [_ H2].
      destruct (H2 q Hq1) as [H | H]; [ left; rewrite <- Hr; exact H | right; exact H ].
    - left. rewrite <- Hr. exact Hq1. }
  destruct Hs1 as [H | [c [p [Hc [Hp Hid]]]]]; [ exact H | ].
  exfalso. apply (Hheld c p Hc Hp). rewrite Hid. exact Hq.
Qed.

Lemma stop_after_start_leaves_nothing_running_witness :
  running
    (trace (snd (SystemProfiler.stop Examples.quiet_world Runs.smart_profiler
                   (snd (SystemProfiler.start Examples.quiet_world Runs.smart_profiler
                           Runs.built_state))))) = [].
Proof.
  destruct (running
              (trace (snd (SystemProfiler.stop Examples.quiet_world Runs.smart_profiler
                             (snd (SystemProfiler.start Examples.quiet_world
                                     Runs.smart_profiler Runs.built_state))))))
    as [| q l] eqn:E; [ reflexivity | ].
  exfalso.
  apply (stop_after_start_leaves_nothing_running Examples.quiet_world Examples.quiet_world
           Runs.smart_profiler Runs.built_state) with (q := q).
  - repeat constructor; cbn [In]; intuition discriminate.
  - intros h e H. discriminate H.
  - vm_compute. reflexivity.
  - rewrite E. left. reflexivity.
Defined.

(** ** The metadata collectors *)

Lemma _get_golang_version_run (w : World) (self : nat) (process : Process) (s : state) :
  GolangPerfMetadata._get_golang_version w self process s =
  match lru_find GolangPerfMetadata.key_eqb (self, process) (cache_golang_version s) with
  | Some v =>
      (Ok v,
       set_cache_golang_version
         (lru_hit GolangPerfMetadata.key_eqb (self, process) v (cache_golang_version s)) s)
  | None =>
      match GolangPerfMetadata._get_golang_version_body w process s with
      | (Ok v, s') =>
          (Ok v,
           set_cache_golang_version
             (lru_store 4096 (self, process) v (cache_golang_version s')) s')
      | (Raise e, s') => (Raise e, s')
      end
  end.
Proof. reflexivity. Qed.


Lemma golang_version_memo (w w' : World) (self : nat) (p q : Process) (s s1 : state)
  (v : option string) :
  GolangPerfMetadata._get_golang_version w self p s = (Ok v, s1) ->
  Process_eqb q p = true ->
  exists s2,
    GolangPerfMetadata._get_golang_version w' self q s1 = (Ok v, s2) /\ trace s2 = trace s1.
Proof.
  intros Hfirst Heq.
  assert (Hfront : exists rest, cache_golang_version s1 = ((self, p), v) :: rest).
  { rewrite _get_golang_version_run in Hfirst.
    destruct (lru_find GolangPerfMetadata.key_eqb (self, p) (cache_golang_version s))
      as [v0 |].
    - injection Hfirst as <- <-. eexists. reflexivity.
    - destruct (GolangPerfMetadata._get_golang_version_body w p s) as [[v0 | e] s0];
        [ | discriminate ].
      injection Hfirst as <- <-. eexists. cbn [cache_golang_version set_cache_golang_version].
      unfold lru_store. rewrite (firstn_cons 4095). reflexivity. }
  destruct Hfront as [rest Hfront].
  rewrite _get_golang_version_run, Hfront. cbn [lru_find].
  unfold GolangPerfMetadata.key_eqb at 1. cbn [fst snd]. rewrite Nat.eqb_refl, Heq.
  eexists. split; reflexivity.
Qed.

Lemma lru_find_remove_none {K V : Type} (eqb : K -> K -> bool) (k k' : K) (c : list (K * V)) :
  lru_find eqb k c = None -> lru_find eqb k (lru_remove eqb k' c) = None.
Proof.
  induction c as [| [a b] rest IH]; intro H; [ reflexivity | ].
  cbn [lru_find] in H. destruct (eqb k a) eqn:Hka; [ discriminate | ].
  cbn [lru_remove]. destruct (eqb k' a); [ exact H | ].
  cbn [lru_find]. rewrite Hka. apply IH, H.
Qed.

Lemma lru_find_firstn_none {K V : Type} (eqb : K -> K -> bool) (k : K) (n : nat)
  (c : list (K * V)) :
  lru_find eqb k c = None -> lru_find eqb k (firstn n c) = None.
Proof.
  revert n. induction c as [| [a b] rest IH]; intros n H; [ destruct n; reflexivity | ].
  cbn [lru_find] in H. destruct (eqb k a) eqn:Hka; [ discriminate | ].
  destruct n as [| n]; [ reflexivity | ].
  cbn [firstn lru_find]. rewrite Hka. apply IH, H.
Qed.

Lemma _get_golang_version_body_probes (w : World) (process : Process) (s : state) :
  cache_golang_version (snd (GolangPerfMetadata._get_golang_version_body w process s)) =
    cache_golang_version s /\
  exists l,
    trace (snd (GolangPerfMetadata._get_golang_version_body w process s)) =
      trace s ++
      ReadElfSymbol ("/proc/" ++ str_int (pid process) ++ "/exe") "runtime.buildVersion" 16
      :: l.
Proof.
  split.
  - assert (H : respects (keeping cache_golang_version)
                  (GolangPerfMetadata._get_golang_version_body w process)).
    { respects_walk keeping_side. }
    exact (H s).
  - unfold GolangPerfMetadata._get_golang_version_body. cbv zeta. rewrite bind_run.
    unfold try_except at 1, Extern.read_elf_symbol at 1, call at 1.
    destruct (ans_read_elf_symbol w _) as [symbol_data | e].
    + match goal with
      | |- context [ snd (?k ?st) ] =>
          assert (Hk : respects (emitting any_event) k)
      end.
      { respects_walk ltac:(emitting_side ltac:(exact I)). }
      match goal with
      | |- context [ snd (?k ?st) ] => destruct (Hk st) as [l [E _]]
      end.
      exists l. rewrite E. cbn [trace set_trace]. rewrite <- app_assoc. reflexivity.
    + exists []. destruct (is_FileNotFoundError e); reflexivity.
Qed.

(** X12.  The Go version of a process is computed once per collector
    object: the cached method keys its answers on the collector and the
    process.  After a call that returned, a call on the same collector for
    the same process (same pid and creation time) returns the same answer
    without reading anything, whatever the executable has become; a call
    on another collector object, which had no answer for the process,
    is not served by that entry and starts by reading the executable
    again. *)
Theorem golang_version_is_memoized (w w' : World) (self other : nat) (p q : Process)
  (s s1 : state) (v : option string) :
  GolangPerfMetadata._get_golang_version w self p s = (Ok v, s1) ->
  Process_eqb q p = true ->
  (exists s2,
     GolangPerfMetadata._get_golang_version w' self q s1 = (Ok v, s2) /\
     trace s2 = trace s1) /\
  (other <> self ->
   lru_find GolangPerfMetadata.key_eqb (other, q) (cache_golang_version s) = None ->
   exists l,
     trace (snd (GolangPerfMetadata._get_golang_version w' other q s1)) =
       trace s1 ++
       ReadElfSymbol ("/proc/" ++ str_int (pid q) ++ "/exe") "runtime.buildVersion" 16 :: l).
Proof.
  intros Hfirst Heq. split; [ exact (golang_version_memo w w' self p q s s1 v Hfirst Heq) | ].
  intros Hother Hnone.
  assert (Hmiss : lru_find GolangPerfMetadata.key_eqb (other, q) (cache_golang_version s1)
                  = None).
  { assert (Hhead : GolangPerfMetadata.key_eqb (other, q) (self, p) = false).
    { unfold GolangPerfMetadata.key_eqb. cbn [fst snd].
      apply Nat.eqb_neq in Hother. rewrite Hother. reflexivity. }
    rewrite _get_golang_version_run in Hfirst.
    destruct (lru_find GolangPerfMetadata.key_eqb (self, p) (cache_golang_version s))
      as [v0 |].
    - injection Hfirst as <- <-. cbn [cache_golang_version set_cache_golang_version].
      unfold lru_hit. cbn [lru_find]. rewrite Hhead. apply lru_find_remove_none, Hnone.
    - destruct (_get_golang_version_body_probes w p s) as [Hkeep _].
      destruct (GolangPerfMetadata._get_golang_version_body w p s) as [[v0 | e] s0];
        [ | discriminate ].
      cbn [snd] in Hkeep. injection Hfirst as <- <-.
      cbn [cache_golang_version set_cache_golang_version].
      unfold lru_store. apply lru_find_firstn_none. cbn [lru_find]. rewrite Hhead, Hkeep.
      exact Hnone. }
  rewrite _get_golang_version_run, Hmiss.
  destruct (_get_golang_version_body_probes w' q s1) as [_ [l Hl]].
  destruct (GolangPerfMetadata._get_golang_version_body w' q s1) as [[v0 | e] s2];
    cbn [snd] in Hl |- *; exists l; exact Hl.
Qed.

Lemma golang_version_is_memoized_witness :
  (exists s2,
     GolangPerfMetadata._get_golang_version MoreRuns.vanished_exe_world 0 (mkProcess 42 0)
       (snd (GolangPerfMetadata._get_golang_version MoreRuns.go_world 0 (mkProcess 42 0)
               Examples.initial_state)) = (Ok (Some ""), s2) /\
     trace s2 =
       trace (snd (GolangPerfMetadata._get_golang_version MoreRuns.go_world 0
                     (mkProcess 42 0) Examples.initial_state))) /\
  (exists l,
     trace (snd (GolangPerfMetadata._get_golang_version MoreRuns.vanished_exe_world 2
                   (mkProcess 42 0)
                   (snd (GolangPerfMetadata._get_golang_version MoreRuns.go_world 0
                           (mkProcess 42 0) Examples.initial_state)))) =
       trace (snd (GolangPerfMetadata._get_golang_version MoreRuns.go_world 0
                     (mkProcess 42 0) Examples.initial_state)) ++
       ReadElfSymbol ("/proc/" ++ str_int (pid (mkProcess 42 0)) ++ "/exe")
         "runtime.buildVersion" 16 :: l).
Proof.
  destruct (golang_version_is_memoized MoreRuns.go_world MoreRuns.vanished_exe_world 0 2
              (mkProcess 42 0) (mkProcess 42 0) Examples.initial_state
              (snd (GolangPerfMetadata._get_golang_version MoreRuns.go_world 0
                      (mkProcess 42 0) Examples.initial_state))
              (Some "") eq_refl eq_refl) as [Hsame Hother].
  split; [ exact Hsame | ].
  apply Hother.
  - discriminate.
  - reflexivity.
Defined.




(** X14.  A process whose executable is gone when the Go collector probes it has
    no metadata: the [FileNotFoundError] of the ELF reader becomes
    [NoSuchProcess], which [_get_metadata] answers with [None]; no other
    collector is asked and nothing is cached, so the next lookup probes
    again. *)
Theorem vanished_executable_gives_no_metadata (w : World) (self : SystemProfiler.t)
  (golang : nat) (pid t : Z) (s : state) (rest : list PerfMetadata) :
  SystemProfiler._metadata_collectors self = a_GolangPerfMetadata golang :: rest ->
  (Z.eqb pid 0 || Z.eqb pid (-1))%bool = false ->
  ans_psutil_Process w (trace s ++ [PsutilProcess pid]) = Ok t ->
  lru_find GolangPerfMetadata.key_eqb (golang, mkProcess pid t) (cache_golang_version s) =
    None ->
  ans_read_elf_symbol w
    (trace s ++ [PsutilProcess pid;
                 ReadElfSymbol ("/proc/" ++ str_int pid ++ "/exe") "runtime.buildVersion" 16]) =
    Raise FileNotFoundError ->
  SystemProfiler._get_metadata w self pid s =
    (Ok None,
     set_trace
       (trace s ++ [PsutilProcess pid;
                    ReadElfSymbol ("/proc/" ++ str_int pid ++ "/exe") "runtime.buildVersion" 16])
       s).
Proof.
  intros Hcs Hpid Hps Hmiss Helf.
  unfold SystemProfiler._get_metadata, SystemProfiler._get_metadata_try. rewrite Hcs, Hpid.
  cbn [SystemProfiler.first_relevant].
  unfold relevant_for_process, GolangPerfMetadata.relevant_for_process,
    GolangPerfMetadata._get_golang_version, lru_cache,
    GolangPerfMetadata._get_golang_version_body, Extern.psutil_Process,
    Extern.read_elf_symbol.
  run. rewrite Hps. run. rewrite Hmiss. cbn [Runtime.pid snd]. rewrite <- app_assoc.
  cbn [app]. rewrite Helf. reflexivity.
Qed.

Lemma vanished_executable_gives_no_metadata_witness :
  SystemProfiler._get_metadata MoreRuns.vanished_exe_world Runs.smart_profiler 42
    Examples.initial_state =
    (Ok None,
     set_trace
       (trace Examples.initial_state ++
        [PsutilProcess 42;
         ReadElfSymbol ("/proc/" ++ str_int 42 ++ "/exe") "runtime.buildVersion" 16])
       Examples.initial_state).
Proof.
  apply (vanished_executable_gives_no_metadata MoreRuns.vanished_exe_world
           Runs.smart_profiler 0 42 0 Examples.initial_state [a_NodePerfMetadata 1]).
  - reflexivity.
  - reflexivity.
  - reflexivity.
  - reflexivity.
  - reflexivity.
Defined.

(** ** The inspector protocol *)

Lemma in_keys_get (k : string) (items : list (string * json)) :
  existsb (String.eqb k) (map fst items) =
  match dict_get k items with
  | Some _ => true
  | None => false
  end.
Proof.
  induction items as [| [k' v] rest IH]; [ reflexivity | ].
  cbn [map fst existsb dict_get]. destruct (String.eqb k k'); [ reflexivity | exact IH ].
Qed.

Lemma unexpected_response_run (m : json) (s : state) :
  node.unexpected_response m s =
  (match m with
   | JDict d1 =>
       match dict_get "result" d1 with
       | None => Ok true
       | Some (JDict d2) =>
           match dict_get "result" d2 with
           | None => Ok true
           | Some (JDict d3) =>
               match dict_get "type" d3 with
               | None => Ok true
               | Some ty => Ok (negb (eq_str ty "boolean"))
               end
           | Some _ => Raise AttributeError
           end
       | Some _ => Raise AttributeError
       end
   | _ => Raise AttributeError
   end, s).
Proof.
  unfold node.unexpected_response, node.not_in_keys.
  destruct m as [| b | n | mm e | | t | l | d1]; try reflexivity.
  run. cbn [keys getitem]. rewrite in_keys_get.
  destruct (dict_get "result" d1) as [r1 |]; [ | reflexivity ]. cbn [negb].
  destruct r1 as [| b | n | mm e | | t | l | d2]; try reflexivity.
  cbn [keys getitem]. rewrite in_keys_get.
  destruct (dict_get "result" d2) as [r2 |]; [ | reflexivity ]. cbn [negb].
  destruct r2 as [| b | n | mm e | | t | l | d3]; try reflexivity.
  cbn [keys getitem]. rewrite in_keys_get.
  destruct (dict_get "type" d3) as [ty |]; reflexivity.
Qed.

Lemma boolean_result_expected (m : json) (s : state) :
  boolean_result m <-> node.unexpected_response m s = (Ok false, s).
Proof.
  rewrite unexpected_response_run. split.
  - intros [d1 [d2 [d3 [-> [H1 [H2 H3]]]]]]. rewrite H1, H2, H3. reflexivity.
  - destruct m as [| b | n | mm e | | t | l | d1]; try discriminate.
    destruct (dict_get "result" d1) as [[| b | n | mm e | | t | l | d2] |] eqn:H1;
      try discriminate.
    destruct (dict_get "result" d2) as [[| b | n | mm e | | t | l | d3] |] eqn:H2;
      try discriminate.
    destruct (dict_get "type" d3) as [ty |] eqn:H3; try discriminate.
    destruct ty as [| b | n | mm e | | t | l | d4]; try discriminate.
    cbn [eq_str]. destruct (String.eqb_spec t "boolean") as [-> | Hne]; [ | discriminate ].
    intros _. exists d1, d2, d3. repeat split; assumption.
Qed.

Lemma _send_socket_request_run (w : World) (sock : WebSocket) (request : json) (s : state) :
  node._send_socket_request w sock request s =
  match ans_send w (trace s ++ [SockSend sock request]) with
  | Ok _ =>
      let s2 := set_trace (trace s ++ [SockSend sock request; SockRecv sock]) s in
      match ans_recv w (trace s ++ [SockSend sock request; SockRecv sock]) with
      | Ok (Json m) =>
          match fst (node.unexpected_response m s2) with
          | Ok true => (Raise NodeDebuggerUnexpectedResponse, s2)
          | Ok false => (Ok tt, s2)
          | Raise e => (Raise e, s2)
          end
      | Ok (NotJson _) => (Raise NodeDebuggerUnexpectedResponse, s2)
      | Raise e => (Raise e, s2)
      end
  | Raise e => (Raise e, set_trace (trace s ++ [SockSend sock request]) s)
  end.
Proof.
  unfold node._send_socket_request, node.recv_json, Extern.send, Extern.recv.
  rewrite bind_run. unfold call at 1. cbv zeta.
  destruct (ans_send w (trace s ++ [SockSend sock request])) as [[] | e0]; [ | reflexivity ].
  rewrite bind_run. rewrite bind_run. unfold call at 1. cbn [trace set_trace].
  rewrite <- app_assoc. cbn [app].
  destruct (ans_recv w (trace s ++ [SockSend sock request; SockRecv sock]))
    as [[text | m] | e1]; [ reflexivity | | reflexivity ].
  cbn [ret]. rewrite bind_run. rewrite !unexpected_response_run. cbn [fst].
  match goal with
  | |- context [ match ?x with Ok _ => _ | Raise _ => _ end ] => destruct x as [[|] | e2]
  end; reflexivity.
Qed.

(** X15.  A command to the payload is accepted exactly on a boolean answer:
    [_send_socket_request] returns only if the message received after the
    request is JSON with [result.result.type] equal to [boolean], and it
    does return on such a message.  An answer that is JSON but no object
    leaves the call as [AttributeError], not as
    [NodeDebuggerUnexpectedResponse]. *)
Theorem command_needs_a_boolean_answer (w : World) (sock : WebSocket) (request : json)
  (s : state) :
  let answer := ans_recv w (trace s ++ [SockSend sock request; SockRecv sock]) in
  match fst (node._send_socket_request w sock request s) with
  | Ok _ => exists m, answer = Ok (Json m) /\ boolean_result m
  | Raise _ => True
  end /\
  (ans_send w (trace s ++ [SockSend sock request]) = Ok tt ->
   forall m, answer = Ok (Json m) ->
     (boolean_result m ->
      node._send_socket_request w sock request s =
        (Ok tt, set_trace (trace s ++ [SockSend sock request; SockRecv sock]) s)) /\
     ((forall d, m <> JDict d) ->
      fst (node._send_socket_request w sock request s) = Raise AttributeError)).
Proof.
  cbv zeta. rewrite _send_socket_request_run.
  destruct (ans_send w (trace s ++ [SockSend sock request])) as [[] | e0]; cbv zeta.
  - destruct (ans_recv w (trace s ++ [SockSend sock request; SockRecv sock]))
      as [[text | m] | e1].
    + split; [ exact I | ]. intros _ m H. discriminate H.
    + set (s1 := set_trace _ s). split.
      * destruct (node.unexpected_response m s1) as [[[|] | e2] s2] eqn:Hu;
          cbn [fst]; try exact I.
        exists m. split; [ reflexivity | ]. apply (boolean_result_expected m s1).
        rewrite Hu. rewrite unexpected_response_run in Hu. injection Hu as _ <-.
        reflexivity.
      * intros _ m' Hm'. injection Hm' as <-. split.
        -- intro Hb. apply (boolean_result_expected m s1) in Hb. rewrite Hb. reflexivity.
        -- intro Hnd. rewrite unexpected_response_run.
           destruct m as [| b | n | mm e | | t | l | d1]; try reflexivity.
           exfalso. apply (Hnd d1). reflexivity.
    + split; [ exact I | ]. intros _ m H. discriminate H.
  - split; [ exact I | ]. intro H. discriminate H.
Qed.

Lemma _execute_js_command_run (w : World) (sock : WebSocket) (command : string) (s : state) :
  node._execute_js_command w sock command s =
  let request := node.evaluate_request command in
  match ans_send w (trace s ++ [SockSend sock request]) with
  | Ok _ =>
      let s2 := set_trace (trace s ++ [SockSend sock request; SockRecv sock]) s in
      let missing (e : exn) : outcome json :=
        if is_KeyError e then Raise NodeDebuggerUnexpectedResponse else Raise e in
      match ans_recv w (trace s ++ [SockSend sock request; SockRecv sock]) with
      | Ok (Json m) =>
          (match getitem m "result" with
           | Ok r1 =>
               match getitem r1 "result" with
               | Ok r2 =>
                   match getitem r2 "value" with
                   | Ok v => Ok v
                   | Raise e => missing e
                   end
               | Raise e => missing e
               end
           | Raise e => missing e
           end, s2)
      | Ok (NotJson _) => (Raise NodeDebuggerUnexpectedResponse, s2)
      | Raise e => (Raise e, s2)
      end
  | Raise e => (Raise e, set_trace (trace s ++ [SockSend sock request]) s)
  end.
Proof.
  cbv zeta.
  unfold node._execute_js_command, node.recv_json, Extern.send, Extern.recv.
  rewrite bind_run. unfold call at 1. cbv zeta.
  destruct (ans_send w _) as [[] | e0]; [ | reflexivity ].
  rewrite bind_run. rewrite bind_run. unfold call at 1. cbn [trace set_trace].
  rewrite <- app_assoc. cbn [app].
  destruct (ans_recv w _) as [[text | m] | e1]; [ reflexivity | | reflexivity ].
  cbn [ret]. unfold try_except. rewrite bind_run. unfold lift at 1.
  destruct (getitem m "result") as [r1 | e2];
    [ | destruct (is_KeyError e2); reflexivity ].
  rewrite bind_run. unfold lift at 1.
  destruct (getitem r1 "result") as [r2 | e3];
    [ | destruct (is_KeyError e3); reflexivity ].
  unfold lift.
  destruct (getitem r2 "value") as [v | e4];
    [ reflexivity | destruct (is_KeyError e4); reflexivity ].
Qed.

Lemma valued_result_chain (m v : json) :
  valued_result m v <->
  exists r1 r2,
    getitem m "result" = Ok r1 /\ getitem r1 "result" = Ok r2 /\ getitem r2 "value" = Ok v.
Proof.
  split.
  - intros [d1 [d2 [d3 [-> [H1 [H2 H3]]]]]]. exists (JDict d2), (JDict d3).
    cbn [getitem]. rewrite H1, H2, H3. repeat split.
  - intros [r1 [r2 [H1 [H2 H3]]]].
    destruct m as [| b | n | mm e | | t | l | d1]; try discriminate H1.
    destruct r1 as [| b | n | mm e | | t | l | d2]; try discriminate H2.
    destruct r2 as [| b | n | mm e | | t | l | d3]; try discriminate H3.
    cbn [getitem] in *. exists d1, d2, d3. split; [ reflexivity | ].
    destruct (dict_get "result" d1) as [x1 |]; [ | discriminate ]. injection H1 as ->.
    destruct (dict_get "result" d2) as [x2 |]; [ | discriminate ]. injection H2 as ->.
    destruct (dict_get "value" d3) as [x3 |]; [ | discriminate ]. injection H3 as ->.
    repeat split.
Qed.

(** Takes apart the hypotheses about the shape of an answer. *)
Ltac shape_cases :=
  solve
    [ repeat match goal with
             | H : _ \/ _ |- _ => destruct H
             | H : exists _, _ |- _ => destruct H
             | H : _ /\ _ |- _ => destruct H
             | H : JDict _ = JDict _ |- _ => injection H as H; subst
             | H : ?a = Some _, H' : ?a = Some _ |- _ =>
                 rewrite H in H'; injection H' as H'; try subst
             | H : ?a = Some _, H' : ?a = None |- _ => rewrite H in H'; discriminate H'
             end;
      cbn [is_object] in *; first [ discriminate | congruence ] ].

(** What indexing the answer gives, by its shape. *)
Lemma answer_shapes (m : json) :
  let chain :=
    match getitem m "result" with
    | Ok r1 =>
        match getitem r1 "result" with
        | Ok r2 =>
            match getitem r2 "value" with
            | Ok v => Ok v
            | Raise e => if is_KeyError e then Raise NodeDebuggerUnexpectedResponse else Raise e
            end
        | Raise e => if is_KeyError e then Raise NodeDebuggerUnexpectedResponse else Raise e
        end
    | Raise e => if is_KeyError e then Raise NodeDebuggerUnexpectedResponse else Raise e
    end in
  (forall v, valued_result m v -> chain = Ok v) /\
  (missing_key m -> chain = Raise NodeDebuggerUnexpectedResponse) /\
  (level_not_object m -> chain = Raise TypeError) /\
  ((exists v, valued_result m v) \/ missing_key m \/ level_not_object m).
Proof.
  cbv zeta. unfold valued_result, missing_key, level_not_object.
  destruct m as [| b | n | mm e | | t | l | d1]; cbn [getitem is_KeyError is_object];
    try (split; [ intros; shape_cases
                | split; [ intros; shape_cases
                         | split; [ reflexivity | right; right; left; reflexivity ] ] ]).
  destruct (dict_get "result" d1) as [r1 |] eqn:H1; cbn [is_KeyError].
  - destruct r1 as [| b | n | mm e | | t | l | d2]; cbn [getitem is_KeyError is_object];
      try (split; [ intros; shape_cases
                  | split; [ intros; shape_cases
                           | split; [ reflexivity
                                    | right; right; right; left; eexists; eexists;
                                      repeat split; first [ eassumption | reflexivity ] ] ] ]).
    destruct (dict_get "result" d2) as [r2 |] eqn:H2; cbn [is_KeyError].
    + destruct r2 as [| b | n | mm e | | t | l | d3]; cbn [getitem is_KeyError is_object];
        try (split; [ intros; shape_cases
                    | split; [ intros; shape_cases
                             | split; [ reflexivity
                                      | right; right; right; right; do 3 eexists;
                                        repeat split;
                                        first [ eassumption | reflexivity ] ] ] ]).
      destruct (dict_get "value" d3) as [v |] eqn:H3; cbn [is_KeyError].
      * split; [ intros; shape_cases | ].
        split; [ intros; shape_cases | ].
        split; [ intros; shape_cases | ].
        left. exists v, d1, d2, d3. repeat split; assumption.
      * split; [ intros; shape_cases | ].
        split; [ reflexivity | ].
        split; [ intros; shape_cases | ].
        right. left. right. right. exists d1, d2, d3. repeat split; assumption.
    + split; [ intros; shape_cases | ].
      split; [ reflexivity | ].
      split; [ intros; shape_cases | ].
      right. left. right. left. exists d1, d2. repeat split; assumption.
  - split; [ intros; shape_cases | ].
    split; [ reflexivity | ].
    split; [ intros; shape_cases | ].
    right. left. left. exists d1. repeat split; assumption.
Qed.

(** X16.  An evaluation returns the value of the answer: [_execute_js_command]
    returns [v] only if the message received after the request is JSON with
    [result.result.value] equal to [v], and it does return the value of
    such a message.  On a message that arrived and is JSON, the outcome is
    settled by its shape, which is one of three: the value is there and is
    returned; a key is missing at an object on the way, and the call raises
    [NodeDebuggerUnexpectedResponse] ([KeyError] never leaves it); a level
    on the way is no object, and the call raises [TypeError], which is not
    converted.  A message that is not JSON raises
    [NodeDebuggerUnexpectedResponse]. *)
Theorem evaluation_returns_the_value (w : World) (sock : WebSocket) (command : string)
  (s : state) :
  let request := node.evaluate_request command in
  let answer := ans_recv w (trace s ++ [SockSend sock request; SockRecv sock]) in
  let result := fst (node._execute_js_command w sock command s) in
  match result with
  | Ok v => exists m, answer = Ok (Json m) /\ valued_result m v
  | Raise _ => True
  end /\
  (ans_send w (trace s ++ [SockSend sock request]) = Ok tt ->
   forall message, answer = Ok message ->
     match message with
     | Json m =>
         (forall v, valued_result m v -> result = Ok v) /\
         (missing_key m -> result = Raise NodeDebuggerUnexpectedResponse) /\
         (level_not_object m -> result = Raise TypeError) /\
         ((exists v, valued_result m v) \/ missing_key m \/ level_not_object m) /\
         match result with
         | Ok _ => True
         | Raise e => e = NodeDebuggerUnexpectedResponse \/ e = TypeError
         end
     | NotJson _ => result = Raise NodeDebuggerUnexpectedResponse
     end).
Proof.
  cbv zeta. rewrite _execute_js_command_run. cbv zeta.
  destruct (ans_send w _) as [[] | e0].
  - destruct (ans_recv w _) as [[text | m] | e1]; cbn [fst].
    + split; [ exact I | ]. intros _ message H. injection H as <-. reflexivity.
    + destruct (answer_shapes m) as [Hvalue [Hmissing [Hbroken Hall]]]. split.
      * destruct Hall as [[v Hv] | [Hm | Hb]].
        -- rewrite (Hvalue v Hv). exists m. split; [ reflexivity | exact Hv ].
        -- rewrite (Hmissing Hm). exact I.
        -- rewrite (Hbroken Hb). exact I.
      * intros _ message H. injection H as <-.
        split; [ exact Hvalue | ]. split; [ exact Hmissing | ].
        split; [ exact Hbroken | ]. split; [ exact Hall | ].
        destruct Hall as [[v Hv] | [Hm | Hb]].
        -- rewrite (Hvalue v Hv). exact I.
        -- rewrite (Hmissing Hm). left. reflexivity.
        -- rewrite (Hbroken Hb). right. reflexivity.
    + split; [ exact I | ]. intros _ message H. discriminate H.
  - cbn [fst]. split; [ exact I | ]. intro H. discriminate H.
Qed.

(** X17.  The payload is driven by two actions only: any other action fails the
    assertion of [_change_dso_state] before anything is sent; [start] and
    [stop] send one request, which calls the action on the module loaded
    from the deployed path, and take at most the answer to it. *)
Theorem payload_actions_are_start_and_stop (w : World) (sock : WebSocket)
  (module_path action : string) (s : state) :
  let run := node._change_dso_state w sock module_path action s in
  let request :=
    node.evaluate_request
      ("process.mainModule.require(" ++ dquote ++ os_path_join module_path ["linux-perf.js"]
         ++ dquote ++ ")." ++ action ++ "()") in
  (action = "start" \/ action = "stop" ->
   since s (snd run) = [SockSend sock request] \/
   since s (snd run) = [SockSend sock request; SockRecv sock]) /\
  (action <> "start" -> action <> "stop" ->
   run = (Raise (AssertionError "_change_dso_state supports only start and stop actions" []),
          s)).
Proof.
  cbv zeta. unfold node._change_dso_state. rewrite bind_run. split.
  - intro Hact.
    assert (Hc : (String.eqb action "start" || String.eqb action "stop")%bool = true).
    { destruct Hact as [-> | ->]; reflexivity. }
    rewrite Hc. cbn [py_assert ret]. rewrite _send_socket_request_run.

    change (node.evaluate_request
              ("process.mainModule.require(" ++ dquote ++
               os_path_join module_path ["linux-perf.js"] ++ dquote ++ ")." ++ action ++ "()"))
      with (node.evaluate_request (node.dso_expression module_path action)).
    set (request := node.evaluate_request (node.dso_expression module_path action)).
    destruct (ans_send w _) as [[] | e0]; cbv zeta.
    + right.
      destruct (ans_recv w _) as [[text | m] | e1];
        [ | destruct (fst (node.unexpected_response m _)) as [[|] | e2] | ];
        cbn [snd]; apply since_app; reflexivity.
    + left. cbn [snd]. apply since_app. reflexivity.
  - intros H1 H2.
    destruct (String.eqb_spec action "start") as [E | _]; [ contradiction | ].
    destruct (String.eqb_spec action "stop") as [E | _]; [ contradiction | ].
    reflexivity.
Qed.

Lemma create_debugger_socket_no_remove (w : World) (nspid : Z) (ns_link_name : string) :
  respects (emitting (fun ev => is_remove ev = false))
    (node.create_debugger_socket w nspid ns_link_name).
Proof. respects_walk ltac:(emitting_side ltac:(reflexivity)). Qed.

Lemma _change_dso_state_no_remove (w : World) (sock : WebSocket) (module_path action : string) :
  respects (emitting (fun ev => is_remove ev = false))
    (node._change_dso_state w sock module_path action).
Proof. respects_walk ltac:(emitting_side ltac:(reflexivity)). Qed.

(** X18.  The map file is removed exactly when the session was opened: if
    [create_debugger_socket] raises, [_clean_up] ends there with the same
    exception and removes nothing; if it returns, the file
    [/tmp/perf-<nspid>.map] is removed once, as the last step, whether the
    [stop] command succeeded or not, and a failure of the removal is what
    the call raises. *)
Theorem map_file_is_removed_once_the_session_opened (w : World) (module_path : string)
  (nspid : Z) (ns_link_name : string) (s : state) :
  let run := node._clean_up w module_path nspid ns_link_name s in
  let removal := OsRemove ("/tmp/perf-" ++ str_int nspid ++ ".map") in
  match node.create_debugger_socket w nspid ns_link_name s with
  | (Ok sock, s1) =>
      exists l,
        since s1 (snd run) = l ++ [removal] /\
        Forall (fun ev => is_remove ev = false) (since s s1 ++ l) /\
        match ans_os_remove w (trace s1 ++ l ++ [removal]) with
        | Ok _ => fst run = fst (node._change_dso_state w sock module_path "stop" s1)
        | Raise e => fst run = Raise e
        end
  | (Raise e, s1) =>
      run = (Raise e, s1) /\ Forall (fun ev => is_remove ev = false) (since s s1)
  end.
Proof.
  cbv zeta. unfold node._clean_up. rewrite bind_run.
  destruct (create_debugger_socket_no_remove w nspid ns_link_name s) as [l0 [E0 F0]].
  destruct (node.create_debugger_socket w nspid ns_link_name s) as [[sock | e] s1];
    cbn [snd] in E0; rewrite (since_app _ _ _ E0).
  - unfold try_finally.
    destruct (_change_dso_state_no_remove w sock module_path "stop" s1) as [l [E F]].
    destruct (node._change_dso_state w sock module_path "stop" s1) as [r s2]; cbn [snd] in E.
    exists l. unfold Extern.os_remove, call. rewrite E.
    change (os_path_join "/tmp" [("perf-" ++ str_int nspid ++ ".map")%string])
      with ("/tmp/perf-" ++ str_int nspid ++ ".map")%string.
    rewrite <- app_assoc.
    destruct (ans_os_remove w _) as [[] | e1]; cbn [fst snd].
    + split; [ apply since_app; cbn [trace set_trace]; rewrite app_assoc; reflexivity | ].
      split; [ apply Forall_app; split; assumption | reflexivity ].
    + split; [ apply since_app; cbn [trace set_trace]; rewrite app_assoc; reflexivity | ].
      split; [ apply Forall_app; split; assumption | reflexivity ].
  - split; [ reflexivity | exact F0 ].
Qed.

Lemma body_usable (w : World) (s : state) (r : Response) (url : json) :
  ans_requests_get w (trace s ++ [listing_query]) = Ok r -> usable r url ->
  node._get_debugger_url_body w s = (Ok url, set_trace (trace s ++ [listing_query]) s).
Proof.
  intros Hr [Hbad [v [Hv Hurl]]].
  unfold node._get_debugger_url_body. cbv zeta. rewrite bind_run.
  unfold Extern.requests_get, call. rewrite listing_query_eq, Hr, Hbad, Hv.
  rewrite bind_run. unfold ret at 1. rewrite Hurl. reflexivity.
Qed.

Lemma retry_until_usable (w : World) (url : json) (r : Response) :
  forall k n s,
    k <= n ->
    (forall i, i < k ->
       exists r', ans_requests_get w (trace s ++ failed_rounds i ++ [listing_query]) = Ok r' /\
                  rejected r' = true) ->
    ans_requests_get w (trace s ++ failed_rounds k ++ [listing_query]) = Ok r ->
    usable r url ->
    Extern.retry JNull is_NodeDebuggerUrlNotFound (S n) 1 (node._get_debugger_url_body w) s =
      (Ok url, set_trace (trace s ++ failed_rounds k ++ [listing_query]) s).
Proof.
  induction k as [| k IH]; intros n s Hk Hrej Hr Hu.
  - cbn [Extern.retry failed_rounds app] in *. unfold try_except.
    rewrite (body_usable w s r url Hr Hu). reflexivity.
  - destruct n as [| n]; [ lia | ].
    cbn [Extern.retry]. unfold try_except at 1.
    rewrite (body_rejected w s) by (apply (Hrej 0); lia).
    cbn [is_NodeDebuggerUrlNotFound].
    rewrite bind_run. unfold emit at 1. rewrite bind_run. unfold emit at 1.
    cbn [trace set_trace].
    set (s1 := set_trace _ _).
    assert (Hs1 : trace s1 = trace s ++ listing_query :: retry_pause).
    { subst s1. cbn [trace set_trace]. unfold retry_pause. rewrite <- !app_assoc. reflexivity. }
    assert (Hshift : forall i,
              trace s1 ++ failed_rounds i ++ [listing_query] =
              trace s ++ failed_rounds (S i) ++ [listing_query]).
    { intro i. rewrite Hs1. cbn [failed_rounds]. rewrite <- !app_assoc. reflexivity. }
    change (Extern.retry JNull is_NodeDebuggerUrlNotFound (S n) 1 (node._get_debugger_url_body w) s1
            = (Ok url, set_trace (trace s ++ failed_rounds (S k) ++ [listing_query]) s)).
    rewrite (IH n s1).
    + rewrite Hshift. subst s1. reflexivity.
    + lia.
    + intros i Hi. rewrite Hshift. apply Hrej. lia.
    + rewrite Hshift. exact Hr.
    + exact Hu.
Qed.

(** X19.  Discovery ends with the first usable answer: when the first [k]
    answers of the listing are rejected, with [k] below five, and the next
    one names an endpoint, [_get_debugger_url] returns that endpoint as it
    is after [k + 1] queries and [k] pauses of one second. *)
Theorem discovery_returns_the_first_usable_answer (w : World) (s : state) (k : nat)
  (r : Response) (url : json) :
  k < 5 ->
  (forall i, i < k ->
     exists r', ans_requests_get w (trace s ++ failed_rounds i ++ [listing_query]) = Ok r' /\
                rejected r' = true) ->
  ans_requests_get w (trace s ++ failed_rounds k ++ [listing_query]) = Ok r ->
  usable r url ->
  node._get_debugger_url w s =
    (Ok url, set_trace (trace s ++ failed_rounds k ++ [listing_query]) s) /\
  discovery_attempts (failed_rounds k ++ [listing_query]) = S k /\
  pauses (failed_rounds k ++ [listing_query]) = repeat 1%Z k.
Proof.
  intros Hk Hrej Hr Hu. split; [ | split ].
  - unfold node._get_debugger_url. apply (retry_until_usable w url r k 4 s); try assumption.
    lia.
  - clear. unfold discovery_attempts. rewrite filter_app, length_app, Nat.add_1_r. f_equal.
    induction k as [| k IH]; [ reflexivity | ].
    cbn [failed_rounds retry_pause app filter List.length listing_query]. rewrite IH.
    reflexivity.
  - clear. unfold pauses. rewrite flat_map_app. cbn [flat_map listing_query app].
    rewrite app_nil_r.
    induction k as [| k IH]; [ reflexivity | ].
    cbn [failed_rounds retry_pause app flat_map listing_query repeat]. rewrite IH.
    reflexivity.
Qed.

Lemma discovery_returns_the_first_usable_answer_witness :
  node._get_debugger_url MoreRuns.slow_inspector_world Examples.initial_state =
    (Ok (JStr "ws://127.0.0.1:9229/session"),
     set_trace (trace Examples.initial_state ++ failed_rounds 1 ++ [listing_query])
       Examples.initial_state) /\
  discovery_attempts (failed_rounds 1 ++ [listing_query]) = 2 /\
  pauses (failed_rounds 1 ++ [listing_query]) = repeat 1%Z 1.
Proof.
  apply (discovery_returns_the_first_usable_answer MoreRuns.slow_inspector_world
           Examples.initial_state 1 Examples.listing_response).
  - lia.
  - intros i Hi. assert (i = 0) as -> by lia. eexists. split; reflexivity.
  - reflexivity.
  - split; [ reflexivity | ]. eexists. split; reflexivity.
Defined.

(** ** The payload on disk *)

(** X20.  The build identity is read from two version files, which must agree:
    on a first call [_get_dso_git_rev] reads the glibc file and the musl
    file of the bundled payload; if the texts are equal the text is the
    identity and it is cached, if they differ the call fails the assertion
    and nothing is cached. *)
Theorem build_identity_needs_matching_version_files (w : World) (s : state)
  (glibc_file musl_file glibc_text musl_text : string) :
  let reads :=
    [ResourcePath "node/module/glibc/version"; ResourcePath "node/module/musl/version";
     ReadText glibc_file; ReadText musl_file] in
  cache_dso_git_rev s = [] ->
  ans_resource_path w (trace s ++ firstn 1 reads) = Ok glibc_file ->
  ans_resource_path w (trace s ++ firstn 2 reads) = Ok musl_file ->
  ans_read_text w (trace s ++ firstn 3 reads) = Ok glibc_text ->
  ans_read_text w (trace s ++ reads) = Ok musl_text ->
  node._get_dso_git_rev w s =
    if String.eqb glibc_text musl_text
    then (Ok glibc_text, set_cache_dso_git_rev [(tt, glibc_text)] (set_trace (trace s ++ reads) s))
    else (Raise (AssertionError "" []), set_trace (trace s ++ reads) s).
Proof.
  cbv zeta. cbn [firstn]. intros Hc H1 H2 H3 H4.
  rewrite _get_dso_git_rev_run, Hc.
  unfold node._get_dso_git_rev_body, Extern.resource_path, Extern.read_text.
  change (os_path_join "node" ["module"; "glibc"; "version"]) with "node/module/glibc/version".
  change (os_path_join "node" ["module"; "musl"; "version"]) with "node/module/musl/version".
  run. rewrite H1. run. rewrite <- app_assoc. cbn [app]. rewrite H2. run.
  rewrite <- app_assoc. cbn [app]. rewrite H3. run.
  rewrite <- app_assoc. cbn [app]. rewrite H4. run.
  destruct (String.eqb glibc_text musl_text); reflexivity.
Qed.

Lemma build_identity_needs_matching_version_files_witness :
  node._get_dso_git_rev MoreRuns.mismatched_world Examples.initial_state =
    (Raise (AssertionError "" []),
     set_trace
       (trace Examples.initial_state ++
        [ResourcePath "node/module/glibc/version"; ResourcePath "node/module/musl/version";
         ReadText "/resources"; ReadText "/resources"])
       Examples.initial_state).
Proof.
  apply (build_identity_needs_matching_version_files MoreRuns.mismatched_world
           Examples.initial_state "/resources" "/resources" "abcdef0" "1234567").
  - reflexivity.
  - reflexivity.
  - reflexivity.
  - reflexivity.
  - reflexivity.
Defined.

(** X21.  The build identity is read at most once in the life of the process:
    after a call that returned it, [_get_dso_git_rev] returns the same
    identity without touching a file, in any environment, also after
    attach and detach runs over any processes. *)
Theorem build_identity_is_read_once (w : World) (s s1 : state) (rev : string) :
  node._get_dso_git_rev w s = (Ok rev, s1) ->
  forall w' attached detached,
    let s2 := snd (node.generate_map_for_node_processes w' attached s1) in
    let s3 := snd (node.clean_up_node_maps w' detached s2) in
    node._get_dso_git_rev w' s1 = (Ok rev, s1) /\
    node._get_dso_git_rev w' s2 = (Ok rev, s2) /\
    node._get_dso_git_rev w' s3 = (Ok rev, s3).
Proof.
  intros Hfirst w' attached detached s2 s3.
  destruct (_get_dso_git_rev_step w s) as [_ Hcached]. rewrite Hfirst in Hcached.
  destruct (Hcached rev eq_refl) as [rest H1]. cbn [snd] in H1.
  pose proof (proj2 (generate_map_deploy_step w' attached s1) _ _ H1) as H2. fold s2 in H2.
  pose proof (proj2 (clean_up_deploy_step w' detached s2) _ _ H2) as H3. fold s3 in H3.
  split; [ | split ]; eapply _get_dso_git_rev_hit; eassumption.
Qed.

Lemma build_identity_is_read_once_witness :
  let s1 := snd (node._get_dso_git_rev Examples.quiet_world Examples.initial_state) in
  let s2 := snd (node.generate_map_for_node_processes Runs.failing_listing_world
                   [mkProcess 200 6] s1) in
  let s3 := snd (node.clean_up_node_maps Runs.failing_listing_world [mkProcess 200 6] s2) in
  node._get_dso_git_rev Runs.failing_listing_world s1 = (Ok "abcdef0", s1) /\
  node._get_dso_git_rev Runs.failing_listing_world s2 = (Ok "abcdef0", s2) /\
  node._get_dso_git_rev Runs.failing_listing_world s3 = (Ok "abcdef0", s3).
Proof.
  apply (build_identity_is_read_once Examples.quiet_world Examples.initial_state).
  reflexivity.
Defined.

(** ** The signature of a target *)

Lemma str_in_dot_cons (c : ascii) (rest : string) :
  str_in "." (String c rest) = (Ascii.eqb c "." || str_in "." rest)%bool.
Proof.
  cbn [str_in String.prefix]. destruct (ascii_dec "." c) as [<- | Hne].
  - destruct rest; reflexivity.
  - destruct (Ascii.eqb_spec c ".") as [-> | _]; [ contradiction | reflexivity ].
Qed.

Lemma before_dot_no_dot (v : string) :
  str_in "." (before_dot v) = false.
Proof.
  induction v as [| c rest IH]; [ reflexivity | ].
  cbn [before_dot]. destruct (Ascii.eqb c ".") eqn:Hc; [ reflexivity | ].
  rewrite str_in_dot_cons, Hc. exact IH.
Qed.

Lemma before_dot_whole (major : string) :
  str_in "." major = false -> before_dot major = major.
Proof.
  induction major as [| c m IH]; intro H; [ reflexivity | ].
  rewrite str_in_dot_cons in H. apply Bool.orb_false_iff in H. destruct H as [Hc Hm].
  cbn [before_dot]. rewrite Hc. f_equal. apply IH, Hm.
Qed.

Lemma before_dot_app (major rest : string) :
  str_in "." major = false -> before_dot (major ++ "." ++ rest) = major.
Proof.
  induction major as [| c m IH]; intro H; [ reflexivity | ].
  rewrite str_in_dot_cons in H. apply Bool.orb_false_iff in H. destruct H as [Hc Hm].
  cbn [append before_dot]. rewrite Hc. f_equal. apply IH, Hm.
Qed.

(** X22.  The major version of a node binary is the text between the first
    character of what the binary prints and the first dot after it: the
    first character is dropped whatever it is, the result never contains a
    dot, and a version without any dot is returned whole. *)
Theorem major_version_is_cut_at_the_first_dot (w : World) (process : Process) (s : state) :
  let answer := ans_get_exe_version w (trace s ++ [GetExeVersion process 3]) in
  let run := node._get_node_major_version w process s in
  match fst run with
  | Ok major => str_in "." major = false
  | Raise e => answer = Raise e
  end /\
  (forall c major rest,
     answer = Ok (String c (major ++ "." ++ rest)) -> str_in "." major = false ->
     fst run = Ok major) /\
  (forall c major,
     answer = Ok (String c major) -> str_in "." major = false -> fst run = Ok major).
Proof.
  cbv zeta. unfold node._get_node_major_version, Extern.get_exe_version. run.
  destruct (ans_get_exe_version w _) as [version | e]; cbn [fst].
  - split; [ apply before_dot_no_dot | ]. split.
    + intros c major rest H Hm. injection H as ->. cbn [drop_first]. f_equal.
      apply before_dot_app, Hm.
    + intros c major H Hm. injection H as ->. cbn [drop_first]. f_equal.
      apply before_dot_whole, Hm.
  - split; [ reflexivity | ]. split; intros; discriminate.
Qed.

Lemma major_version_is_cut_at_the_first_dot_witness :
  fst (node._get_node_major_version Examples.quiet_world (mkProcess 100 5)
         Examples.initial_state) = Ok "16".
Proof.
  apply (proj1 (proj2 (major_version_is_cut_at_the_first_dot Examples.quiet_world
                         (mkProcess 100 5) Examples.initial_state))
           "v"%char "16" "3.2").
  - reflexivity.
  - reflexivity.
Defined.

Lemma append_assoc' (a b c : string) : ((a ++ b) ++ c = a ++ (b ++ c))%string.
Proof. induction a as [| x a IH]; [ reflexivity | ]. cbn [append]. now rewrite IH. Qed.

Lemma append_cancel_l (a b c : string) : (a ++ b = a ++ c)%string -> b = c.
Proof.
  induction a as [| x a IH]; intro H; [ exact H | ].
  cbn [append] in H. injection H as H. apply IH, H.
Qed.

Lemma endswith_sep_app (x y : string) :
  y <> EmptyString -> endswith_sep (x ++ y) = endswith_sep y.
Proof.
  intro Hy. induction x as [| c x IH]; [ reflexivity | ].
  cbn [append endswith_sep]. destruct (x ++ y)%string as [| d r] eqn:E.
  - destruct x; [ cbn [append] in E; contradiction | discriminate E ].
  - exact IH.
Qed.

(** The deployment path of a signature, spelled out. *)
Lemma dest_for_spelled (w : World) (rev : string) :
  exists base,
    forall m v, startswith_sep v = false ->
      dest_for w rev (m, v) = (base ++ (if m then "musl" else "glibc") ++ "/" ++ v)%string.
Proof.
  unfold dest_for, os_path_join. cbn [fold_left fst snd].
  set (P := join_step (join_step (TEMPORARY_STORAGE_PATH w) "node_module") rev).
  exists (if (String.eqb P "" || endswith_sep P)%bool then P else (P ++ "/")%string).
  intros m v Hv.
  assert (Hl : join_step P (if m then "musl" else "glibc") =
               ((if (String.eqb P "" || endswith_sep P)%bool then P else (P ++ "/")%string)
                ++ (if m then "musl" else "glibc"))%string).
  { unfold join_step. destruct m; cbn [startswith_sep Ascii.eqb Bool.eqb];
      destruct (String.eqb P "" || endswith_sep P)%bool;
      rewrite ?append_assoc'; reflexivity. }
  rewrite Hl. set (X := if (String.eqb P "" || endswith_sep P)%bool then P else _).
  unfold join_step. rewrite Hv.
  assert (Hne : String.eqb (X ++ (if m then "musl" else "glibc")) "" = false).
  { destruct X; destruct m; reflexivity. }
  assert (Hend : endswith_sep (X ++ (if m then "musl" else "glibc")) = false).
  { rewrite endswith_sep_app; destruct m; first [ reflexivity | discriminate ]. }
  rewrite Hne, Hend. cbn [orb]. rewrite append_assoc'. reflexivity.
Qed.

(** X23.  Two signatures never share a deployment path: with the build identity
    cached, [_get_dest_inside_container] gives different paths to different
    pairs of C library and version, as long as the versions do not start
    with a slash. *)
Theorem signatures_have_their_own_paths (w : World) (s : state) (u : unit) (rev : string)
  (rest : list (unit * string)) (musl1 musl2 : bool) (version1 version2 : string) :
  caches_agree w s ->
  cache_dso_git_rev s = (u, rev) :: rest ->
  startswith_sep version1 = false ->
  startswith_sep version2 = false ->
  (musl1, version1) <> (musl2, version2) ->
  fst (node._get_dest_inside_container w musl1 version1 s) <>
    fst (node._get_dest_inside_container w musl2 version2 s).
Proof.
  intros Hagree Hrev H1 H2 Hne Heq. apply Hne. clear Hne.
  rewrite (proj1 (_get_dest_inside_container_cached w musl1 version1 s u rev rest Hagree Hrev))
    in Heq.
  rewrite (proj1 (_get_dest_inside_container_cached w musl2 version2 s u rev rest Hagree Hrev))
    in Heq.
  injection Heq as Heq.
  destruct (dest_for_spelled w rev) as [base Hbase].
  rewrite (Hbase musl1 version1 H1), (Hbase musl2 version2 H2) in Heq.
  apply append_cancel_l in Heq.
  destruct musl1, musl2; cbn [append] in Heq; try discriminate Heq;
    repeat (injection Heq as Heq); subst; reflexivity.
Qed.

Lemma signatures_have_their_own_paths_witness :
  caches_agree Examples.quiet_world Runs.deployed_state /\
  fst (node._get_dest_inside_container Examples.quiet_world true "16" Runs.deployed_state) <>
    fst (node._get_dest_inside_container Examples.quiet_world false "16" Runs.deployed_state).
Proof.
  assert (H : caches_agree Examples.quiet_world Runs.deployed_state).
  { intros k v H. vm_compute in H. destruct H as [H | []]. injection H as <- <-. reflexivity. }
  split; [ exact H | ].
  apply (signatures_have_their_own_paths Examples.quiet_world Runs.deployed_state tt "abcdef0" []).
  - exact H.
  - reflexivity.
  - reflexivity.
  - reflexivity.
  - discriminate.
Defined.

(** X24.  The first deploy of a signature, with the build identity cached and a
    deployment path that does not exist yet in the target's root: the
    payload is taken from [node/module/<libc>/<rev>/<version>] of the
    bundled resources, copied to the resolved path, and then made readable
    for others, its directories also searchable.  If the copy fails the
    permissions are not touched and the failure is raised. *)
Theorem first_deploy_copies_then_opens_permissions (w : World) (process : Process)
  (musl : bool) (version : string) (s : state) (u : unit) (rev : string)
  (rest : list (unit * string)) (root dest src : string) :
  let inside := dest_for w rev (musl, version) in
  let libc := if musl then "musl" else "glibc" in
  let steps :=
    [GetProcRootPath process; ResolveProcRootLinks root inside; PathExists dest;
     ResourcePath (os_path_join "node" ["module"; libc; rev; version]);
     Copytree src dest; AddPermissionDir dest 4 5] in
  let run := node._copy_module_into_process_ns w process musl version s in
  caches_agree w s ->
  cache_dso_git_rev s = (u, rev) :: rest ->
  ans_get_proc_root_path w (trace s ++ firstn 1 steps) = Ok root ->
  ans_resolve_proc_root_links w (trace s ++ firstn 2 steps) = Ok dest ->
  ans_path_exists w (trace s ++ firstn 3 steps) = false ->
  ans_resource_path w (trace s ++ firstn 4 steps) = Ok src ->
  match ans_copytree w (trace s ++ firstn 5 steps) with
  | Ok _ =>
      since s (snd run) = steps /\
      fst run = match ans_add_permission_dir w (trace s ++ steps) with
                | Ok _ => Ok inside
                | Raise e => Raise e
                end
  | Raise e => since s (snd run) = firstn 5 steps /\ fst run = Raise e
  end.
Proof.
  cbv zeta. cbn [firstn]. intros Hagree Hrev H1 H2 H3 H4.
  remember (node._copy_module_into_process_ns w process musl version s) as run eqn:Hrun.
  change (node._copy_module_into_process_ns w process musl version)
    with (proc_root <- Extern.get_proc_root_path w process ;;
          d <- node._get_dest_inside_container w musl version ;;
          place_module w proc_root (if musl then "musl" else "glibc") version d) in Hrun.
  rewrite bind_run in Hrun. unfold Extern.get_proc_root_path at 1, call at 1 in Hrun.
  cbv zeta in Hrun. rewrite H1 in Hrun. rewrite bind_run in Hrun.
  set (sa := set_trace (trace s ++ [GetProcRootPath process]) s) in Hrun.
  destruct (_get_dest_inside_container_cached w musl version sa u rev rest Hagree Hrev)
    as [Hd Htr].
  pose proof (proj2 (_get_dest_inside_container_respects w musl version sa) _ _ Hrev) as Hrev'.
  destruct (node._get_dest_inside_container w musl version sa) as [[d | e] sb];
    cbn [fst snd] in Hd, Htr, Hrev'; [ | discriminate Hd ].
  injection Hd as ->.
  assert (Htr' : trace sb = trace s ++ [GetProcRootPath process]) by exact Htr.
  unfold place_module, Extern.resolve_proc_root_links, Extern.os_path_exists,
    Extern.resource_path, Extern.copytree, Extern.add_permission_dir in Hrun.
  rewrite bind_run in Hrun. unfold call at 1 in Hrun. cbv zeta in Hrun.
  rewrite Htr', <- app_assoc in Hrun. cbn [app] in Hrun.
  rewrite H2 in Hrun. rewrite bind_run in Hrun. unfold ask at 1 in Hrun.
  cbn [trace set_trace] in Hrun. rewrite <- app_assoc in Hrun. cbn [app] in Hrun.
  rewrite H3 in Hrun. rewrite bind_run in Hrun.
  match type of Hrun with
  | context [ node._get_dso_git_rev w ?st ] =>
      rewrite (_get_dso_git_rev_hit w st u rev rest Hrev') in Hrun
  end.
  rewrite bind_run in Hrun. unfold call at 1 in Hrun. cbn [trace set_trace] in Hrun.
  rewrite <- app_assoc in Hrun. cbn [app] in Hrun. rewrite H4 in Hrun.
  rewrite bind_run in Hrun. unfold call at 1 in Hrun. cbn [trace set_trace] in Hrun.
  rewrite <- app_assoc in Hrun. cbn [app] in Hrun.
  change (Z.lor node.S_IXOTH node.S_IROTH) with 5%Z in Hrun.
  change node.S_IROTH with 4%Z in Hrun.
  destruct (ans_copytree w _) as [[] | e].
  - rewrite bind_run in Hrun. unfold call at 1 in Hrun. cbn [trace set_trace] in Hrun.
    rewrite <- app_assoc in Hrun. cbn [app] in Hrun.
    destruct (ans_add_permission_dir w _) as [[] | e]; subst run; cbn [fst snd ret];
      (split; [ apply since_app; reflexivity | reflexivity ]).
  - subst run. cbn [fst snd]. split; [ apply since_app; reflexivity | reflexivity ].
Qed.

Lemma first_deploy_copies_then_opens_permissions_witness :
  since Runs.deployed_state
    (snd (node._copy_module_into_process_ns Runs.fresh_world (mkProcess 300 9) true "14"
            Runs.deployed_state)) =
    [GetProcRootPath (mkProcess 300 9);
     ResolveProcRootLinks "/proc/7/root" "/tmp/gprofiler_tmp/node_module/abcdef0/musl/14";
     PathExists "/proc/7/root/tmp/gprofiler_tmp/node_module/abcdef0/glibc/16";
     ResourcePath "node/module/musl/abcdef0/14";
     Copytree "/resources" "/proc/7/root/tmp/gprofiler_tmp/node_module/abcdef0/glibc/16";
     AddPermissionDir "/proc/7/root/tmp/gprofiler_tmp/node_module/abcdef0/glibc/16" 4 5].
Proof.
  apply (first_deploy_copies_then_opens_permissions Runs.fresh_world (mkProcess 300 9) true
           "14" Runs.deployed_state tt "abcdef0" [] "/proc/7/root"
           "/proc/7/root/tmp/gprofiler_tmp/node_module/abcdef0/glibc/16" "/resources").
  - intros k v H. vm_compute in H. destruct H as [H | []]. injection H as <- <-. reflexivity.
  - reflexivity.
  - reflexivity.
  - reflexivity.
  - reflexivity.
  - reflexivity.
Defined.

(** ** Attach and detach over all processes *)

Lemma emitting_weaken (P Q : event -> Prop) (s s' : state) :
  (forall ev, P ev -> Q ev) -> emitting P s s' -> emitting Q s s'.
Proof.
  intros H [l [E F]]. exists l. split; [ exact E | ].
  eapply Forall_impl; [ exact H | exact F ].
Qed.

Lemma attach_try_signals (w : World) (p : Process) :
  respects (emitting (signals_within [p])) (node.generate_map_for_node_processes_try w p).
Proof.
  respects_walk ltac:(emitting_side ltac:(first [ exact I
                                                | split; [ reflexivity | left; reflexivity ] ])).
Qed.

Lemma generate_map_signals (w : World) (ps : list Process) :
  respects (emitting (signals_within ps)) (node.generate_map_for_node_processes w ps).
Proof.
  induction ps as [| p rest IH]; cbn [node.generate_map_for_node_processes].
  - apply respects_ret. apply emitting_order.
  - apply (respects_bind (emitting (signals_within (p :: rest)))).
    + apply (respects_try_except (emitting (signals_within (p :: rest)))).
      * intro s. apply (emitting_weaken (signals_within [p])); [ | apply attach_try_signals ].
        intros [] H; try exact I. destruct H as [H1 [H2 | []]].
        split; [ exact H1 | left; exact H2 ].
      * intro e. apply (respects_emit (emitting (signals_within (p :: rest)))).
        intro s. apply emitting_event. exact I.
    + intros _ s. apply (emitting_weaken (signals_within rest)); [ | apply IH ].
      intros [] H; try exact I. destruct H as [H1 H2].
      split; [ exact H1 | right; exact H2 ].
Qed.

(** X25.  Attach wakes the inspector with [SIGUSR1] and sends nothing else: every
    signal of an attach-all run is [SIGUSR1] to the pid of a process of the
    list, and a detach-all run sends no signal at all. *)
Theorem attach_signals_only_the_listed_processes (w : World) (processes : list Process)
  (s : state) :
  Forall (signals_within processes)
    (since s (snd (node.generate_map_for_node_processes w processes s))) /\
  Forall (fun ev => is_signal ev = false)
    (since s (snd (node.clean_up_node_maps w processes s))).
Proof.
  split.
  - destruct (generate_map_signals w processes s) as [l [E F]].
    rewrite (since_app _ _ _ E). exact F.
  - assert (H : respects (emitting (fun ev => is_signal ev = false))
                  (node.clean_up_node_maps w processes)).
    { induction processes as [| p rest IH]; cbn [node.clean_up_node_maps];
        respects_walk ltac:(emitting_side ltac:(reflexivity)). }
    destruct (H s) as [l [E F]]. rewrite (since_app _ _ _ E). exact F.
Qed.

(** X26.  Detach skips the processes that are gone: where no process of the list
    is running any more, [clean_up_node_maps] asks once about each, in
    order, does nothing else and returns. *)
Theorem detach_skips_processes_that_are_gone (w : World) (processes : list Process)
  (s : state) :
  (forall h, ans_is_process_running w h = false) ->
  node.clean_up_node_maps w processes s =
    (Ok tt, set_trace (trace s ++ map IsProcessRunning processes) s).
Proof.
  intro Hgone. revert s. induction processes as [| p rest IH]; intro s.
  - cbn [node.clean_up_node_maps map ret]. rewrite app_nil_r. unfold set_trace.
    rewrite <- (state_eta s) at 1. reflexivity.
  - rewrite clean_up_run. unfold node.clean_up_node_maps_try. rewrite bind_run.
    unfold Extern.is_process_running at 1, ask at 1. cbv zeta. rewrite Hgone.
    cbn [negb ret]. rewrite IH. cbn [trace set_trace map].
    rewrite <- app_assoc. reflexivity.
Qed.

Lemma detach_skips_processes_that_are_gone_witness :
  node.clean_up_node_maps MoreRuns.deserted_world [mkProcess 200 6; mkProcess 300 9]
    Examples.initial_state =
    (Ok tt,
     set_trace
       (trace Examples.initial_state ++
        map IsProcessRunning [mkProcess 200 6; mkProcess 300 9])
       Examples.initial_state).
Proof.
  apply (detach_skips_processes_that_are_gone MoreRuns.deserted_world
           [mkProcess 200 6; mkProcess 300 9] Examples.initial_state).
  intro h. reflexivity.
Defined.

Lemma generate_map_keeps_the_list (w : World) (ps : list Process) :
  respects (keeping _node_processes) (node.generate_map_for_node_processes w ps).
Proof. apply (generate_map_respects (keeping _node_processes)); keeping_side. Qed.

Lemma no_attempt_in_questions (l : list Process) :
  attach_attempts (map IsProcessRunning l) = [].
Proof. induction l as [| p ps IH]; [ reflexivity | exact IH ]. Qed.

(** The list comprehension over [is_process_running] keeps exactly the
    processes for which the answer was [True]. *)
Lemma filter_running_exact (w : World) (l : list Process) :
  forall s,
    filter_by (Extern.is_process_running w) l s =
      (Ok (still_running w (trace s) l), set_trace (trace s ++ map IsProcessRunning l) s).
Proof.
  induction l as [| x rest IH]; intro s.
  - cbn [filter_by map still_running]. rewrite app_nil_r. unfold ret, set_trace.
    rewrite <- (state_eta s). reflexivity.
  - cbn [filter_by still_running]. rewrite bind_run.
    unfold Extern.is_process_running at 1, ask at 1. cbv zeta. rewrite bind_run.
    rewrite (IH (set_trace (trace s ++ [IsProcessRunning x]) s)).
    cbn [ret trace set_trace map]. rewrite set_trace_set_trace, <- app_assoc.
    cbn [app]. destruct (ans_is_process_running w (trace s ++ [IsProcessRunning x]));
      reflexivity.
Qed.

Lemma still_running_incl (w : World) (l : list Process) :
  forall h, incl (still_running w h l) l.
Proof.
  induction l as [| x rest IH]; intro h; [ apply incl_refl | ].
  cbn [still_running]. destruct (ans_is_process_running w (h ++ [IsProcessRunning x])).
  - intros a [<- | Ha]; [ left; reflexivity | right; exact (IH _ a Ha) ].
  - intros a Ha. right. exact (IH _ a Ha).
Qed.

(** X27.  The node part of a round: [is_process_running] is asked about each
    tracked process in turn, and the ones for which it answers [True] are
    kept, the others dropped; the node processes found now are listed, and
    attach is attempted for the found ones that are not among the kept
    ones, in the order found, and for no other; the list then holds the
    kept ones followed by the new ones. *)
Theorem round_attaches_only_new_processes (w : World) (self : SystemProfiler.t)
  (s s' : state) :
  SystemProfiler.perf_node_attach self = true ->
  SystemProfiler.snapshot_node_attach w self s = (Ok tt, s') ->
  let kept := still_running w (trace s) (_node_processes s) in
  exists found,
    ans_pgrep_exe w
      (trace s ++ map IsProcessRunning (_node_processes s) ++ [PgrepExe ".*node[^/]*$"]) =
      Ok found /\
    let new := filter (fun p => negb (existsb (Process_eqb p) kept)) found in
    _node_processes s' = kept ++ new /\
    attach_attempts (since s s') = new /\
    incl kept (_node_processes s).
Proof.
  intros Hattach. unfold SystemProfiler.snapshot_node_attach. rewrite Hattach.
  rewrite bind_run. unfold get_state at 1. rewrite bind_run.
  rewrite (filter_running_exact w (_node_processes s) s).
  set (kept := still_running w (trace s) (_node_processes s)).
  rewrite bind_run. unfold modify at 1. rewrite bind_run.
  unfold node.get_node_processes, Extern.pgrep_exe, call at 1.
  cbn [trace set_trace set_node_processes]. rewrite <- app_assoc.
  destruct (ans_pgrep_exe w _) as [found | e]; [ | discriminate ].
  rewrite bind_run. unfold get_state at 1.
  cbn [_node_processes set_trace set_node_processes].
  set (new := filter (fun p => negb (existsb (Process_eqb p) kept)) found).
  rewrite bind_run.
  match goal with
  | |- context [ node.generate_map_for_node_processes w new ?st ] => set (s1 := st)
  end.
  destruct (generate_map_attempts w new s1) as [l [El Hl]].
  pose proof (generate_map_keeps_the_list w new s1) as Hkeep. unfold keeping in Hkeep.
  destruct (node.generate_map_for_node_processes w new s1) as [[[] | e] s2];
    cbn [fst snd] in El, Hl, Hkeep; [ | discriminate ].
  unfold modify. intro H. injection H as <-.
  exists found. split; [ reflexivity | ].
  cbv zeta. fold new. cbn [_node_processes set_node_processes trace].
  split; [ | split ].
  - rewrite Hkeep. reflexivity.
  - rewrite (since_app s _ (map IsProcessRunning (_node_processes s) ++
                            [PgrepExe ".*node[^/]*$"] ++ l)).
    + unfold attach_attempts in *. rewrite !flat_map_app.
      fold (attach_attempts (map IsProcessRunning (_node_processes s))).
      rewrite no_attempt_in_questions. cbn [flat_map app]. exact Hl.
    + cbn [trace set_node_processes]. rewrite El. subst s1.
      cbn [trace set_trace set_node_processes].
      rewrite <- !app_assoc. reflexivity.
  - apply still_running_incl.
Qed.

Lemma round_attaches_only_new_processes_witness :
  still_running MoreRuns.thinned_world (trace MoreRuns.tracking_two_state)
    (_node_processes MoreRuns.tracking_two_state) = [mkProcess 200 6] /\
  exists found,
    ans_pgrep_exe MoreRuns.thinned_world
      (trace MoreRuns.tracking_two_state ++
       map IsProcessRunning (_node_processes MoreRuns.tracking_two_state) ++
       [PgrepExe ".*node[^/]*$"]) = Ok found /\
    let new :=
      filter (fun p =>
                negb (existsb (Process_eqb p)
                        (still_running MoreRuns.thinned_world
                           (trace MoreRuns.tracking_two_state)
                           (_node_processes MoreRuns.tracking_two_state)))) found in
    _node_processes
      (snd (SystemProfiler.snapshot_node_attach MoreRuns.thinned_world Runs.smart_profiler
              MoreRuns.tracking_two_state)) =
      still_running MoreRuns.thinned_world (trace MoreRuns.tracking_two_state)
        (_node_processes MoreRuns.tracking_two_state) ++ new /\
    attach_attempts
      (since MoreRuns.tracking_two_state
         (snd (SystemProfiler.snapshot_node_attach MoreRuns.thinned_world Runs.smart_profiler
                 MoreRuns.tracking_two_state))) = new /\
    incl
      (still_running MoreRuns.thinned_world (trace MoreRuns.tracking_two_state)
         (_node_processes MoreRuns.tracking_two_state))
      (_node_processes MoreRuns.tracking_two_state).
Proof.
  split; [ reflexivity | ].
  apply (round_attaches_only_new_processes MoreRuns.thinned_world Runs.smart_profiler
           MoreRuns.tracking_two_state).
  - reflexivity.
  - vm_compute. reflexivity.
Defined.

Lemma generate_map_node_events (w : World) (ps : list Process) :
  respects (emitting (fun ev => node_event ev = true))
    (node.generate_map_for_node_processes w ps).
Proof.
  apply (generate_map_respects (emitting (fun ev => node_event ev = true))).
  - exact node_events_only.
  - intros. apply emitting_same_trace. reflexivity.
  - intros. apply emitting_same_trace. reflexivity.
Qed.

Lemma start_each_perf_events (w : World) (perfs : list ref) :
  respects (emitting (fun ev => perf_event ev = true)) (for_each (PerfProcess.start w) perfs).
Proof. respects_walk ltac:(emitting_side ltac:(reflexivity)). Qed.

Lemma start_each_keeps_the_list (w : World) (perfs : list ref) :
  respects (keeping _node_processes) (for_each (PerfProcess.start w) perfs).
Proof. respects_walk keeping_side. Qed.

(** X28.  [SystemProfiler.start] with node attach: the node processes are
    listed, attach is attempted for each of them, in order, and only then
    are the samplers launched; the list found is the one the profiler
    keeps. *)
Theorem start_attaches_before_it_samples (w : World) (self : SystemProfiler.t)
  (s s' : state) :
  SystemProfiler.perf_node_attach self = true ->
  SystemProfiler.start w self s = (Ok tt, s') ->
  exists found attach launch,
    ans_pgrep_exe w (trace s ++ [PgrepExe ".*node[^/]*$"]) = Ok found /\
    _node_processes s' = found /\
    since s s' = PgrepExe ".*node[^/]*$" :: attach ++ launch /\
    attach_attempts attach = found /\
    Forall (fun ev => node_event ev = true) attach /\
    Forall (fun ev => perf_event ev = true) launch.
Proof.
  intros Hattach. unfold SystemProfiler.start. rewrite Hattach.
  rewrite bind_run. rewrite bind_run.
  unfold node.get_node_processes, Extern.pgrep_exe, call at 1. cbv zeta.
  destruct (ans_pgrep_exe w _) as [found | e]; [ | discriminate ].
  rewrite bind_run. unfold modify at 1. rewrite bind_run. unfold get_state at 1.
  cbn [_node_processes set_node_processes].
  match goal with
  | |- context [ node.generate_map_for_node_processes w found ?st ] => set (s1 := st)
  end.
  destruct (generate_map_attempts w found s1) as [l [El Hl]].
  destruct (generate_map_node_events w found s1) as [l' [El' Fl]].
  pose proof (generate_map_keeps_the_list w found s1) as Hkeep. unfold keeping in Hkeep.
  destruct (node.generate_map_for_node_processes w found s1) as [[[] | e] s2];
    cbn [fst snd] in El, El', Hl, Hkeep; [ | discriminate ].
  assert (l' = l) as -> by (rewrite El in El'; apply app_inv_head in El'; now symmetry).
  destruct (start_each_perf_events w (SystemProfiler._perfs self) s2) as [l2 [E2 F2]].
  pose proof (start_each_keeps_the_list w (SystemProfiler._perfs self) s2) as Hkeep2.
  unfold keeping in Hkeep2.
  destruct (for_each (PerfProcess.start w) (SystemProfiler._perfs self) s2) as [r s3].
  cbn [snd] in E2, Hkeep2. intro H. injection H as _ <-.
  exists found, l, l2. split; [ reflexivity | ].
  split; [ rewrite Hkeep2, Hkeep; reflexivity | ].
  split; [ | split; [ exact Hl | split; assumption ] ].
  apply since_app. rewrite E2, El. subst s1. cbn [trace set_trace set_node_processes].
  rewrite <- !app_assoc. reflexivity.
Qed.

Lemma start_attaches_before_it_samples_witness :
  exists found attach launch,
    ans_pgrep_exe MoreRuns.crowded_world
      (trace Runs.built_state ++ [PgrepExe ".*node[^/]*$"]) = Ok found /\
    _node_processes
      (snd (SystemProfiler.start MoreRuns.crowded_world Runs.smart_profiler Runs.built_state)) =
      found /\
    since Runs.built_state
      (snd (SystemProfiler.start MoreRuns.crowded_world Runs.smart_profiler Runs.built_state)) =
      PgrepExe ".*node[^/]*$" :: attach ++ launch /\
    attach_attempts attach = found /\
    Forall (fun ev => node_event ev = true) attach /\
    Forall (fun ev => perf_event ev = true) launch.
Proof.
  apply (start_attaches_before_it_samples MoreRuns.crowded_world Runs.smart_profiler
           Runs.built_state).
  - reflexivity.
  - vm_compute. reflexivity.
Defined.

(** ** The metadata the collectors make *)

Lemma dict_get_set (k k' : string) (v : json) (d : list (string * json)) :
  dict_get k (dict_set k' v d) = if String.eqb k k' then Some v else dict_get k d.
Proof.
  induction d as [| [a b] rest IH]; [ reflexivity | ].
  cbn [dict_set]. destruct (String.eqb_spec k' a) as [-> | Hne]; cbn [dict_get].
  - destruct (String.eqb k a); reflexivity.
  - rewrite IH. destruct (String.eqb_spec k k') as [-> | Hkk'];
      [ | reflexivity ].
    destruct (String.eqb_spec k' a) as [E | _]; [ contradiction | reflexivity ].
Qed.

Lemma dict_get_update_other (k : string) (e : list (string * json)) :
  dict_get k e = None -> forall d, dict_get k (dict_update d e) = dict_get k d.
Proof.
  unfold dict_update. induction e as [| [a b] rest IH]; intros H d; [ reflexivity | ].
  cbn [dict_get] in H. destruct (String.eqb k a) eqn:Hka; [ discriminate | ].
  cbn [fold_left fst snd]. rewrite (IH H). rewrite dict_get_set, Hka. reflexivity.
Qed.

Section CollectorProperties.
Variable is_statically_linked : string -> M bool.
Variable base_make_application_metadata : Process -> M (list (string * json)).
Variable get_exe_version_cached : Process -> M string.

Lemma add_exe_metadata_result (w : World) (process : Process)
  (metadata result : list (string * json)) (s s' : state) :
  ExeMetadata.add_exe_metadata is_statically_linked w process metadata s = (Ok result, s') ->
  exists link libc,
    result = dict_set "libc" libc (dict_set "link" (JStr link) metadata) /\
    ((link = "static" /\ libc = JNull) \/
     (link = "dynamic" /\ (libc = JStr "musl" \/ libc = JStr "glibc"))).
Proof.
  unfold ExeMetadata.add_exe_metadata, Extern.is_musl. run.
  destruct (is_statically_linked _ s) as [[[|] | e] s1]; run; cbn [negb]; run.
  - intro H. injection H as <- <-. exists "static", JNull.
    split; [ reflexivity | left; split; reflexivity ].
  - destruct (ans_is_musl w _) as [[|] | e]; run; intro H; try discriminate H;
      injection H as <- <-; eexists "dynamic", _;
      (split; [ reflexivity | right; split; [ reflexivity | ] ]);
      [ left | right ]; reflexivity.
  - destruct (is_FileNotFoundError e); run; discriminate.
Qed.

(** X29.  The linkage facts of a process: what [add_exe_metadata] leaves in the
    dictionary has [link] equal to [static] with [libc] null, or [link]
    equal to [dynamic] with [libc] equal to [musl] or [glibc]; every other
    key of the dictionary keeps its value; and a [FileNotFoundError] of the
    linkage test is raised as [NoSuchProcess]. *)
Theorem exe_metadata_records_linkage (w : World) (process : Process)
  (metadata : list (string * json)) (s : state) :
  let run := ExeMetadata.add_exe_metadata is_statically_linked w process metadata s in
  match fst run with
  | Ok result =>
      ((dict_get "link" result = Some (JStr "static") /\ dict_get "libc" result = Some JNull) \/
       (dict_get "link" result = Some (JStr "dynamic") /\
        (dict_get "libc" result = Some (JStr "musl") \/
         dict_get "libc" result = Some (JStr "glibc")))) /\
      (forall k, k <> "link" -> k <> "libc" -> dict_get k result = dict_get k metadata)
  | Raise e =>
      forall e0 s0,
        is_statically_linked ("/proc/" ++ str_int (pid process) ++ "/exe") s = (Raise e0, s0) ->
        e = if is_FileNotFoundError e0 then NoSuchProcess (pid process) else e0
  end.
Proof.
  cbv zeta.
  destruct (ExeMetadata.add_exe_metadata is_statically_linked w process metadata s)
    as [[result | e] s'] eqn:Hrun; cbn [fst].
  - destruct (add_exe_metadata_result w process metadata result s s' Hrun)
      as [link [libc [-> Hfacts]]].
    split.
    + rewrite !dict_get_set. cbn [String.eqb Ascii.eqb Bool.eqb].
      destruct Hfacts as [[-> ->] | [-> [-> | ->]]];
        [ left | right | right ]; (split; [ reflexivity | ]);
        first [ reflexivity | left; reflexivity | right; reflexivity ].
    + intros k Hlink Hlibc. rewrite !dict_get_set.
      destruct (String.eqb_spec k "libc") as [E | _]; [ contradiction | ].
      destruct (String.eqb_spec k "link") as [E | _]; [ contradiction | reflexivity ].
  - intros e0 s0 H0. revert Hrun.
    unfold ExeMetadata.add_exe_metadata. run. rewrite H0.
    destruct (is_FileNotFoundError e0); run; intro H; injection H as <- _; reflexivity.
Qed.

(** X30.  The metadata of a Go process names its version: when the Go collector
    found a process relevant, the metadata it makes next for that process
    has a [golang_version] that is a string, unless the base class sets the
    key; the version is the memoized one, the binary is not probed again. *)
Theorem golang_metadata_names_the_version (w w' : World) (self : nat) (process : Process)
  (s s1 s2 : state) (result : list (string * json)) :
  GolangPerfMetadata.relevant_for_process w self process s = (Ok true, s1) ->
  ExeMetadata.make_application_metadata is_statically_linked base_make_application_metadata
    get_exe_version_cached w' (a_GolangPerfMetadata self) process s1 = (Ok result, s2) ->
  exists v base,
    fst (GolangPerfMetadata._get_golang_version w self process s) = Ok (Some v) /\
    base_make_application_metadata process
      (snd (ExeMetadata.add_exe_metadata is_statically_linked w' process
              [("golang_version", JStr v)]
              (snd (GolangPerfMetadata._get_golang_version w' self process s1)))) =
      (Ok base, s2) /\
    (dict_get "golang_version" base = None ->
     dict_get "golang_version" result = Some (JStr v)).
Proof.
  unfold GolangPerfMetadata.relevant_for_process. rewrite bind_run.
  destruct (GolangPerfMetadata._get_golang_version w self process s)
    as [[[v |] | e] s0] eqn:Hv;
    cbn [ret]; intro H; try discriminate H.
  injection H as <-.
  destruct (golang_version_memo w w' self process process s s0 (Some v) Hv)
    as [s3 [Hmemo Htr]].
  { unfold Process_eqb. rewrite !Z.eqb_refl. reflexivity. }
  unfold ExeMetadata.make_application_metadata. rewrite bind_run, bind_run, Hmemo.
  cbn [ret snd]. rewrite bind_run.
  destruct (ExeMetadata.add_exe_metadata is_statically_linked w' process
              [("golang_version", JStr v)] s3) as [[md | e] s4] eqn:Hadd; [ | discriminate ].
  rewrite bind_run.
  cbn [snd].
  destruct (base_make_application_metadata process s4) as [[base | e] s5] eqn:Hbase;
    [ | discriminate ].
  cbn [ret]. intro H. injection H as <- <-.
  exists v, base. split; [ reflexivity | ].
  split; [ cbn [snd]; rewrite ?Hadd; cbn [snd]; first [ reflexivity | exact Hbase ] | ].
  intro Hnone. rewrite (dict_get_update_other _ _ Hnone).
  destruct (add_exe_metadata_result w' process _ md s3 s4 Hadd) as [link [libc [-> _]]].
  rewrite !dict_get_set. reflexivity.
Qed.


End CollectorProperties.

Lemma golang_metadata_names_the_version_witness :
  exists v base,
    fst (GolangPerfMetadata._get_golang_version MoreRuns.go_world 0 (mkProcess 42 0)
           Examples.initial_state) = Ok (Some v) /\
    ret []
      (snd (ExeMetadata.add_exe_metadata (fun _ => ret true) Examples.quiet_world
              (mkProcess 42 0) [("golang_version", JStr v)]
              (snd (GolangPerfMetadata._get_golang_version Examples.quiet_world 0
                      (mkProcess 42 0)
                      (snd (GolangPerfMetadata.relevant_for_process MoreRuns.go_world 0
                              (mkProcess 42 0) Examples.initial_state)))))) =
      (Ok base,
       snd (ExeMetadata.make_application_metadata (fun _ => ret true) (fun _ => ret [])
              (fun _ => ret "") Examples.quiet_world (a_GolangPerfMetadata 0) (mkProcess 42 0)
              (snd (GolangPerfMetadata.relevant_for_process MoreRuns.go_world 0
                      (mkProcess 42 0) Examples.initial_state)))) /\
    (dict_get "golang_version" base = None ->
     dict_get "golang_version"
       [("golang_version", JStr ""); ("link", JStr "static"); ("libc", JNull)] =
       Some (JStr v)).
Proof.
  apply (golang_metadata_names_the_version (fun _ => ret true) (fun _ => ret [])
           (fun _ => ret "") MoreRuns.go_world Examples.quiet_world 0 (mkProcess 42 0)
           Examples.initial_state).
  - reflexivity.
  - vm_compute. reflexivity.
Defined.
